(** * Hub [Dataset]: lifecycle, rollback and selector routing

    A shallow embedding of [hub/api/dataset.py].  The dataset object is a
    record, the filesystem behind it a finite map from paths to nodes, and
    every method is a function in a small state-and-exception monad.  The
    collaborators the module imports (the feature/schema package, the
    chunked tensor store, the selector helpers, the url resolver) are
    interfaces: type classes whose operations may fail and may write to the
    filesystem. *)

From Stdlib Require Import String Ascii ZArith List Bool Lia.
From stdpp Require Import base option list gmap strings fin_maps.

Local Open Scope string_scope.
Local Open Scope Z_scope.
Local Set Warnings "-register-all".

(** ** Python string primitives used by the module *)

Module PyStr.

(** [s.startswith(pre)] *)
Definition startswith (pre s : string) : bool := String.prefix pre s.

(** [s[n:]] *)
Fixpoint drop (n : nat) (s : string) : string :=
  match n, s with
  | O, _ => s
  | S n', String _ r => drop n' r
  | S _, EmptyString => EmptyString
  end.

(** [s.endswith(suf)] *)
Definition endswith (suf s : string) : bool :=
  (String.length suf <=? String.length s)%nat
  && String.eqb (drop (String.length s - String.length suf) s) suf.

(** [sub in s], the substring test *)
Definition contains (sub s : string) : bool :=
  match String.index 0 sub s with Some _ => true | None => false end.

(** [s.split(sep)] for a one-character separator; never the empty list *)
Fixpoint split (sep : ascii) (s : string) : list string :=
  match s with
  | EmptyString => [EmptyString]
  | String c r =>
      if Ascii.eqb c sep then EmptyString :: split sep r
      else match split sep r with
           | h :: t => String c h :: t
           | [] => [String c EmptyString]
           end
  end.

(** [posixpath.join(a, b)] *)
Definition posixpath_join (a b : string) : string :=
  if startswith "/" b then b
  else if String.eqb a "" || endswith "/" a then a +:+ b
  else a +:+ "/" +:+ b.

(** The prefix shared by everything inside directory [a]: [a] with one
    separator after it, unless [a] is empty or already ends in one. *)
Definition dir_prefix (a : string) : string :=
  if String.eqb a "" || endswith "/" a then a else a +:+ "/".


End PyStr.

(** ** Exceptions

    Only [Exception] instances are modelled: they are what
    [except Exception] catches. *)

Inductive Exn : Type :=
| AssertionError
| HubDatasetNotFoundException
| NotHubDatasetToOverwriteException
| NotHubDatasetToAppendException
| ValueError (msg : string)
| KeyError (key : string)
| IndexError
| TypeError
| AttributeError
| FileExistsError (path : string)
| JSONDecodeError
| OverflowError
| CollaboratorError (origin detail : string).

(** A computation that returns or raises. *)
Definition Result (A : Type) : Type := (Exn + A)%type.

Definition ok {A} (a : A) : Result A := inr a.
Definition fail {A} (e : Exn) : Result A := inl e.

#[global] Instance Result_ret : MRet Result := fun _ a => inr a.
#[global] Instance Result_bind : MBind Result :=
  fun _ _ f r => match r with inl e => inl e | inr a => f a end.

(** ** JSON documents

    [json.dumps]/[json.loads] and the utf-8 coding are a bijection between
    JSON values and their text: a stored document is represented by the
    value it encodes. *)

Inductive Json : Type :=
| JNull
| JInt (z : Z)
| JStr (s : string)
| JList (l : list Json)
| JObj (items : list (string * Json)).

Fixpoint assoc {A} (k : string) (l : list (string * A)) : option A :=
  match l with
  | [] => None
  | (k', v) :: r => if String.eqb k k' then Some v else assoc k r
  end.

(** [d[k]] on a loaded JSON value *)
Definition json_getitem (j : Json) (k : string) : Result Json :=
  match j with
  | JObj items => match assoc k items with Some v => ok v | None => fail (KeyError k) end
  | _ => fail TypeError
  end.

(** ** The filesystem behind [fsspec]

    Absolute path to node.  [exists], [listdir], [rm(recursive=True)] and
    [makedirs] follow the behaviour of a local or in-memory filesystem. *)

Inductive Content : Type :=
| Raw (bytes : list Byte.byte)
| Doc (j : Json).

Inductive Node : Type :=
| Dir
| File (c : Content).

Abbreviation FS := (gmap string Node).

Module Fs.

(** [k] is [p] or lies somewhere inside directory [p] *)
Definition is_under (p k : string) : bool :=
  String.eqb k p || PyStr.startswith (PyStr.dir_prefix p) k.

(** [k] is an entry of directory [p] itself *)
Definition is_child (p k : string) : bool :=
  PyStr.startswith (PyStr.dir_prefix p) k
  && (let rest := PyStr.drop (String.length (PyStr.dir_prefix p)) k in
      negb (String.eqb rest "") && negb (PyStr.contains "/" rest)).

Definition exists_ (fs : FS) (p : string) : bool :=
  bool_decide (is_Some (fs !! p)).

(** [fs.listdir(p, detail=False)]; listing a file gives the file itself *)
Definition listdir (fs : FS) (p : string) : list string :=
  match fs !! p with
  | Some (File _) => [p]
  | _ => filter (fun k => is_child p k = true) (map fst (map_to_list fs))
  end.

(** [fs.rm(p, recursive=True)]: [p] and everything inside it goes; removing
    a path that is not there changes nothing and is not an error here. *)
Definition rm (fs : FS) (p : string) : FS :=
  filter (fun kv => is_under p kv.1 = false) fs.

(** The proper ancestors of a path: every non-empty prefix that ends
    just before a separator. *)
Fixpoint parents_aux (acc s : string) : list string :=
  match s with
  | EmptyString => []
  | String c r =>
      if Ascii.eqb c "/"
      then (if String.eqb acc "" then [] else [acc]) ++ parents_aux (acc +:+ "/") r
      else parents_aux (acc +:+ String c EmptyString) r
  end.

Definition parents (p : string) : list string := parents_aux "" p.

Definition ensure_dir (fs : FS) (p : string) : FS :=
  match fs !! p with Some _ => fs | None => <[p := Dir]> fs end.

Definition mkparents (fs : FS) (p : string) : FS :=
  foldl ensure_dir fs (parents p).

(** [fs.makedirs(p)] with the default [exist_ok=False] *)
Definition makedirs (fs : FS) (p : string) : Result FS :=
  if exists_ fs p then fail (FileExistsError p)
  else ok (<[p := Dir]> (mkparents fs p)).

(** A storage map rooted at [root] ([get_storage_map(fs, root)]):
    key [k] is the file [root/k]. *)
Definition map_get (fs : FS) (root k : string) : Result Content :=
  match fs !! PyStr.posixpath_join root k with
  | Some (File c) => ok c
  | _ => fail (KeyError k)
  end.

Definition map_set (fs : FS) (root k : string) (c : Content) : FS :=
  let p := PyStr.posixpath_join root k in
  <[p := File c]> (mkparents fs p).

(** [len(fs_map)]: the number of files below the root *)
Definition map_len (fs : FS) (root : string) : nat :=
  length (filter (fun kv : string * Node =>
                    match kv.2 with
                    | File _ => PyStr.startswith (PyStr.dir_prefix root) kv.1
                    | Dir => false
                    end = true) (map_to_list fs)).

End Fs.

(** ** Shapes, field descriptors, selectors and views *)

(** One dimension: a size, or [None] for an unbounded one. *)
Definition Dim : Type := option Z.
Definition Shape : Type := list Dim.

(** [hub.features.features.FlatTensor] *)
Record FlatTensor : Type := {
  ft_path : string;
  ft_shape : Shape;
  ft_max_shape : Shape;
  ft_dtype : string;
  ft_chunks : option (list Z)
}.

(** An [int] or a [slice(start, stop, step)] *)
Inductive RangeTerm : Type :=
| RInt (i : Z)
| RSlice (start stop step : option Z).

(** One element of a selector *)
Inductive SelTerm : Type :=
| SStr (s : string)
| SRange (r : RangeTerm)
| SOther.

(** What is written between the brackets: one object, or an iterable *)
Inductive Selector : Type :=
| Single (t : SelTerm)
| Seq (l : list SelTerm).

(** The index a view or a tensor receives *)
Inductive SliceArg : Type :=
| SlOne (r : RangeTerm)
| SlMany (l : list RangeTerm).

(** [TensorView(dataset=self, subpath, slice_)] *)
Record TensorView : Type := { tv_subpath : string; tv_slice : SliceArg }.

(** [DatasetView(dataset=self, num_samples, offset)] *)
Record DatasetView : Type := { dv_num_samples : Dim; dv_offset : Z }.

(** The nested dictionary of views built by [_get_dictionary]: insertion
    ordered, keys unique. *)
Inductive Tree : Type :=
| TView (v : TensorView)
| TDict (items : list (string * Tree)).

Inductive Item : Type :=
| IDatasetView (v : DatasetView)
| ITensorView (v : TensorView)
| IDict (items : list (string * Tree)).

(** [d[k] = v] on an insertion-ordered dictionary *)
Fixpoint dict_set {A} (k : string) (v : A) (d : list (string * A)) : list (string * A) :=
  match d with
  | [] => [(k, v)]
  | (k', v') :: r => if String.eqb k k' then (k, v) :: r else (k', v') :: dict_set k v r
  end.

Definition dict_keys {A} (d : list (string * A)) : list string := map fst d.

Definition dict_has {A} (k : string) (d : list (string * A)) : bool :=
  match assoc k d with Some _ => true | None => false end.

(** Truth value of the optional range term of [_get_dictionary] *)
Definition truthy_term (o : option RangeTerm) : bool :=
  match o with
  | None => false
  | Some (RInt i) => negb (i =? 0)
  | Some (RSlice _ _ _) => true
  end.

(** Truth value of a subpath: [None] and the empty string are false *)
Definition truthy_subpath (o : option string) : option string :=
  match o with
  | Some s => if String.eqb s "" then None else Some s
  | None => None
  end.

(** Arguments of a [DynamicTensor(...)] call; a keyword that is not
    passed is [None]. *)
Record DTArgs : Type := {
  dt_path : string;
  dt_store_root : string;
  dt_meta_root : string;
  dt_mode : string;
  dt_shape : Shape;
  dt_max_shape : option Shape;
  dt_dtype : option string;
  dt_chunks : option (option (list Z))
}.

(** ** The world: filesystem and the trace of collaborator calls *)

Inductive Event : Type :=
| FsExists (p : string)
| FsListdir (p : string)
| FsRm (p : string)
| FsMakedirs (p : string)
| MapLen (root : string)
| MapGet (root key : string)
| MapSet (root key : string)
| TensorNew (a : DTArgs)
| TensorCommit (path : string)
| TensorSetitem (path : string) (idx : SliceArg)
| DatasetCommit.

Record World : Type := { w_fs : FS; w_log : list Event }.

(** ** State and exception monad *)

Definition M (S A : Type) : Type := S -> S * Result A.

#[global] Instance M_ret {S} : MRet (M S) := fun _ a s => (s, inr a).
#[global] Instance M_bind {S} : MBind (M S) :=
  fun _ _ f m s => match m s with
                   | (s', inl e) => (s', inl e)
                   | (s', inr a) => f a s'
                   end.

Definition raise {S A} (e : Exn) : M S A := fun s => (s, inl e).
Definition lift {S A} (r : Result A) : M S A := fun s => (s, r).

(** [try: m  except Exception: h] where [h] ends in a bare [raise] or
    raises on its own *)
Definition try_except {S A} (m : M S A) (h : Exn -> M S A) : M S A :=
  fun s => match m s with
           | (s', inl e) => h e s'
           | (s', inr a) => (s', inr a)
           end.

Definition log (e : Event) (w : World) : World :=
  {| w_fs := w_fs w; w_log := w_log w ++ [e] |}.

Definition fs_exists (p : string) : M World bool :=
  fun w => (log (FsExists p) w, ok (Fs.exists_ (w_fs w) p)).

Definition get_file_count (p : string) : M World nat :=
  fun w => (log (FsListdir p) w, ok (length (Fs.listdir (w_fs w) p))).

Definition fs_rm (p : string) : M World unit :=
  fun w => ({| w_fs := Fs.rm (w_fs w) p; w_log := w_log w ++ [FsRm p] |}, ok tt).

Definition fs_makedirs (p : string) : M World unit :=
  fun w => match Fs.makedirs (w_fs w) p with
           | inl e => (log (FsMakedirs p) w, inl e)
           | inr fs' => ({| w_fs := fs'; w_log := w_log w ++ [FsMakedirs p] |}, ok tt)
           end.

Definition map_len (root : string) : M World nat :=
  fun w => (log (MapLen root) w, ok (Fs.map_len (w_fs w) root)).

Definition map_get (root k : string) : M World Content :=
  fun w => (log (MapGet root k) w, Fs.map_get (w_fs w) root k).

Definition map_set (root k : string) (c : Content) : M World unit :=
  fun w => ({| w_fs := Fs.map_set (w_fs w) root k c; w_log := w_log w ++ [MapSet root k] |}, ok tt).

(** ** Collaborators *)

(** [hub.features]: [featurify], [serialize], [deserialize] and
    [FeatureConnector._flatten] *)
Class Features : Type := {
  SchemaArg : Type;
  Schema : Type;
  featurify : option SchemaArg -> Result Schema;
  serialize : Schema -> Result Json;
  deserialize : Json -> Result Schema;
  _flatten : Schema -> Result (list FlatTensor)
}.

(** [hub.store.dynamic_tensor.DynamicTensor] over its [MetaStorage]:
    construction, [commit()] and [__setitem__] *)
Class TensorStore : Type := {
  Handle : Type;
  Value : Type;
  DynamicTensor : DTArgs -> FS -> FS * Result Handle;
  tensor_commit : Handle -> FS -> FS * Result Handle;
  tensor_setitem : Handle -> SliceArg -> Value -> FS -> FS * Result Handle
}.

(** [hub.api.dataset_utils] *)
Class DatasetUtils : Type := {
  slice_split : list SelTerm -> Result (option string * list RangeTerm);
  slice_extract_info : RangeTerm -> Dim -> Result (Dim * Z)
}.

(** [hub.store.store.get_fs_and_path]: the path part of a url *)
Class UrlResolver : Type := {
  get_fs_and_path : string -> option string -> Result string
}.

(** ** The dataset *)

Section Dataset.

Context {F : Features} {T : TensorStore} {U : DatasetUtils} {R : UrlResolver}.

(** Arguments of [Dataset(...)].  [a_fs] tells whether the caller passed
    a filesystem object (the world's filesystem stands for it);
    [a_fs_map] is the root of a storage map passed by the caller.  The
    [cache] argument only sizes a cache and is left out. *)
Record Args : Type := {
  a_url : string;
  a_mode : option string;
  a_safe_mode : bool;
  a_shape : option Shape;
  a_schema : option SchemaArg;
  a_token : option string;
  a_fs : bool;
  a_fs_map : option string
}.

Record Dataset : Type := {
  url : string;
  token : option string;
  mode : string;
  _path : string;
  _fs_map : string;
  shape : Shape;
  schema : Schema;
  _flat_tensors : list FlatTensor;
  _tensors : list (string * Handle)
}.

(** [shape or (None,)] *)
Definition shape_or_default (s : option Shape) : Shape :=
  match s with
  | None => [None]
  | Some [] => [None]
  | Some sh => sh
  end.

Definition json_of_dim (d : Dim) : Json :=
  match d with Some n => JInt n | None => JNull end.

Definition json_of_shape (sh : Shape) : Json := JList (map json_of_dim sh).

Definition dim_of_json (j : Json) : Result Dim :=
  match j with
  | JInt n => ok (Some n)
  | JNull => ok None
  | _ => fail TypeError
  end.

Fixpoint dims_of_json (l : list Json) : Result Shape :=
  match l with
  | [] => ok []
  | j :: r => d ← dim_of_json j; sh ← dims_of_json r; ok (d :: sh)
  end.

(** [tuple(meta["shape"])]; the stored shape is a list of integers and
    nulls, which is what [json_of_shape] writes. *)
Definition tuple_of_json (j : Json) : Result Shape :=
  match j with
  | JList l => dims_of_json l
  | _ => fail TypeError
  end.

(** [json.loads(fs_map["meta.json"].decode("utf-8"))] *)
Definition json_loads (c : Content) : Result Json :=
  match c with
  | Doc j => ok j
  | Raw _ => fail JSONDecodeError
  end.

Definition new_tensor (a : DTArgs) : M World Handle :=
  fun w => let '(fs', r) := DynamicTensor a (w_fs w) in
           ({| w_fs := fs'; w_log := w_log w ++ [TensorNew a] |}, r).

(** [Dataset._check_and_prepare_dir]: [true] when the dataset has to be
    created, [false] when it is opened. *)
Definition _check_and_prepare_dir (path mode_ : string) : M World bool :=
  exist_meta ← fs_exists (PyStr.posixpath_join path "meta.json");
  if exist_meta : bool then
    if PyStr.contains "w" mode_ then
      fs_rm path;; fs_makedirs path;; mret true
    else mret false
  else
    if PyStr.contains "r" mode_ then raise HubDatasetNotFoundException
    else
      exist_dir ← fs_exists path;
      if negb exist_dir then fs_makedirs path;; mret true
      else
        n ← get_file_count path;
        if (0 <? n)%nat then
          if PyStr.contains "w" mode_
          then raise NotHubDatasetToOverwriteException
          else raise NotHubDatasetToAppendException
        else mret true.

(** [Dataset._generate_storage_tensors], consumed by [dict(...)] *)
Fixpoint _generate_storage_tensors (path fs_map mode_ : string) (shape_ : Shape)
    (ts : list FlatTensor) (acc : list (string * Handle))
    : M World (list (string * Handle)) :=
  match ts with
  | [] => mret acc
  | t :: rest =>
      let p := PyStr.posixpath_join path (PyStr.drop 1 (ft_path t)) in
      fs_makedirs (PyStr.posixpath_join p "--dynamic--");;
      h ← new_tensor {| dt_path := ft_path t; dt_store_root := p;
                        dt_meta_root := fs_map; dt_mode := mode_;
                        dt_shape := (shape_ ++ ft_shape t)%list;
                        dt_max_shape := Some (shape_ ++ ft_max_shape t)%list;
                        dt_dtype := Some (ft_dtype t);
                        dt_chunks := Some (ft_chunks t) |};
      _generate_storage_tensors path fs_map mode_ shape_ rest
        (dict_set (ft_path t) h acc)
  end.

(** [Dataset._open_storage_tensors], consumed by [dict(...)] *)
Fixpoint _open_storage_tensors (path fs_map mode_ : string) (shape_ : Shape)
    (ts : list FlatTensor) (acc : list (string * Handle))
    : M World (list (string * Handle)) :=
  match ts with
  | [] => mret acc
  | t :: rest =>
      let p := PyStr.posixpath_join path (PyStr.drop 1 (ft_path t)) in
      h ← new_tensor {| dt_path := ft_path t; dt_store_root := p;
                        dt_meta_root := fs_map; dt_mode := mode_;
                        dt_shape := (shape_ ++ ft_shape t)%list;
                        dt_max_shape := None; dt_dtype := None;
                        dt_chunks := None |};
      _open_storage_tensors path fs_map mode_ shape_ rest
        (dict_set (ft_path t) h acc)
  end.

(** [fs_map or get_storage_map(self._fs, self._path, cache)]: a storage
    map with no entry is false. *)
Definition choose_fs_map (path : string) (given : option string) : M World string :=
  match given with
  | None => mret path
  | Some root => n ← map_len root; if (0 <? n)%nat then mret root else mret path
  end.

(** The record stored at ["meta.json"] *)
Definition meta_record (shape_ : Shape) (ser : Json) : Json :=
  JObj [("shape", json_of_shape shape_); ("schema", ser); ("version", JInt 1)].

(** The [else] branch of the constructor, inside [try]. *)
Definition create_body (a : Args) (path fs_map mode_ : string) (shape_ : Shape)
    : M World Dataset :=
  sch ← lift (featurify (a_schema a));
  ser ← lift (serialize sch);
  let meta := meta_record shape_ ser in
  map_set fs_map "meta.json" (Doc meta);;
  flat ← lift (_flatten sch);
  tensors ← _generate_storage_tensors path fs_map mode_ shape_ flat [];
  mret {| url := a_url a; token := a_token a; mode := mode_; _path := path;
          _fs_map := fs_map; shape := shape_; schema := sch;
          _flat_tensors := flat; _tensors := tensors |}.

(** The [if not needcreate] branch of the constructor. *)
Definition open_body (a : Args) (path fs_map mode_ : string) : M World Dataset :=
  c ← map_get fs_map "meta.json";
  meta ← lift (json_loads c);
  shape_j ← lift (json_getitem meta "shape");
  shape_ ← lift (tuple_of_json shape_j);
  schema_j ← lift (json_getitem meta "schema");
  sch ← lift (deserialize schema_j);
  flat ← lift (_flatten sch);
  tensors ← _open_storage_tensors path fs_map mode_ shape_ flat [];
  mret {| url := a_url a; token := a_token a; mode := mode_; _path := path;
          _fs_map := fs_map; shape := shape_; schema := sch;
          _flat_tensors := flat; _tensors := tensors |}.

(** [(fs, url) if fs else get_fs_and_path(self.url, token=token)] *)
Definition resolve_path (a : Args) : Result string :=
  if a_fs a then ok (a_url a) else get_fs_and_path (a_url a) (a_token a).

(** [Dataset.__init__].  [self_mode] is the attribute [self.mode], set
    before the directory is prepared; [mode'] is the local variable
    [mode] after the safe-mode assignment, which nothing reads. *)
Definition __init__ (a : Args) : M World Dataset :=
  let shape_ := shape_or_default (a_shape a) in
  if negb (length shape_ =? 1)%nat then raise AssertionError
  else
    match a_mode a with
    | None => raise AssertionError
    | Some mode_ =>
        let self_mode := mode_ in
        path ← lift (resolve_path a);
        needcreate ← _check_and_prepare_dir path self_mode;
        fs_map ← choose_fs_map path (a_fs_map a);
        let mode' := if a_safe_mode a && negb needcreate then "r" else mode_ in
        if negb needcreate then open_body a path fs_map self_mode
        else
          try_except (create_body a path fs_map self_mode shape_)
                     (fun e => fs_rm path;; raise e)
    end.

(** The constructor, called with [a] in world [w], passes its two
    assertions, resolves the url to [path], gets [needcreate] from
    [_check_and_prepare_dir] and settles on the storage map rooted at
    [fs_map]; [w1] is the world at that point. *)
Definition resolves_to (a : Args) (w : World) (needcreate : bool)
    (path fs_map mode_ : string) (w1 : World) : Prop :=
  length (shape_or_default (a_shape a)) = 1%nat
  /\ a_mode a = Some mode_
  /\ resolve_path a = ok path
  /\ exists w0, _check_and_prepare_dir path mode_ w = (w0, ok needcreate)
             /\ choose_fs_map path (a_fs_map a) w0 = (w1, ok fs_map).

(** *** Indexing *)

(** [list(slice_)], after wrapping a non-iterable or a [str] *)
Definition as_list (sel : Selector) : list SelTerm :=
  match sel with
  | Single t => [t]
  | Seq l => l
  end.

(** [slice_list[0]] *)
Definition first_term (l : list RangeTerm) : Result RangeTerm :=
  match l with
  | [] => fail IndexError
  | t :: _ => ok t
  end.

(** [self.shape[0]] *)
Definition shape0 (ds : Dataset) : Result Dim :=
  match shape ds with
  | [] => fail IndexError
  | d :: _ => ok d
  end.

(** The walk of [_get_dictionary] along [split_key]: every segment but
    the last is looked up, and created as an empty dictionary when it is
    missing; the last one is assigned the view.  Going through an entry
    that is a view and not a dictionary raises. *)
Fixpoint dict_insert (segs : list string) (last : string)
    (mk : Result Tree) (d : list (string * Tree)) : Result (list (string * Tree)) :=
  match segs with
  | [] => v ← mk; ok (dict_set last v d)
  | s :: segs' =>
      match assoc s d with
      | None =>
          sub ← dict_insert segs' last mk [];
          ok (dict_set s (TDict sub) d)
      | Some (TDict cur) =>
          sub ← dict_insert segs' last mk cur;
          ok (dict_set s (TDict sub) d)
      | Some (TView _) => fail AttributeError
      end
  end.

(** The body of the [for key in self._tensors.keys()] loop of
    [_get_dictionary]; the state is [(tensor_dict, slice_)]. *)
Definition get_dictionary_step (ds : Dataset) (subpath : string)
    (st : list (string * Tree) * option RangeTerm) (key : string)
    : Result (list (string * Tree) * option RangeTerm) :=
  let '(tensor_dict, slice_) := st in
  if PyStr.startswith subpath key then
    let suffix_key := PyStr.drop (String.length subpath) key in
    let split_key := PyStr.split "/" suffix_key in
    let slice_' : Result RangeTerm :=
      if truthy_term slice_
      then match slice_ with Some t => ok t | None => fail TypeError end
      else d ← shape0 ds; ok (RSlice (Some 0) d None) in
    let view := t ← slice_'; ok (TView {| tv_subpath := key; tv_slice := SlOne t |}) in
    d ← dict_insert (removelast split_key) (List.last split_key "") view tensor_dict;
    t ← slice_';
    ok (d, Some t)
  else ok st.

Fixpoint get_dictionary_loop (ds : Dataset) (subpath : string)
    (keys : list string) (st : list (string * Tree) * option RangeTerm)
    : Result (list (string * Tree) * option RangeTerm) :=
  match keys with
  | [] => ok st
  | key :: rest =>
      st' ← get_dictionary_step ds subpath st key;
      get_dictionary_loop ds subpath rest st'
  end.

(** [Dataset._get_dictionary] *)
Definition _get_dictionary (ds : Dataset) (subpath : string)
    (slice_ : option RangeTerm) : Result (list (string * Tree)) :=
  let subpath := if PyStr.endswith "/" subpath then subpath else subpath +:+ "/" in
  st ← get_dictionary_loop ds subpath (dict_keys (_tensors ds)) ([], slice_);
  if (length st.1 =? 0)%nat
  then fail (KeyError ("Key " +:+ subpath +:+ " was not found in dataset"))
  else ok st.1.

(** [Dataset.__getitem__] *)
Definition __getitem__ (ds : Dataset) (sel : Selector) : Result Item :=
  '(subpath, slice_list) ← slice_split (as_list sel);
  match truthy_subpath subpath with
  | None =>
      if (1 <? length slice_list)%nat then
        fail (ValueError "Can't slice a dataset with multiple slices without subpath")
      else
        t ← first_term slice_list;
        d ← shape0 ds;
        '(num, ofs) ← slice_extract_info t d;
        ok (IDatasetView {| dv_num_samples := num; dv_offset := ofs |})
  | Some sp =>
      match slice_list with
      | [] =>
          if dict_has sp (_tensors ds) then
            d ← shape0 ds;
            ok (ITensorView {| tv_subpath := sp;
                               tv_slice := SlOne (RSlice (Some 0) d None) |})
          else d ← _get_dictionary ds sp None; ok (IDict d)
      | t :: _ =>
          d ← shape0 ds;
          _ ← slice_extract_info t d;
          if dict_has sp (_tensors ds) then
            ok (ITensorView {| tv_subpath := sp; tv_slice := SlMany slice_list |})
          else if (1 <? length slice_list)%nat then
            fail (ValueError "You can't slice a dictionary of Tensors")
          else d ← _get_dictionary ds sp (Some t); ok (IDict d)
      end
  end.

(** *** Methods that change the object *)

Record St : Type := { world : World; self : Dataset }.

Definition set_tensor (k : string) (h : Handle) (ds : Dataset) : Dataset :=
  {| url := url ds; token := token ds; mode := mode ds; _path := _path ds;
     _fs_map := _fs_map ds; shape := shape ds; schema := schema ds;
     _flat_tensors := _flat_tensors ds;
     _tensors := dict_set k h (_tensors ds) |}.

(** One call on the handle registered at [k]: the handle and the
    filesystem take the state the call leaves. *)
Definition on_tensor (k : string) (ev : Event)
    (op : Handle -> FS -> FS * Result Handle) : M St unit :=
  fun st =>
    match assoc k (_tensors (self st)) with
    | None => (st, fail (KeyError k))
    | Some h =>
        let '(fs', r) := op h (w_fs (world st)) in
        let w' := {| w_fs := fs'; w_log := w_log (world st) ++ [ev] |} in
        match r with
        | inl e => ({| world := w'; self := self st |}, inl e)
        | inr h' => ({| world := w'; self := set_tensor k h' (self st) |}, ok tt)
        end
    end.

(** [Dataset.__setitem__] *)
Definition __setitem__ (sel : Selector) (value : Value) : M St unit :=
  '(subpath, slice_list) ← lift (slice_split (as_list sel));
  match truthy_subpath subpath with
  | None => raise (ValueError "Can't assign to dataset sliced without subpath")
  | Some sp =>
      match slice_list with
      | [] =>
          let idx := SlOne (RSlice None None None) in
          on_tensor sp (TensorSetitem sp idx) (fun h => tensor_setitem h idx value)
      | _ =>
          let idx := SlMany slice_list in
          on_tensor sp (TensorSetitem sp idx) (fun h => tensor_setitem h idx value)
      end
  end.

Fixpoint commit_each (keys : list string) : M St unit :=
  match keys with
  | [] => mret tt
  | k :: rest => on_tensor k (TensorCommit k) tensor_commit;; commit_each rest
  end.

(** [Dataset.commit]; the entry into the method is recorded in the
    trace. *)
Definition commit : M St unit :=
  fun st =>
    commit_each (dict_keys (_tensors (self st)))
      {| world := log DatasetCommit (world st); self := self st |}.

(** What a method returns to the [with] statement *)
Inductive ExitValue : Type :=
| PyNone
| PyBool (b : bool).

Definition truthy_exit (v : ExitValue) : bool :=
  match v with
  | PyNone => false
  | PyBool b => b
  end.

(** [Dataset.__enter__] *)
Definition __enter__ : M St Dataset := fun st => (st, ok (self st)).

(** [Dataset.__exit__]: no [return] statement, so [None] *)
Definition __exit__ (exc : option Exn) : M St ExitValue :=
  commit;; mret PyNone.

(** [with ds as target: body].  [Some a] when the body returned [a],
    [None] when its exception was suppressed by [__exit__]. *)
Definition with_ {A} (body : Dataset -> M St A) : M St (option A) :=
  fun st =>
    match __enter__ st with
    | (st0, inl e) => (st0, inl e)
    | (st0, inr target) =>
        match body target st0 with
        | (st1, inr a) =>
            match __exit__ None st1 with
            | (st2, inl e) => (st2, inl e)
            | (st2, inr _) => (st2, ok (Some a))
            end
        | (st1, inl e) =>
            match __exit__ (Some e) st1 with
            | (st2, inl e') => (st2, inl e')
            | (st2, inr v) => if truthy_exit v then (st2, ok None) else (st2, inl e)
            end
        end
    end.

End Dataset.

(** ** Length, iteration and the framework adapters *)

(** Reading one sample out of a field store, [self._tensors[key][index]],
    and [torch.tensor(...)] on what was read *)
Class TensorRead {T : TensorStore} : Type := {
  Sample : Type;
  TorchTensor : Type;
  tensor_getitem : Handle -> Z -> FS -> Result Sample;
  torch_tensor : Sample -> Result TorchTensor
}.

(** A nested dictionary with leaves of type [A]: the per-sample record
    the adapters build *)
Inductive Nested (A : Type) : Type :=
| NLeaf (a : A)
| NDict (items : list (string * Nested A)).

Arguments NLeaf {A} a.
Arguments NDict {A} items.

(** The walk shared by [to_tensorflow.tf_gen], [TorchDataset.__getitem__]
    and [TorchDataset.__iter__]: every inner segment is entered, or
    created as an empty dictionary when it is missing, and the last
    segment is assigned the value.  The value is computed after the walk
    and before the assignment.  Entering a leaf raises: [AttributeError]
    from [cur.keys()] when another segment follows, the leaf's own
    refusal of item assignment when the value is to be stored in it. *)
Fixpoint nested_insert {A} (segs : list string) (last : string)
    (mk : Result A) (d : list (string * Nested A)) : Result (list (string * Nested A)) :=
  match segs with
  | [] => v ← mk; ok (dict_set last (NLeaf v) d)
  | s :: segs' =>
      match assoc s d with
      | None =>
          sub ← nested_insert segs' last mk [];
          ok (dict_set s (NDict sub) d)
      | Some (NDict cur) =>
          sub ← nested_insert segs' last mk cur;
          ok (dict_set s (NDict sub) d)
      | Some (NLeaf _) =>
          match segs' with
          | [] => _ ← mk; fail (CollaboratorError "leaf" "__setitem__")
          | _ :: _ => fail AttributeError
          end
      end
  end.

(** One turn of [for key in self._tensors.keys()]: the segments at
    positions [1 .. len-2] of [key.split("/")] are walked, the last one is
    assigned. *)
Definition record_step {A} (leaf : string -> Result A)
    (d : list (string * Nested A)) (key : string) : Result (list (string * Nested A)) :=
  let split_key := PyStr.split "/" key in
  nested_insert (removelast (tail split_key)) (List.last split_key "") (leaf key) d.

Fixpoint build_record {A} (leaf : string -> Result A) (keys : list string)
    (d : list (string * Nested A)) : Result (list (string * Nested A)) :=
  match keys with
  | [] => ok d
  | key :: rest => d' ← record_step leaf d key; build_record leaf rest d'
  end.

(** [sys.maxsize] of a 64-bit build *)
Definition sys_maxsize : Z := 2 ^ 63 - 1.

(** [range(n)] for an [n] that may be [None] *)
Definition py_range (n : Dim) : Result (list Z) :=
  match n with
  | None => fail TypeError
  | Some n => ok (map Z.of_nat (seq 0 (Z.to_nat n)))
  end.

(** What a generator yields before it ends ([None]) or raises *)
Fixpoint yield_each {A} (f : Z -> Result A) (indices : list Z) : list A * option Exn :=
  match indices with
  | [] => ([], None)
  | i :: rest =>
      match f i with
      | inl e => ([], Some e)
      | inr a => let '(l, e) := yield_each f rest in (a :: l, e)
      end
  end.

Section Adapters.

Context {F : Features} {T : TensorStore} {U : DatasetUtils} {RD : TensorRead}.

(** [Dataset.__len__] *)
Definition __len__ (ds : Dataset) : Result Dim := shape0 ds.

(** [len(ds)]: the built-in wants from [__len__] an integer that is not
    negative and fits an index, at most [sys.maxsize] *)
Definition py_len (ds : Dataset) : Result Z :=
  d ← __len__ ds;
  match d with
  | None => fail TypeError
  | Some n =>
      if n <? 0 then fail (ValueError "__len__() should return >= 0")
      else if sys_maxsize <? n then fail OverflowError
      else ok n
  end.

(** [Dataset.__iter__], a generator: [for i in range(len(self)): yield self[i]] *)
Definition __iter__ (ds : Dataset) : list Item * option Exn :=
  match py_len ds with
  | inl e => ([], Some e)
  | inr n =>
      match py_range (Some n) with
      | inl e => ([], Some e)
      | inr indices =>
          yield_each (fun i => __getitem__ ds (Single (SRange (RInt i)))) indices
      end
  end.

(** [self._tensors[key][index]] *)
Definition sample_at (ds : Dataset) (fs : FS) (index : Z) (key : string) : Result Sample :=
  match assoc key (_tensors ds) with
  | None => fail (KeyError key)
  | Some h => tensor_getitem h index fs
  end.

(** The record [to_tensorflow.tf_gen] yields for [index]; the field
    stores are read in the filesystem [fs]. *)
Definition tf_record (ds : Dataset) (fs : FS) (index : Z)
    : Result (list (string * Nested Sample)) :=
  build_record (sample_at ds fs index) (dict_keys (_tensors ds)) [].

(** [to_tensorflow.tf_gen], a generator over [range(self.shape[0])] *)
Definition tf_gen (ds : Dataset) (fs : FS)
    : list (list (string * Nested Sample)) * option Exn :=
  match shape0 ds with
  | inl e => ([], Some e)
  | inr n =>
      match py_range n with
      | inl e => ([], Some e)
      | inr indices => yield_each (tf_record ds fs) indices
      end
  end.

(** [TorchDataset.__len__] *)
Definition torch_len (ds : Dataset) : Result Dim := shape0 ds.

(** [TorchDataset.__getitem__]: the same walk, each value passed through
    [torch.tensor]; the transform is not applied. *)
Definition torch_getitem (ds : Dataset) (fs : FS) (index : Z)
    : Result (list (string * Nested TorchTensor)) :=
  build_record (fun key => s ← sample_at ds fs index key; torch_tensor s)
    (dict_keys (_tensors ds)) [].

End Adapters.

(** ** The lifecycle table of the specification (section 4.1)

    Written from the table, row by row; the first row whose guard holds
    decides.  The model of the code is compared with it below. *)

Module Lifecycle.

Inductive DirState : Type := DirAbsent | DirEmpty | DirNonempty.

(** What a row does to the target location before it resolves *)
Inductive Effect : Type := NoEffect | DestroyRecreate | CreateDir.

Inductive Resolution : Type :=
| Create
| Open
| Fails (e : Exn).

Record Inputs : Type := {
  metadata_exists : bool;
  mode_has_write : bool;
  mode_is_read : bool;
  directory : DirState
}.

Definition is_nonempty (d : DirState) : bool :=
  match d with DirNonempty => true | _ => false end.

Definition is_absent (d : DirState) : bool :=
  match d with DirAbsent => true | _ => false end.

(** The seven rows: guard, effect, resolution. *)
Definition rows : list ((Inputs -> bool) * (Effect * Resolution)) :=
  [ (fun i => metadata_exists i && mode_has_write i, (DestroyRecreate, Create));
    (fun i => metadata_exists i && negb (mode_has_write i), (NoEffect, Open));
    (fun i => negb (metadata_exists i) && mode_is_read i,
      (NoEffect, Fails HubDatasetNotFoundException));
    (fun i => negb (metadata_exists i) && is_absent (directory i), (CreateDir, Create));
    (fun i => negb (metadata_exists i) && mode_has_write i && is_nonempty (directory i),
      (NoEffect, Fails NotHubDatasetToOverwriteException));
    (fun i => negb (metadata_exists i) && negb (mode_has_write i)
              && is_nonempty (directory i),
      (NoEffect, Fails NotHubDatasetToAppendException));
    (fun i => negb (metadata_exists i) && negb (is_nonempty (directory i))
              && negb (mode_is_read i),
      (NoEffect, Create)) ].

Fixpoint first_match (i : Inputs) (rs : list ((Inputs -> bool) * (Effect * Resolution)))
    : option (Effect * Resolution) :=
  match rs with
  | [] => None
  | (guard, out) :: rest => if guard i then Some out else first_match i rest
  end.

Definition resolve (i : Inputs) : option (Effect * Resolution) := first_match i rows.

(** The inputs of the table, read off a filesystem and a mode string *)
Definition dir_state (fs : FS) (path : string) : DirState :=
  if negb (Fs.exists_ fs path) then DirAbsent
  else if (0 <? length (Fs.listdir fs path))%nat then DirNonempty
  else DirEmpty.

Definition inputs (fs : FS) (path mode_ : string) : Inputs :=
  {| metadata_exists := Fs.exists_ fs (PyStr.posixpath_join path "meta.json");
     mode_has_write := PyStr.contains "w" mode_;
     mode_is_read := PyStr.contains "r" mode_;
     directory := dir_state fs path |}.

(** The filesystem a row leaves *)
Definition apply_effect (eff : Effect) (fs : FS) (path : string) : FS :=
  match eff with
  | NoEffect => fs
  | DestroyRecreate => <[path := Dir]> (Fs.mkparents (Fs.rm fs path) path)
  | CreateDir => <[path := Dir]> (Fs.mkparents fs path)
  end.

(** What the constructor sees of a resolution: [needcreate] or an error *)
Definition outcome (r : Resolution) : Result bool :=
  match r with
  | Create => ok true
  | Open => ok false
  | Fails e => fail e
  end.

End Lifecycle.

(** ** Reference collaborators

    Small executable instances of the four interfaces, used to run the
    model on concrete datasets. *)

(** Modelled from the spec: the schema tree of section 3, a tagged variant
    over primitive, tensor and group nodes; [hub.features] itself is not
    part of the sources. *)
Inductive SchemaNode : Type :=
| Primitive (dtype : string)
| TensorNode (shape : Shape) (dtype : string) (chunks : option (list Z))
| GroupNode (fields : list (string * SchemaNode)).

(** Modelled from the spec: flattening is a depth-first traversal in
    declaration order that emits one descriptor per leaf, its path built
    from the names on the way down. *)
Fixpoint flatten_node (prefix : string) (s : SchemaNode) : list FlatTensor :=
  match s with
  | Primitive dt =>
      [{| ft_path := prefix; ft_shape := []; ft_max_shape := [];
          ft_dtype := dt; ft_chunks := None |}]
  | TensorNode sh dt ch =>
      [{| ft_path := prefix; ft_shape := sh; ft_max_shape := sh;
          ft_dtype := dt; ft_chunks := ch |}]
  | GroupNode fields =>
      (fix go (l : list (string * SchemaNode)) : list FlatTensor :=
         match l with
         | [] => []
         | (name, child) :: rest =>
             (flatten_node (prefix +:+ "/" +:+ name) child ++ go rest)%list
         end) fields
  end.

Definition json_of_chunks (c : option (list Z)) : Json :=
  match c with
  | None => JNull
  | Some l => JList (map JInt l)
  end.

Fixpoint serialize_node (s : SchemaNode) : Json :=
  match s with
  | Primitive dt => JList [JStr "primitive"; JStr dt]
  | TensorNode sh dt ch =>
      JList [JStr "tensor"; json_of_shape sh; JStr dt; json_of_chunks ch]
  | GroupNode fields =>
      JObj ((fix go (l : list (string * SchemaNode)) : list (string * Json) :=
               match l with
               | [] => []
               | (name, child) :: rest => (name, serialize_node child) :: go rest
               end) fields)
  end.

Fixpoint ints_of_json (l : list Json) : Result (list Z) :=
  match l with
  | [] => ok []
  | JInt z :: r => zs ← ints_of_json r; ok (z :: zs)
  | _ => fail TypeError
  end.

Definition chunks_of_json (j : Json) : Result (option (list Z)) :=
  match j with
  | JNull => ok None
  | JList l => zs ← ints_of_json l; ok (Some zs)
  | _ => fail TypeError
  end.

Fixpoint deserialize_node (j : Json) : Result SchemaNode :=
  match j with
  | JList [JStr "primitive"; JStr dt] => ok (Primitive dt)
  | JList [JStr "tensor"; sh; JStr dt; ch] =>
      sh' ← tuple_of_json sh; ch' ← chunks_of_json ch; ok (TensorNode sh' dt ch')
  | JObj items =>
      fields ← (fix go (l : list (string * Json)) : Result (list (string * SchemaNode)) :=
                  match l with
                  | [] => ok []
                  | (name, child) :: rest =>
                      c ← deserialize_node child; cs ← go rest; ok ((name, c) :: cs)
                  end) items;
      ok (GroupNode fields)
  | _ => fail TypeError
  end.

Definition SpecFeatures : Features :=
  {| SchemaArg := SchemaNode;
     Schema := SchemaNode;
     featurify := fun o => match o with Some s => ok s | None => fail TypeError end;
     serialize := fun s => ok (serialize_node s);
     deserialize := deserialize_node;
     _flatten := fun s => ok (flatten_node "" s) |}.

(** An in-memory tensor store.  A handle remembers how it was built and
    what was assigned to it; construction puts one file in the field's
    own namespace and rejects the dtype ["object"]; a handle opened in a
    mode without ["w"] or ["a"] rejects assignment. *)
Record MemHandle : Type := {
  h_args : DTArgs;
  h_assigned : list (SliceArg * Z);
  h_commits : nat
}.

Definition mem_new (a : DTArgs) (fs : FS) : FS * Result MemHandle :=
  match dt_dtype a with
  | Some "object" => (fs, fail (CollaboratorError "DynamicTensor" "dtype"))
  | _ => (Fs.map_set fs (dt_store_root a) "chunks" (Raw []),
          ok {| h_args := a; h_assigned := []; h_commits := 0 |})
  end.

Definition mem_commit (h : MemHandle) (fs : FS) : FS * Result MemHandle :=
  (fs, ok {| h_args := h_args h; h_assigned := h_assigned h;
             h_commits := S (h_commits h) |}).

Definition mem_setitem (h : MemHandle) (idx : SliceArg) (v : Z) (fs : FS)
    : FS * Result MemHandle :=
  if PyStr.contains "w" (dt_mode (h_args h)) || PyStr.contains "a" (dt_mode (h_args h))
  then (fs, ok {| h_args := h_args h;
                  h_assigned := (h_assigned h ++ [(idx, v)])%list;
                  h_commits := h_commits h |})
  else (fs, fail (CollaboratorError "DynamicTensor" "read-only")).

Definition MemTensors : TensorStore :=
  {| Handle := MemHandle; Value := Z;
     DynamicTensor := mem_new; tensor_commit := mem_commit;
     tensor_setitem := mem_setitem |}.

Fixpoint all_ranges (l : list SelTerm) : Result (list RangeTerm) :=
  match l with
  | [] => ok []
  | SRange r :: rest => rs ← all_ranges rest; ok (r :: rs)
  | _ => fail TypeError
  end.

(** Modelled from the spec: the router of section 4.3 takes at most one
    leading path term and keeps the remaining terms, which must all be
    range terms, in order; a path is matched against the slash-led field
    paths.  [hub.api.dataset_utils] is not part of the sources. *)
Definition spec_slice_split (l : list SelTerm)
    : Result (option string * list RangeTerm) :=
  match l with
  | SStr s :: rest =>
      rs ← all_ranges rest;
      ok (Some (if PyStr.startswith "/" s then s else "/" +:+ s), rs)
  | _ => rs ← all_ranges l; ok (None, rs)
  end.

(** Modelled from the spec: a range term is resolved against the sample
    count into a number of samples and an offset. *)
Definition spec_slice_extract_info (t : RangeTerm) (n : Dim) : Result (Dim * Z) :=
  match t with
  | RInt i => ok (Some 1, i)
  | RSlice start stop _ =>
      let ofs := default 0 start in
      match (match stop with Some s => Some s | None => n end) with
      | Some s => ok (Some (s - ofs), ofs)
      | None => ok (None, ofs)
      end
  end.

Definition SpecUtils : DatasetUtils :=
  {| slice_split := spec_slice_split;
     slice_extract_info := spec_slice_extract_info |}.

(** The url is the path. *)
Definition PlainUrls : UrlResolver :=
  {| get_fs_and_path := fun u _ => ok u |}.

(** Reading from the in-memory store: the value last assigned at that
    one position, [0] when none was.  [torch.tensor] wraps the value. *)
Definition at_position (i : Z) (idx : SliceArg) : bool :=
  match idx with
  | SlOne (RInt j) => Z.eqb i j
  | SlMany [RInt j] => Z.eqb i j
  | _ => false
  end.

Definition mem_getitem (h : MemHandle) (i : Z) (fs : FS) : Result Z :=
  ok (foldl (fun acc '(idx, v) => if at_position i idx then v else acc) 0 (h_assigned h)).

Definition MemReads : @TensorRead MemTensors :=
  @Build_TensorRead MemTensors Z (list Z) mem_getitem (fun s => ok [s]).

(** ** Reading a trace

    When the metadata record is written, relative to the construction of
    the field stores. *)

Definition is_meta_write (ev : Event) : bool :=
  match ev with
  | MapSet _ k => String.eqb k "meta.json"
  | _ => false
  end.

Definition is_tensor_new (ev : Event) : bool :=
  match ev with
  | TensorNew _ => true
  | _ => false
  end.

(** The events before and after the first write of the record *)
Fixpoint split_at_meta_write (evs : list Event) : option (list Event * list Event) :=
  match evs with
  | [] => None
  | ev :: rest =>
      if is_meta_write ev then Some ([], rest)
      else match split_at_meta_write rest with
           | Some (pre, post) => Some (ev :: pre, post)
           | None => None
           end
  end.

(** Section 4.5 read on a trace: the record is written exactly once, and
    that write comes after the construction of every field store. *)
Definition written_once_after_stores (evs : list Event) : bool :=
  match split_at_meta_write evs with
  | Some (_, post) =>
      forallb (fun ev => negb (is_meta_write ev) && negb (is_tensor_new ev)) post
  | None => false
  end.

(** The other order: the record is written exactly once, and that write
    comes before the construction of every field store. *)
Definition written_once_before_stores (evs : list Event) : bool :=
  match split_at_meta_write evs with
  | Some (pre, post) =>
      forallb (fun ev => negb (is_tensor_new ev)) pre
      && forallb (fun ev => negb (is_meta_write ev)) post
  | None => false
  end.

(** A field store, if [ev] constructs one, is constructed in mode [m]. *)
Definition opened_with (m : string) (ev : Event) : bool :=
  match ev with
  | TensorNew a => String.eqb (dt_mode a) m
  | _ => true
  end.

Definition is_dataset_commit (ev : Event) : bool :=
  match ev with
  | DatasetCommit => true
  | _ => false
  end.

(** An event that is neither a write of the record nor the construction
    of a field store *)
Definition quiet (ev : Event) : bool :=
  negb (is_meta_write ev) && negb (is_tensor_new ev).

Definition count_events (p : Event -> bool) (evs : list Event) : nat :=
  length (List.filter p evs).

(** [w'] continues the trace of [w] with events that satisfy [p] only. *)
Definition extends_with (p : Event -> bool) (w w' : World) : Prop :=
  exists evs, w_log w' = (w_log w ++ evs)%list /\ forallb p evs = true.

(** Every run of [m] continues the trace with events that satisfy [p]. *)
Definition emits {A} (p : Event -> bool) (m : M World A) : Prop :=
  forall w, extends_with p w (m w).1.

(** ** What a dataset location holds *)

(** The keys of a dictionary after [d[k] = v] *)
Definition keys_set (k : string) (keys : list string) : list string :=
  if existsb (String.eqb k) keys then keys else (keys ++ [k])%list.

(** The keys of [dict(...)] over the pairs generated for [ts], on top of
    the keys [acc] *)
Fixpoint registered_paths (ts : list FlatTensor) (acc : list string) : list string :=
  match ts with
  | [] => acc
  | t :: rest => registered_paths rest (keys_set (ft_path t) acc)
  end.

(** The ["shape"] and ["schema"] entries of the record stored under
    [root] *)
Definition stored_definition (fs : FS) (root : string) : Result (Json * Json) :=
  c ← Fs.map_get fs root "meta.json";
  meta ← json_loads c;
  shape_j ← json_getitem meta "shape";
  schema_j ← json_getitem meta "schema";
  ok (shape_j, schema_j).

(** The contract of the tensor store towards the dataset's record:
    constructing a handle and committing one may rewrite ["meta.json"],
    but leave its ["shape"] and ["schema"] entries as they are. *)
Definition keeps_definition {T : TensorStore} (root : string) : Prop :=
  (forall a fs d, stored_definition fs root = ok d ->
                  stored_definition (DynamicTensor a fs).1 root = ok d)
  /\ (forall h fs d, stored_definition fs root = ok d ->
                     stored_definition (tensor_commit h fs).1 root = ok d).

(** ** The views of a grouped result *)

Fixpoint tree_views (t : Tree) : list TensorView :=
  match t with
  | TView v => [v]
  | TDict items =>
      (fix go (l : list (string * Tree)) : list TensorView :=
         match l with
         | [] => []
         | (_, x) :: rest => (tree_views x ++ go rest)%list
         end) items
  end.

(** Every view held, at any depth, by a dictionary of [_get_dictionary] *)
Definition dict_views (d : list (string * Tree)) : list TensorView :=
  tree_views (TDict d).

(** ** More of the constructor's trace *)

(** A call that only looks: [fs.exists] or [fs.listdir] *)
Definition is_lookup (ev : Event) : bool :=
  match ev with
  | FsExists _ | FsListdir _ => true
  | _ => false
  end.

(** The arguments [_generate_storage_tensors] builds for descriptor [t] *)
Definition create_args (path fs_map mode_ : string) (shape_ : Shape) (t : FlatTensor)
    : DTArgs :=
  {| dt_path := ft_path t;
     dt_store_root := PyStr.posixpath_join path (PyStr.drop 1 (ft_path t));
     dt_meta_root := fs_map; dt_mode := mode_;
     dt_shape := (shape_ ++ ft_shape t)%list;
     dt_max_shape := Some (shape_ ++ ft_max_shape t)%list;
     dt_dtype := Some (ft_dtype t);
     dt_chunks := Some (ft_chunks t) |}.

(** The arguments [_open_storage_tensors] builds for descriptor [t] *)
Definition open_args (path fs_map mode_ : string) (shape_ : Shape) (t : FlatTensor)
    : DTArgs :=
  {| dt_path := ft_path t;
     dt_store_root := PyStr.posixpath_join path (PyStr.drop 1 (ft_path t));
     dt_meta_root := fs_map; dt_mode := mode_;
     dt_shape := (shape_ ++ ft_shape t)%list;
     dt_max_shape := None; dt_dtype := None; dt_chunks := None |}.

(** The field stores a trace constructs, in order *)
Fixpoint tensor_new_args (evs : list Event) : list DTArgs :=
  match evs with
  | [] => []
  | TensorNew a :: rest => a :: tensor_new_args rest
  | _ :: rest => tensor_new_args rest
  end.

(** The same constructor call with another [safe_mode] *)
Definition with_safe_mode {F : Features} (b : bool) (a : Args) : Args :=
  {| a_url := a_url a; a_mode := a_mode a; a_safe_mode := b; a_shape := a_shape a;
     a_schema := a_schema a; a_token := a_token a; a_fs := a_fs a;
     a_fs_map := a_fs_map a |}.

(** ** What the methods leave of a dataset *)

(** Two states of a dataset object with the same definition: url, mode,
    paths, sample shape, schema, flattened descriptors and registered
    field paths; only the field handles may differ. *)
Definition same_definition {F : Features} {T : TensorStore} (ds ds' : Dataset) : Prop :=
  url ds' = url ds /\ token ds' = token ds /\ mode ds' = mode ds
  /\ _path ds' = _path ds /\ _fs_map ds' = _fs_map ds
  /\ shape ds' = shape ds /\ schema ds' = schema ds
  /\ _flat_tensors ds' = _flat_tensors ds
  /\ dict_keys (_tensors ds') = dict_keys (_tensors ds).

(** ** Comparing records *)

(** A function applied to every leaf *)
Fixpoint nested_map {A B} (g : A -> B) (n : Nested A) : Nested B :=
  match n with
  | NLeaf a => NLeaf (g a)
  | NDict items => NDict (map (fun '(k, x) => (k, nested_map g x)) items)
  end.

Definition record_map {A B} (g : A -> B) (d : list (string * Nested A))
    : list (string * Nested B) :=
  map (fun '(k, x) => (k, nested_map g x)) d.

(** The dictionary of [_get_dictionary] as a record of views *)
Fixpoint tree_to_nested (t : Tree) : Nested TensorView :=
  match t with
  | TView v => NLeaf v
  | TDict items => NDict (map (fun '(k, x) => (k, tree_to_nested x)) items)
  end.

Definition dict_to_record (d : list (string * Tree)) : list (string * Nested TensorView) :=
  map (fun '(k, x) => (k, tree_to_nested x)) d.

(** The keys and the nesting of a record, without its leaves *)
Definition skeleton {A} (d : list (string * Nested A)) : list (string * Nested unit) :=
  record_map (fun _ => tt) d.

(** The result of a computation passed through a function *)
Definition result_map {A B} (g : A -> B) (r : Result A) : Result B :=
  match r with
  | inl e => inl e
  | inr a => inr (g a)
  end.

(** * [hub/training/model.py]

    [Model.load] and [Model.store]: resolution of the path, dispatch on
    the file extension or on the class of the model, and the one file
    that is read or written.  The libraries the module imports when they
    are installed are an interface. *)

Module Training.

(** The exceptions of this module that [Exn] does not have; [Std] holds
    the others. *)
Inductive ModelExn : Type :=
| Std (e : Exn)
| ModuleNotFoundError (msg : string)
| NameError (name : string)
| FileNotFoundError (path : string)
| IsADirectoryError (path : string)
| NotADirectoryError (path : string).

(** What the module found installed when it was imported
    ([importlib.util.find_spec]), what [sys.modules] holds when a method
    runs, and [os.environ.get("AWS_CONFIG_FILE")] *)
Record PyEnv : Type := {
  torch_spec : bool;
  tensorflow_spec : bool;
  pytorch_lightning_spec : bool;
  torch_in_sys_modules : bool;
  tensorflow_in_sys_modules : bool;
  aws_config_file : option string
}.

(** [torch], [tensorflow.keras] and [h5py] as far as the module uses
    them.  [Obj] is any object a [Model] holds or a loader returns; the
    class tests and names are those of its class: [__name__], the text
    of [type(o)], and [issubclass] against the three tuples of classes.
    [torch.save] writes into the open file: when it raises, it has
    written the content it gives beside the error. *)
Class ModelLibs : Type := {
  Obj : Type;
  class_name : Obj -> string;
  type_repr : Obj -> string;
  is_torch_module : Obj -> bool;
  is_lightning_module : Obj -> bool;
  is_keras_model : Obj -> bool;
  state_dict : Obj -> Result Obj;
  torch_save : Obj -> (Content * Exn) + Content;
  torch_load : Content -> Result Obj;
  keras_save : Obj -> Result Content;
  keras_load : Content -> Result Obj
}.

Definition lift_std {A} (r : Result A) : ModelExn + A :=
  match r with
  | inl e => inl (Std e)
  | inr a => inr a
  end.

(** Truth value of [token] *)
Definition truthy_token (token : option string) : bool :=
  match token with
  | Some s => negb (String.eqb s "")
  | None => false
  end.

Definition torch_missing : string :=
  "Unable to load a model.                                         Module 'torch' is not installed".

Definition tensorflow_missing : string :=
  "Unable to load a model.                                         Module 'tensorflow' is not installed".

(** [fs.open(p, "rb")]: the content of the file at [p] *)
Definition open_rb (fs : FS) (p : string) : ModelExn + Content :=
  match fs !! p with
  | Some (File c) => inr c
  | _ => inl (FileNotFoundError p)
  end.

Fixpoint has_slash (s : string) : bool :=
  match s with
  | EmptyString => false
  | String c r => Ascii.eqb c "/" || has_slash r
  end.

(** [p[:p.rfind("/") + 1]] *)
Fixpoint upto_last_slash (p : string) : string :=
  match p with
  | EmptyString => EmptyString
  | String c r =>
      if has_slash r then String c (upto_last_slash r)
      else if Ascii.eqb c "/" then String c EmptyString
      else EmptyString
  end.

(** [s.rstrip("/")] *)
Fixpoint rstrip_slash (s : string) : string :=
  match s with
  | EmptyString => EmptyString
  | String c r =>
      match rstrip_slash r with
      | EmptyString => if Ascii.eqb c "/" then EmptyString else String c EmptyString
      | String c' r' => String c (String c' r')
      end
  end.

(** [posixpath.dirname(p)] *)
Definition dirname (p : string) : string :=
  let head := upto_last_slash p in
  match rstrip_slash head with
  | EmptyString => head
  | String c r => String c r
  end.

(** [fs.open(p, "wb")] on a filesystem with directories, as the local
    one: the directory of [p] has to exist (the current directory and
    the root always do), and [p] must not be a directory; the file
    exists and is empty from then on. *)
Definition open_wb (fs : FS) (p : string) : ModelExn + FS :=
  match fs !! p with
  | Some Dir => inl (IsADirectoryError p)
  | _ =>
      match fs !! dirname p with
      | Some Dir => inr (<[p := File (Raw [])]> fs)
      | Some (File _) => inl (NotADirectoryError p)
      | None =>
          if String.eqb (dirname p) "" || String.eqb (dirname p) "/"
          then inr (<[p := File (Raw [])]> fs)
          else inl (FileNotFoundError p)
      end
  end.

(** What is written by the time the [with] block closes the file *)
Definition write (fs : FS) (p : string) (c : Content) : FS := <[p := File c]> fs.

Section Model.

Context {R : UrlResolver} {L : ModelLibs}.

Record Model : Type := {
  _metainfo : option (list (string * Json));
  _model : option Obj
}.

(** [Model.description] *)
Definition description (m : Model) : option Json :=
  match _metainfo m with
  | Some (item :: items) => assoc "description" (item :: items)
  | _ => None
  end.

(** The first lines of [load] and of [store]: the token from the
    environment for an [s3://] path that comes without one, and the url
    [get_fs_and_path] gives, put back after [s3://]. *)
Definition resolve (env : PyEnv) (path : string) (token : option string)
    : ModelExn + string :=
  if PyStr.startswith "s3://" path then
    match (if truthy_token token then inr token
           else match aws_config_file env with
                | Some t => inr (Some t)
                | None => inl (Std (KeyError "AWS_CONFIG_FILE"))
                end) with
    | inl e => inl e
    | inr token' =>
        match lift_std (get_fs_and_path path token') with
        | inl e => inl e
        | inr url => inr (PyStr.posixpath_join "s3://" url)
        end
    end
  else lift_std (get_fs_and_path path None).

(** [Model.load]: the model with [_model] replaced, or the error *)
Definition load (env : PyEnv) (m : Model) (model_path : string)
    (token : option string) (fs : FS) : ModelExn + Model :=
  match resolve env model_path token with
  | inl e => inl e
  | inr _ =>
      if PyStr.endswith ".pth" model_path || PyStr.endswith ".pt" model_path then
        if negb (torch_in_sys_modules env) then inl (ModuleNotFoundError torch_missing)
        else
          match open_rb fs model_path with
          | inl e => inl e
          | inr c =>
              if negb (torch_spec env) then inl (NameError "torch")
              else match lift_std (torch_load c) with
                   | inl e => inl e
                   | inr o => inr {| _metainfo := _metainfo m; _model := Some o |}
                   end
          end
      else if PyStr.endswith ".h5" model_path then
        if negb (tensorflow_in_sys_modules env)
        then inl (ModuleNotFoundError tensorflow_missing)
        else
          match open_rb fs model_path with
          | inl e => inl e
          | inr c =>
              if negb (tensorflow_spec env) then inl (NameError "h5py")
              else match lift_std (keras_load c) with
                   | inl e => inl e
                   | inr o => inr {| _metainfo := _metainfo m; _model := Some o |}
                   end
          end
      else inl (Std (ValueError "Not supported model type"))
  end.

(** [os.path.join(url, model_class.__name__ + ext)] *)
Definition target (url : string) (o : Obj) (ext : string) : string :=
  PyStr.posixpath_join url (class_name o +:+ ext).

Definition unable_to_store (repr : string) : ModelExn :=
  Std (ValueError ("Unable to store a model of type " +:+ repr)).

(** [Model.store]: the filesystem it leaves, and the error if it raises.
    A model that was never set is [None], whose class is in none of the
    tuples.  For a PyTorch model the file is opened before anything is
    saved into it; a Keras model is saved into a buffer first. *)
Definition store (env : PyEnv) (m : Model) (model_dir : string)
    (token : option string) (fs : FS) : FS * (ModelExn + unit) :=
  match resolve env model_dir token with
  | inl e => (fs, inl e)
  | inr url =>
      match _model m with
      | None => (fs, inl (unable_to_store "<class 'NoneType'>"))
      | Some o =>
          if (torch_spec env && is_torch_module o)
             || (pytorch_lightning_spec env && is_lightning_module o) then
            let model_full_path := target url o ".pth" in
            match open_wb fs model_full_path with
            | inl e => (fs, inl e)
            | inr fs1 =>
                if negb (torch_spec env) then (fs1, inl (NameError "torch"))
                else
                  match state_dict o with
                  | inl e => (fs1, inl (Std e))
                  | inr sd =>
                      match torch_save sd with
                      | inl (written, e) => (write fs1 model_full_path written, inl (Std e))
                      | inr c => (write fs1 model_full_path c, inr tt)
                      end
                  end
            end
          else if tensorflow_spec env && is_keras_model o then
            let model_full_path := target url o ".h5" in
            match keras_save o with
            | inl e => (fs, inl (Std e))
            | inr c =>
                match open_wb fs model_full_path with
                | inl e => (fs, inl e)
                | inr fs1 => (write fs1 model_full_path c, inr tt)
                end
            end
          else (fs, inl (unable_to_store (type_repr o)))
      end
  end.

End Model.

End Training.

(** ** Concrete datasets

    The reference collaborators put together, and the datasets the
    examples below run on. *)

Module Demo.

Definition schema_ok : SchemaNode :=
  GroupNode [("image", TensorNode [Some 32; Some 32; Some 3] "uint8" None);
             ("label", Primitive "int32")].

(** The second field has a dtype the store rejects. *)
Definition schema_bad : SchemaNode :=
  GroupNode [("image", TensorNode [Some 32; Some 32; Some 3] "uint8" None);
             ("blob", Primitive "object")].

Definition schema_group : SchemaNode :=
  GroupNode [("group", GroupNode [("a", Primitive "int32"); ("b", Primitive "int32")])].

Definition args (mode_ : option string) (safe : bool) (shape_ : option Shape)
    (sch : option (@SchemaArg SpecFeatures)) : @Args SpecFeatures :=
  {| a_url := "data/x"; a_mode := mode_; a_safe_mode := safe; a_shape := shape_;
     a_schema := sch; a_token := None; a_fs := false; a_fs_map := None |}.

Definition empty : World := {| w_fs := ∅; w_log := [] |}.

Definition init : @Args SpecFeatures -> M World (@Dataset SpecFeatures MemTensors) :=
  @__init__ SpecFeatures MemTensors PlainUrls.

(** [Dataset("data/x", mode="w", shape=(100,), schema=schema_ok)] on an
    empty filesystem *)
Definition create_ok : World * Result (@Dataset SpecFeatures MemTensors) :=
  init (args (Some "w") false (Some [Some 100]) (Some schema_ok)) empty.

(** The same location reopened with [mode="a", safe_mode=True] *)
Definition reopen_safe : World * Result (@Dataset SpecFeatures MemTensors) :=
  init (args (Some "a") true None None) create_ok.1.

(** The dataset of [create_ok], committed, and the location opened again
    with [mode="r"] *)
Definition reopen_read : World * Result (@Dataset SpecFeatures MemTensors) :=
  match create_ok.2 with
  | inr ds =>
      init (args (Some "r") false None None)
           (world (@commit SpecFeatures MemTensors {| world := create_ok.1; self := ds |}).1)
  | inl e => (create_ok.1, inl e)
  end.

(** Ten samples of two fields under one group, ["/group/a"] and
    ["/group/b"] *)
Definition create_group : World * Result (@Dataset SpecFeatures MemTensors) :=
  init (args (Some "w") false (Some [Some 10]) (Some schema_group)) empty.

(** The dataset a constructor call returned; [blank] only when it raised *)
Definition blank : @Dataset SpecFeatures MemTensors :=
  @Build_Dataset SpecFeatures MemTensors "" None "" "" "" [] (GroupNode []) [] [].

Definition dataset_of (r : World * Result (@Dataset SpecFeatures MemTensors))
    : @Dataset SpecFeatures MemTensors :=
  match r.2 with
  | inr ds => ds
  | inl _ => blank
  end.

Definition returned {A} (r : World * Result A) : bool :=
  match r.2 with
  | inr _ => true
  | inl _ => false
  end.

(** The object and the world a constructor call left *)
Definition state_of (r : World * Result (@Dataset SpecFeatures MemTensors))
    : @St SpecFeatures MemTensors :=
  {| world := r.1; self := dataset_of r |}.

(** The handle registered at [k]; a handle built from nothing when there
    is none *)
Definition handle_of (k : string) (ds : @Dataset SpecFeatures MemTensors) : MemHandle :=
  match assoc k (_tensors ds) with
  | Some h => h
  | None =>
      {| h_args := {| dt_path := ""; dt_store_root := ""; dt_meta_root := "";
                      dt_mode := ""; dt_shape := []; dt_max_shape := None;
                      dt_dtype := None; dt_chunks := None |};
         h_assigned := []; h_commits := 0 |}
  end.

Definition getitem : @Dataset SpecFeatures MemTensors -> Selector -> Result Item :=
  @__getitem__ SpecFeatures MemTensors SpecUtils.

Definition setitem : Selector -> Z -> M (@St SpecFeatures MemTensors) unit :=
  @__setitem__ SpecFeatures MemTensors SpecUtils.

End Demo.

(** ** Concrete models and environments *)

Module ModelDemo.

Import Training.

(** Objects of five classes: a PyTorch module, a Lightning module, a
    Keras model, the state dictionary of a module, and an integer. *)
Inductive Net : Type :=
| TorchNet (weights : Z)
| LitNet (weights : Z)
| KerasNet (weights : Z)
| StateDict (weights : Z)
| Number (n : Z).

Definition encode (o : Net) : Json :=
  match o with
  | TorchNet w => JObj [("class", JStr "TorchNet"); ("weights", JInt w)]
  | LitNet w => JObj [("class", JStr "LitNet"); ("weights", JInt w)]
  | KerasNet w => JObj [("class", JStr "KerasNet"); ("weights", JInt w)]
  | StateDict w => JObj [("class", JStr "OrderedDict"); ("weights", JInt w)]
  | Number n => JInt n
  end.

Definition decode (c : Content) : Result Net :=
  match c with
  | Doc (JObj [("class", JStr "TorchNet"); ("weights", JInt w)]) => ok (TorchNet w)
  | Doc (JObj [("class", JStr "LitNet"); ("weights", JInt w)]) => ok (LitNet w)
  | Doc (JObj [("class", JStr "KerasNet"); ("weights", JInt w)]) => ok (KerasNet w)
  | Doc (JObj [("class", JStr "OrderedDict"); ("weights", JInt w)]) => ok (StateDict w)
  | Doc (JInt n) => ok (Number n)
  | _ => fail (CollaboratorError "pickle" "load")
  end.

(** Pickling keeps every object; only a Keras model has [save], and only
    a saved Keras model is loaded as one. *)
Definition Libs : ModelLibs :=
  {| Obj := Net;
     class_name := fun o =>
       match o with
       | TorchNet _ => "TorchNet"
       | LitNet _ => "LitNet"
       | KerasNet _ => "KerasNet"
       | StateDict _ => "OrderedDict"
       | Number _ => "int"
       end;
     type_repr := fun o =>
       match o with
       | TorchNet _ => "<class 'TorchNet'>"
       | LitNet _ => "<class 'LitNet'>"
       | KerasNet _ => "<class 'KerasNet'>"
       | StateDict _ => "<class 'collections.OrderedDict'>"
       | Number _ => "<class 'int'>"
       end;
     is_torch_module := fun o =>
       match o with TorchNet _ | LitNet _ => true | _ => false end;
     is_lightning_module := fun o =>
       match o with LitNet _ => true | _ => false end;
     is_keras_model := fun o =>
       match o with KerasNet _ => true | _ => false end;
     state_dict := fun o =>
       match o with
       | TorchNet w | LitNet w => ok (StateDict w)
       | _ => fail AttributeError
       end;
     torch_save := fun o => inr (Doc (encode o));
     torch_load := decode;
     keras_save := fun o =>
       match o with
       | KerasNet _ => ok (Doc (encode o))
       | _ => fail AttributeError
       end;
     keras_load := fun c =>
       match decode c with
       | inr (KerasNet w) => ok (KerasNet w)
       | _ => fail (ValueError "No model found")
       end |}.

(** Everything installed and imported, no credentials in the environment *)
Definition env_all : PyEnv :=
  {| torch_spec := true; tensorflow_spec := true; pytorch_lightning_spec := true;
     torch_in_sys_modules := true; tensorflow_in_sys_modules := true;
     aws_config_file := None |}.

(** Nothing installed *)
Definition env_none : PyEnv :=
  {| torch_spec := false; tensorflow_spec := false; pytorch_lightning_spec := false;
     torch_in_sys_modules := false; tensorflow_in_sys_modules := false;
     aws_config_file := None |}.

Definition model_of (o : option Net) : @Model Libs :=
  @Build_Model Libs None o.

Definition store_ : PyEnv -> @Model Libs -> string -> option string -> FS
                    -> FS * (ModelExn + unit) :=
  @store PlainUrls Libs.

Definition load_ : PyEnv -> @Model Libs -> string -> option string -> FS
                   -> ModelExn + @Model Libs :=
  @load PlainUrls Libs.

(** A library whose [torch.save] raises on everything, after the first
    two bytes *)
Definition BrokenLibs : ModelLibs :=
  {| Obj := Net;
     class_name := @class_name Libs;
     type_repr := @type_repr Libs;
     is_torch_module := @is_torch_module Libs;
     is_lightning_module := @is_lightning_module Libs;
     is_keras_model := @is_keras_model Libs;
     state_dict := @state_dict Libs;
     torch_save := fun _ => inl (Raw [Byte.x50; Byte.x4b], CollaboratorError "torch" "save");
     torch_load := @torch_load Libs;
     keras_save := @keras_save Libs;
     keras_load := @keras_load Libs |}.

(** A directory with one model file already stored *)
Definition old_file : FS :=
  <["models/TorchNet.pth" := File (Doc (encode (StateDict 1)))]> {[ "models" := Dir ]}.

(** An empty directory *)
Definition empty_dir : FS := {[ "models" := Dir ]}.

End ModelDemo.

(** ** More concrete datasets *)

Module Examples.

(** The location of [Demo.create_ok] with its metadata record replaced
    by bytes that are no JSON document *)
Definition broken_meta : World :=
  {| w_fs := <["data/x/meta.json" := File (Raw [])]> (w_fs Demo.create_ok.1);
     w_log := [] |}.

(** A storage map of the caller's, rooted at the directory ["other"] and
    holding one file *)
Definition foreign_map : World :=
  {| w_fs := <["other/notes.txt" := File (Raw [])]> {[ "other" := Dir ]};
     w_log := [] |}.

(** [Dataset("data/x", mode="w", shape=(100,), schema=schema_bad,
    fs_map=<the map at "other">)]: the second field store cannot be
    constructed. *)
Definition create_bad_foreign : World * Result (@Dataset SpecFeatures MemTensors) :=
  Demo.init
    (@Build_Args SpecFeatures "data/x" (Some "w") false (Some [Some 100])
       (Some Demo.schema_bad) None false (Some "other"))
    foreign_map.

(** After it, [Dataset("other", mode="r")] *)
Definition open_foreign : World * Result (@Dataset SpecFeatures MemTensors) :=
  Demo.init
    (@Build_Args SpecFeatures "other" (Some "r") false None None None false None)
    create_bad_foreign.1.

(** A dataset whose shape was given as [(None,)] *)
Definition create_unbounded : World * Result (@Dataset SpecFeatures MemTensors) :=
  Demo.init (Demo.args (Some "w") false (Some [None]) (Some Demo.schema_ok)) Demo.empty.

(** Three samples *)
Definition create_three : World * Result (@Dataset SpecFeatures MemTensors) :=
  Demo.init (Demo.args (Some "w") false (Some [Some 3]) (Some Demo.schema_group)) Demo.empty.

End Examples.

(** * Properties *)

(** ** Strings and paths *)

Lemma prefix_length (a b : string) :
  String.prefix a b = true -> (String.length a <= String.length b)%nat.
Proof.
  revert b. induction a as [|c a IH]; intros b H; simpl; [lia|].
  destruct b as [|d b]; simpl in *; [discriminate|].
  destruct (ascii_dec c d); [|discriminate].
  apply IH in H. lia.
Qed.

Lemma append_length (a b : string) :
  String.length (a +:+ b) = (String.length a + String.length b)%nat.
Proof.
  induction a as [|c a IH]; [done|].
  change (String.length (String c (a +:+ b)) = S (String.length a + String.length b)).
  simpl. by rewrite IH.
Qed.

Lemma is_under_refl (p : string) : Fs.is_under p p = true.
Proof. unfold Fs.is_under. by rewrite String.eqb_refl. Qed.

Lemma is_child_under (p k : string) :
  Fs.is_child p k = true -> Fs.is_under p k = true.
Proof.
  unfold Fs.is_child, Fs.is_under.
  intros H. apply andb_true_iff in H as [H _]. rewrite H. apply orb_true_r.
Qed.

Lemma append_assoc (a b c : string) : (a +:+ b) +:+ c = a +:+ b +:+ c.
Proof.
  induction a as [|x a IH]; [done|].
  change (String x ((a +:+ b) +:+ c) = String x (a +:+ b +:+ c)). by rewrite IH.
Qed.

Lemma prefix_append (a b : string) : String.prefix a (a +:+ b) = true.
Proof.
  induction a as [|x a IH]; [by destruct b|].
  change (String.prefix (String x a) (String x (a +:+ b)) = true).
  simpl. by destruct (ascii_dec x x).
Qed.

Lemma dir_prefix_length (p : string) :
  (String.length p <= String.length (PyStr.dir_prefix p))%nat.
Proof.
  unfold PyStr.dir_prefix. destruct (_ || _); [lia|].
  rewrite append_length. lia.
Qed.

(** A relative name joined to a directory lies inside it. *)
Lemma join_relative (a b : string) :
  PyStr.startswith "/" b = false ->
  PyStr.posixpath_join a b = PyStr.dir_prefix a +:+ b.
Proof.
  intros H. unfold PyStr.posixpath_join, PyStr.dir_prefix. rewrite H.
  destruct (_ || _); [done|]. by rewrite append_assoc.
Qed.

Lemma join_under (a b : string) :
  PyStr.startswith "/" b = false -> Fs.is_under a (PyStr.posixpath_join a b) = true.
Proof.
  intros H. rewrite join_relative by done. unfold Fs.is_under, PyStr.startswith.
  rewrite prefix_append. apply orb_true_r.
Qed.

Lemma is_under_length (p k : string) :
  Fs.is_under p k = true -> (String.length p <= String.length k)%nat.
Proof.
  unfold Fs.is_under, PyStr.startswith. intros H.
  apply orb_true_iff in H as [H|H].
  - apply String.eqb_eq in H. subst. lia.
  - apply prefix_length in H. pose proof (dir_prefix_length p). lia.
Qed.

Lemma parents_aux_length (acc s x : string) :
  x ∈ Fs.parents_aux acc s ->
  (String.length x < String.length acc + String.length s)%nat.
Proof.
  revert acc. induction s as [|c s IH]; intros acc H; simpl in *.
  - by apply elem_of_nil in H.
  - destruct (Ascii.eqb c "/").
    + apply elem_of_app in H as [H|H].
      * destruct (String.eqb acc ""); [by apply elem_of_nil in H|].
        apply list_elem_of_singleton in H. subst. lia.
      * apply IH in H. rewrite append_length in H. simpl in H. lia.
    + apply IH in H. rewrite append_length in H. simpl in H. lia.
Qed.

Lemma parents_not_under (p x : string) :
  x ∈ Fs.parents p -> Fs.is_under p x = false.
Proof.
  intros H. apply parents_aux_length in H. simpl in H.
  destruct (Fs.is_under p x) eqn:E; [|done].
  apply is_under_length in E. lia.
Qed.

(** ** The filesystem *)


Lemma exists_false (fs : FS) (p : string) :
  Fs.exists_ fs p = false <-> fs !! p = None.
Proof.
  unfold Fs.exists_. rewrite bool_decide_eq_false.
  by rewrite eq_None_not_Some.
Qed.

Lemma rm_lookup_under (fs : FS) (p k : string) :
  Fs.is_under p k = true -> Fs.rm fs p !! k = None.
Proof.
  intros H. unfold Fs.rm. apply map_lookup_filter_None. right.
  intros x _. simpl. congruence.
Qed.

Lemma rm_lookup_other (fs : FS) (p k : string) :
  Fs.is_under p k = false -> Fs.rm fs p !! k = fs !! k.
Proof.
  intros H. unfold Fs.rm.
  destruct (fs !! k) as [x|] eqn:E.
  - apply map_lookup_filter_Some. done.
  - apply map_lookup_filter_None. by left.
Qed.

Lemma ensure_dir_lookup (fs : FS) (p k : string) :
  Fs.ensure_dir fs p !! k =
  match fs !! k with Some n => Some n | None => if decide (p = k) then Some Dir else None end.
Proof.
  unfold Fs.ensure_dir. destruct (fs !! p) eqn:E.
  - destruct (fs !! k) eqn:E'; [done|]. case_decide; congruence.
  - rewrite lookup_insert. case_decide.
    + subst. by rewrite E.
    + by destruct (fs !! k).
Qed.

(** Creating ancestors never changes an entry that is already there, and
    adds entries only at proper ancestors. *)
Lemma mkparents_aux_lookup (l : list string) (fs : FS) (k : string) :
  foldl Fs.ensure_dir fs l !! k =
  match fs !! k with
  | Some n => Some n
  | None => if decide (k ∈ l) then Some Dir else None
  end.
Proof.
  revert fs. induction l as [|x l IH]; intros fs; cbn [foldl].
  - destruct (fs !! k); [done|]. case_decide as Hc; [|done]. by apply elem_of_nil in Hc.
  - rewrite IH, ensure_dir_lookup. destruct (fs !! k) eqn:E; [done|].
    destruct (decide (x = k)) as [->|Hne].
    + rewrite decide_True; [done | by left].
    + destruct (decide (k ∈ l)) as [Hin|Hnin].
      * rewrite decide_True; [done | by right].
      * rewrite decide_False; [done|]. by intros [->|Hc]%elem_of_cons.
Qed.

Lemma mkparents_lookup (fs : FS) (p k : string) :
  Fs.mkparents fs p !! k =
  match fs !! k with
  | Some n => Some n
  | None => if decide (k ∈ Fs.parents p) then Some Dir else None
  end.
Proof. apply mkparents_aux_lookup. Qed.

Lemma mkparents_keeps (fs : FS) (p k : string) (n : Node) :
  fs !! k = Some n -> Fs.mkparents fs p !! k = Some n.
Proof. intros H. by rewrite mkparents_lookup, H. Qed.

Lemma makedirs_keeps (fs fs' : FS) (p k : string) (n : Node) :
  Fs.makedirs fs p = ok fs' -> fs !! k = Some n -> fs' !! k = Some n.
Proof.
  unfold Fs.makedirs. destruct (Fs.exists_ fs p) eqn:E; [discriminate|].
  intros [= <-] Hk. apply exists_false in E.
  rewrite lookup_insert_ne; [by apply mkparents_keeps | congruence].
Qed.

Lemma makedirs_after_rm (fs : FS) (p : string) :
  Fs.makedirs (Fs.rm fs p) p = ok (<[p := Dir]> (Fs.mkparents (Fs.rm fs p) p)).
Proof.
  unfold Fs.makedirs.
  replace (Fs.exists_ (Fs.rm fs p) p) with false; [done|].
  symmetry. apply exists_false, rm_lookup_under, is_under_refl.
Qed.

(** After destroying and recreating, the location is a directory with
    nothing below it. *)
Lemma destroy_recreate_lookup (fs : FS) (p k : string) :
  Fs.is_under p k = true ->
  <[p := Dir]> (Fs.mkparents (Fs.rm fs p) p) !! k = if decide (p = k) then Some Dir else None.
Proof.
  intros H. rewrite lookup_insert. case_decide; [done|].
  rewrite mkparents_lookup, rm_lookup_under by done.
  case_decide as Hin; [|done].
  apply parents_not_under in Hin. congruence.
Qed.

(** ** Lifecycle resolution *)

(** C1. [_check_and_prepare_dir] follows the transition table of section
    4.1 on every filesystem and every mode string: the first row of the
    table whose guard holds gives the result (create, open, or the row's
    error) and the filesystem the call leaves.  After the
    destroy-and-recreate row the location is a directory with nothing
    below it; after the create-directory row the location exists. *)
Theorem check_and_prepare_dir_matches_table (path mode_ : string) (w : World) :
  exists eff res,
    Lifecycle.resolve (Lifecycle.inputs (w_fs w) path mode_) = Some (eff, res)
    /\ (_check_and_prepare_dir path mode_ w).2 = Lifecycle.outcome res
    /\ w_fs (_check_and_prepare_dir path mode_ w).1
       = Lifecycle.apply_effect eff (w_fs w) path
    /\ (eff = Lifecycle.DestroyRecreate ->
        forall k, Fs.is_under path k = true ->
          w_fs (_check_and_prepare_dir path mode_ w).1 !! k
          = if decide (path = k) then Some Dir else None)
    /\ (eff = Lifecycle.CreateDir ->
        w_fs (_check_and_prepare_dir path mode_ w).1 !! path = Some Dir).
Proof.
  unfold Lifecycle.resolve, Lifecycle.inputs, Lifecycle.dir_state,
    _check_and_prepare_dir, mbind, M_bind, mret, M_ret, fs_exists, fs_rm,
    fs_makedirs, get_file_count, raise, ok, fail.
  cbn [Lifecycle.rows Lifecycle.first_match Lifecycle.metadata_exists
       Lifecycle.mode_has_write Lifecycle.mode_is_read Lifecycle.directory
       w_fs w_log log].
  destruct (Fs.exists_ (w_fs w) (PyStr.posixpath_join path "meta.json")) eqn:Emeta;
    destruct (PyStr.contains "w" mode_) eqn:Ew; cbn [andb negb w_fs w_log log].
  - exists Lifecycle.DestroyRecreate, Lifecycle.Create.
    rewrite makedirs_after_rm. cbn.
    repeat split; try done.
    intros _ k Hk. by apply destroy_recreate_lookup.
  - exists Lifecycle.NoEffect, Lifecycle.Open. by cbn.
  - destruct (PyStr.contains "r" mode_) eqn:Er; cbn [andb negb w_fs w_log log].
    { exists Lifecycle.NoEffect, (Lifecycle.Fails HubDatasetNotFoundException). by cbn. }
    destruct (Fs.exists_ (w_fs w) path) eqn:Edir; cbn [andb negb Lifecycle.is_absent
      Lifecycle.is_nonempty w_fs w_log log].
    + destruct (0 <? length (Fs.listdir (w_fs w) path))%nat eqn:En;
        cbn [andb negb Lifecycle.is_absent Lifecycle.is_nonempty w_fs w_log log].
      * exists Lifecycle.NoEffect, (Lifecycle.Fails NotHubDatasetToOverwriteException).
        by cbn.
      * exists Lifecycle.NoEffect, Lifecycle.Create. by cbn.
    + exists Lifecycle.CreateDir, Lifecycle.Create.
      unfold Fs.makedirs. rewrite Edir. cbn.
      repeat split; try done. intros _. apply lookup_insert_eq.
  - destruct (PyStr.contains "r" mode_) eqn:Er; cbn [andb negb w_fs w_log log].
    { exists Lifecycle.NoEffect, (Lifecycle.Fails HubDatasetNotFoundException). by cbn. }
    destruct (Fs.exists_ (w_fs w) path) eqn:Edir; cbn [andb negb Lifecycle.is_absent
      Lifecycle.is_nonempty w_fs w_log log].
    + destruct (0 <? length (Fs.listdir (w_fs w) path))%nat eqn:En;
        cbn [andb negb Lifecycle.is_absent Lifecycle.is_nonempty w_fs w_log log].
      * exists Lifecycle.NoEffect, (Lifecycle.Fails NotHubDatasetToAppendException).
        by cbn.
      * exists Lifecycle.NoEffect, Lifecycle.Create. by cbn.
    + exists Lifecycle.CreateDir, Lifecycle.Create.
      unfold Fs.makedirs. rewrite Edir. cbn.
      repeat split; try done. intros _. apply lookup_insert_eq.
Qed.

(** ** The monad *)

Lemma bind_ok {S A B} (m : M S A) (f : A -> M S B) (s s' : S) (a : A) :
  m s = (s', inr a) -> (m ≫= f) s = f a s'.
Proof. intros H. unfold mbind, M_bind. by rewrite H. Qed.

Lemma bind_raise {S A B} (m : M S A) (f : A -> M S B) (s s' : S) (e : Exn) :
  m s = (s', inl e) -> (m ≫= f) s = (s', inl e).
Proof. intros H. unfold mbind, M_bind. by rewrite H. Qed.

Lemma bind_lift {S A B} (r : Result A) (f : A -> M S B) (s : S) :
  (lift r ≫= f) s = match r with inl e => (s, inl e) | inr a => f a s end.
Proof. unfold mbind, M_bind, lift. by destruct r. Qed.

Lemma try_except_raise {S A} (m : M S A) (h : Exn -> M S A) (s s' : S) (e : Exn) :
  m s = (s', inl e) -> try_except m h s = h e s'.
Proof. intros H. unfold try_except. by rewrite H. Qed.

Lemma try_except_ok {S A} (m : M S A) (h : Exn -> M S A) (s s' : S) (a : A) :
  m s = (s', inr a) -> try_except m h s = (s', inr a).
Proof. intros H. unfold try_except. by rewrite H. Qed.

(** ** The constructor *)

Section Constructor.

Context {F : Features} {T : TensorStore} {R : UrlResolver}.

(** Past its assertions and the directory check, the constructor is
    one of its two branches. *)
Lemma init_unfold (a : Args) (w w1 : World) (needcreate : bool)
    (path fs_map mode_ : string) :
  resolves_to a w needcreate path fs_map mode_ w1 ->
  __init__ a w =
  if needcreate
  then try_except (create_body a path fs_map mode_ (shape_or_default (a_shape a)))
                  (fun e => fs_rm path;; raise e) w1
  else open_body a path fs_map mode_ w1.
Proof.
  intros (Hlen & Hmode & Hpath & w0 & Hprep & Hmap).
  unfold __init__. rewrite Hlen, Hmode. cbn [Nat.eqb negb].
  rewrite bind_lift, Hpath. unfold ok in *.
  rewrite (bind_ok _ _ _ _ _ Hprep).
  rewrite (bind_ok _ _ _ _ _ Hmap).
  by destruct needcreate.
Qed.

(** The rollback handler: the tree is gone and the error is the one
    that was caught. *)
Lemma rollback_run (path : string) (e : Exn) (w : World) :
  (fs_rm path;; @raise World Dataset e) w
  = ({| w_fs := Fs.rm (w_fs w) path; w_log := w_log w ++ [FsRm path] |}, inl e).
Proof. reflexivity. Qed.

(** C9. The sample shape, after an omitted or empty value has been
    replaced by [(None,)], must have exactly one entry: with a shape of
    any other length the constructor raises [AssertionError] and the
    world (filesystem and trace of calls) is the one it was given. *)
Theorem init_rejects_shape_of_other_rank (a : Args) (w : World) :
  length (shape_or_default (a_shape a)) <> 1%nat ->
  __init__ a w = (w, inl AssertionError)
  /\ shape_or_default None = [None]
  /\ shape_or_default (Some []) = [None].
Proof.
  intros H. split; [|done]. unfold __init__.
  destruct (length (shape_or_default (a_shape a)) =? 1)%nat eqn:E.
  - apply Nat.eqb_eq in E. contradiction.
  - reflexivity.
Qed.

(** A constructor that returns had a shape of one entry. *)
Lemma init_ok_rank_one (a : Args) (w w' : World) (ds : Dataset) :
  __init__ a w = (w', inr ds) -> length (shape_or_default (a_shape a)) = 1%nat.
Proof.
  unfold __init__.
  destruct (length (shape_or_default (a_shape a)) =? 1)%nat eqn:E; [|discriminate].
  intros _. by apply Nat.eqb_eq.
Qed.

(** A field store whose construction raises makes the generator raise
    that error, leaving the filesystem as the failed call left it. *)
Lemma generate_raises_store_error (path fs_map mode_ : string) (shape_ : Shape)
    (t : FlatTensor) (rest : list FlatTensor) (acc : list (string * Handle))
    (w w' : World) (fs' : FS) (e : Exn) :
  let p := PyStr.posixpath_join path (PyStr.drop 1 (ft_path t)) in
  let args := {| dt_path := ft_path t; dt_store_root := p;
                 dt_meta_root := fs_map; dt_mode := mode_;
                 dt_shape := (shape_ ++ ft_shape t)%list;
                 dt_max_shape := Some (shape_ ++ ft_max_shape t)%list;
                 dt_dtype := Some (ft_dtype t);
                 dt_chunks := Some (ft_chunks t) |} in
  fs_makedirs (PyStr.posixpath_join p "--dynamic--") w = (w', inr tt) ->
  DynamicTensor args (w_fs w') = (fs', inl e) ->
  _generate_storage_tensors path fs_map mode_ shape_ (t :: rest) acc w
  = ({| w_fs := fs'; w_log := w_log w' ++ [TensorNew args] |}, inl e).
Proof.
  intros p args Hmk Hnew. cbn [_generate_storage_tensors].
  rewrite (bind_ok _ _ _ _ _ Hmk).
  apply bind_raise. unfold new_tensor. fold p. fold args. by rewrite Hnew.
Qed.

(** The rollback of a failed Create.  When flattening the schema raises
    [e], or the construction of the field stores raises [e], the
    constructor raises that same [e], and in the world it leaves nothing
    exists at or below the dataset path (in particular no ["meta.json"]
    there): the tree was removed, as the last call made, before the
    error left.  What was written outside the path is not covered. *)
Theorem create_failure_rolls_back (a : Args) (w w1 : World)
    (path fs_map mode_ : string) (sch : Schema) (ser : Json) (e : Exn) :
  resolves_to a w true path fs_map mode_ w1 ->
  featurify (a_schema a) = ok sch ->
  serialize sch = ok ser ->
  (let shape_ := shape_or_default (a_shape a) in
   let w2 := (map_set fs_map "meta.json" (Doc (meta_record shape_ ser)) w1).1 in
   _flatten sch = fail e
   \/ exists flat, _flatten sch = ok flat
      /\ (_generate_storage_tensors path fs_map mode_ shape_ flat [] w2).2 = fail e) ->
  exists w', __init__ a w = (w', fail e)
    /\ (forall k, Fs.is_under path k = true -> w_fs w' !! k = None)
    /\ Fs.exists_ (w_fs w') (PyStr.posixpath_join path "meta.json") = false
    /\ exists evs, w_log w' = (evs ++ [FsRm path])%list.
Proof.
  intros Hres Hfeat Hser Hfail.
  rewrite (init_unfold _ _ _ _ _ _ _ Hres).
  assert (Hbody : exists w3,
    create_body a path fs_map mode_ (shape_or_default (a_shape a)) w1 = (w3, inl e)).
  { unfold create_body. rewrite bind_lift, Hfeat. unfold ok.
    rewrite bind_lift, Hser. unfold ok.
    cbv zeta in Hfail |- *.
    set (w2 := (map_set fs_map "meta.json" _ w1).1) in Hfail.
    rewrite (bind_ok _ _ _ w2 tt); [|done].
    rewrite bind_lift.
    destruct Hfail as [Hfl | (flat & Hfl & Hgen)]; rewrite Hfl.
    - by exists w2.
    - unfold ok.
      destruct (_generate_storage_tensors path fs_map mode_ _ flat [] w2)
        as [w3 r] eqn:Egen.
      cbn in Hgen. subst r. exists w3. by apply bind_raise. }
  destruct Hbody as [w3 Hbody].
  rewrite (try_except_raise _ _ _ _ _ Hbody), rollback_run.
  eexists. split; [reflexivity|]. cbn [w_fs w_log].
  split; [|split].
  - intros k Hk. by apply rm_lookup_under.
  - apply exists_false, rm_lookup_under, join_under. reflexivity.
  - by eexists.
Qed.

End Constructor.

(** [Dataset("data/x", mode="w", shape=(2, 3), ...)] raises the assertion
    and nothing is touched. *)
Lemma init_rejects_shape_of_other_rank_witness :
  Demo.init (Demo.args (Some "w") false (Some [Some 2; Some 3]) (Some Demo.schema_ok))
            Demo.empty
  = (Demo.empty, inl AssertionError)
  /\ shape_or_default None = [None]
  /\ shape_or_default (Some []) = [None].
Proof.
  apply (init_rejects_shape_of_other_rank (F := SpecFeatures) (T := MemTensors)
           (R := PlainUrls)).
  simpl. lia.
Defined.

(** A schema whose second field cannot be stored: the first field's
    files are written, the second construction raises, and the tree is
    removed. *)
Lemma create_failure_rolls_back_witness :
  exists w',
    Demo.init (Demo.args (Some "w") false (Some [Some 100]) (Some Demo.schema_bad))
              Demo.empty
    = (w', fail (CollaboratorError "DynamicTensor" "dtype"))
    /\ (forall k, Fs.is_under "data/x" k = true -> w_fs w' !! k = None)
    /\ Fs.exists_ (w_fs w') (PyStr.posixpath_join "data/x" "meta.json") = false
    /\ exists evs, w_log w' = (evs ++ [FsRm "data/x"])%list.
Proof.
  apply (create_failure_rolls_back (F := SpecFeatures) (T := MemTensors)
           (R := PlainUrls)
           (Demo.args (Some "w") false (Some [Some 100]) (Some Demo.schema_bad))
           Demo.empty
           (_check_and_prepare_dir "data/x" "w" Demo.empty).1
           "data/x" "data/x" "w" Demo.schema_bad (serialize_node Demo.schema_bad)).
  - repeat split.
    exists (_check_and_prepare_dir "data/x" "w" Demo.empty).1.
    split; vm_compute; reflexivity.
  - reflexivity.
  - reflexivity.
  - right. exists (flatten_node "" Demo.schema_bad).
    split; vm_compute; reflexivity.
Defined.

(** ** Order of the calls in a Create *)

Lemma extends_with_refl (p : Event -> bool) (w : World) : extends_with p w w.
Proof. exists []. by rewrite app_nil_r. Qed.

Lemma extends_with_trans (p : Event -> bool) (w1 w2 w3 : World) :
  extends_with p w1 w2 -> extends_with p w2 w3 -> extends_with p w1 w3.
Proof.
  intros (e1 & H1 & Q1) (e2 & H2 & Q2). exists (e1 ++ e2)%list.
  rewrite H2, H1, <- app_assoc. split; [done|].
  rewrite forallb_app. by rewrite Q1, Q2.
Qed.

Lemma extends_with_step (p : Event -> bool) (w : World) (fs : FS) (ev : Event) :
  p ev = true ->
  extends_with p w {| w_fs := fs; w_log := w_log w ++ [ev] |}.
Proof. intros H. exists [ev]. split; [done|]. cbn. by rewrite H. Qed.

Lemma emits_ret {A} (p : Event -> bool) (a : A) : emits p (mret a : M World A).
Proof. intros w. apply extends_with_refl. Qed.

Lemma emits_raise {A} (p : Event -> bool) (e : Exn) : emits p (raise e : M World A).
Proof. intros w. apply extends_with_refl. Qed.

Lemma emits_lift {A} (p : Event -> bool) (r : Result A) : emits p (lift r : M World A).
Proof. intros w. apply extends_with_refl. Qed.

Lemma emits_bind {A B} (p : Event -> bool) (m : M World A) (f : A -> M World B) :
  emits p m -> (forall a, emits p (f a)) -> emits p (m ≫= f).
Proof.
  intros Hm Hf w. unfold mbind, M_bind. specialize (Hm w).
  destruct (m w) as [w1 [e|a]]; [done|].
  eapply extends_with_trans; [exact Hm | apply Hf].
Qed.

Lemma emits_fs_exists (p : Event -> bool) (q : string) :
  p (FsExists q) = true -> emits p (fs_exists q).
Proof. intros H w. by apply extends_with_step. Qed.

Lemma emits_get_file_count (p : Event -> bool) (q : string) :
  p (FsListdir q) = true -> emits p (get_file_count q).
Proof. intros H w. by apply extends_with_step. Qed.

Lemma emits_fs_rm (p : Event -> bool) (q : string) :
  p (FsRm q) = true -> emits p (fs_rm q).
Proof. intros H w. by apply extends_with_step. Qed.

Lemma emits_fs_makedirs (p : Event -> bool) (q : string) :
  p (FsMakedirs q) = true -> emits p (fs_makedirs q).
Proof.
  intros H w. unfold fs_makedirs.
  destruct (Fs.makedirs (w_fs w) q); by apply extends_with_step.
Qed.

Lemma emits_map_len (p : Event -> bool) (q : string) :
  p (MapLen q) = true -> emits p (map_len q).
Proof. intros H w. by apply extends_with_step. Qed.

Lemma prepare_dir_quiet (path mode_ : string) :
  emits quiet (_check_and_prepare_dir path mode_).
Proof.
  unfold _check_and_prepare_dir.
  apply emits_bind; [by apply emits_fs_exists|]. intros [].
  - destruct (PyStr.contains "w" mode_); [|apply emits_ret].
    apply emits_bind; [by apply emits_fs_rm|]. intros _.
    apply emits_bind; [by apply emits_fs_makedirs|]. intros _. apply emits_ret.
  - destruct (PyStr.contains "r" mode_); [apply emits_raise|].
    apply emits_bind; [by apply emits_fs_exists|]. intros []; cbn [negb].
    + apply emits_bind; [by apply emits_get_file_count|]. intros n.
      destruct (0 <? n)%nat; [|apply emits_ret].
      destruct (PyStr.contains "w" mode_); apply emits_raise.
    + apply emits_bind; [by apply emits_fs_makedirs|]. intros _. apply emits_ret.
Qed.

Lemma choose_fs_map_run (path : string) (given : option string) (w : World) :
  exists fs_map w1, choose_fs_map path given w = (w1, ok fs_map)
    /\ w_fs w1 = w_fs w /\ extends_with quiet w w1
    /\ (given = None -> fs_map = path /\ w1 = w).
Proof.
  destruct given as [root|].
  - unfold choose_fs_map, mbind, M_bind, map_len, ok, mret, M_ret.
    destruct (0 <? Fs.map_len (w_fs w) root)%nat;
      eexists _, _; (split; [reflexivity|]); (split; [done|]);
      (split; [by apply (extends_with_step quiet w) | done]).
  - exists path, w. repeat split; try done. apply extends_with_refl.
Qed.

Lemma bind_ok_inv {S A B} (m : M S A) (f : A -> M S B) (s s' : S) (b : B) :
  (m ≫= f) s = (s', inr b) -> exists s1 a, m s = (s1, inr a) /\ f a s1 = (s', inr b).
Proof.
  unfold mbind, M_bind. destruct (m s) as [s1 [e|a]]; [discriminate|]. eauto.
Qed.

Lemma lift_ok_inv {S A} (r : Result A) (s s' : S) (a : A) :
  lift r s = (s', inr a) -> r = inr a /\ s' = s.
Proof. unfold lift. by intros [= -> ->]. Qed.

Lemma dict_keys_set {A} (k : string) (v : A) (d : list (string * A)) :
  dict_keys (dict_set k v d) = keys_set k (dict_keys d).
Proof.
  unfold keys_set, dict_keys. induction d as [|[k' v'] d IH]; [done|].
  cbn [dict_set map fst existsb]. destruct (String.eqb k k') eqn:E; cbn [orb].
  - apply String.eqb_eq in E. by subst.
  - cbn [map fst]. rewrite IH. by destruct (existsb (String.eqb k) (map fst d)).
Qed.


Lemma stored_definition_lookup (fs fs' : FS) (root : string) :
  fs' !! PyStr.posixpath_join root "meta.json" = fs !! PyStr.posixpath_join root "meta.json" ->
  stored_definition fs' root = stored_definition fs root.
Proof. intros H. unfold stored_definition, Fs.map_get. by rewrite H. Qed.

Lemma stored_definition_inv (fs : FS) (root : string) (d : Json * Json) :
  stored_definition fs root = ok d ->
  exists c meta, fs !! PyStr.posixpath_join root "meta.json" = Some (File c)
    /\ json_loads c = ok meta
    /\ json_getitem meta "shape" = ok d.1
    /\ json_getitem meta "schema" = ok d.2.
Proof.
  unfold stored_definition, Fs.map_get, mbind, Result_bind, ok, fail.
  destruct (fs !! PyStr.posixpath_join root "meta.json") as [[|c]|]; try discriminate.
  destruct (json_loads c) as [|meta] eqn:E1; [discriminate|].
  destruct (json_getitem meta "shape") as [|a] eqn:E2; [discriminate|].
  destruct (json_getitem meta "schema") as [|b] eqn:E3; [discriminate|].
  intros [= <-]. by exists c, meta.
Qed.


Lemma makedirs_keeps_definition (fs fs' : FS) (p root : string) (d : Json * Json) :
  Fs.makedirs fs p = ok fs' ->
  stored_definition fs root = ok d -> stored_definition fs' root = ok d.
Proof.
  intros Hmk Hd. rewrite <- Hd. apply stored_definition_lookup.
  apply stored_definition_inv in Hd as (c & _ & Hc & _).
  rewrite Hc. by apply (makedirs_keeps _ _ _ _ _ Hmk).
Qed.

Section Create.

Context {F : Features} {T : TensorStore} {R : UrlResolver}.

(** A handler that always raises never turns a failure into a result. *)
Lemma try_rollback_ok_inv (m : M World Dataset) (path : string) (w w' : World)
    (ds : Dataset) :
  try_except m (fun e => fs_rm path;; raise e) w = (w', inr ds) -> m w = (w', inr ds).
Proof.
  unfold try_except. destruct (m w) as [w1 [e|d]]; [|done].
  rewrite rollback_run. discriminate.
Qed.

Lemma create_body_ok_inv (a : Args) (path fs_map mode_ : string) (shape_ : Shape)
    (w w' : World) (ds : Dataset) :
  create_body a path fs_map mode_ shape_ w = (w', inr ds) ->
  exists sch ser flat tensors,
    featurify (a_schema a) = ok sch
    /\ serialize sch = ok ser
    /\ _flatten sch = ok flat
    /\ _generate_storage_tensors path fs_map mode_ shape_ flat []
         (map_set fs_map "meta.json" (Doc (meta_record shape_ ser)) w).1
       = (w', inr tensors)
    /\ ds = {| url := a_url a; token := a_token a; mode := mode_; _path := path;
               _fs_map := fs_map; shape := shape_; schema := sch;
               _flat_tensors := flat; _tensors := tensors |}.
Proof.
  unfold create_body. intros H.
  apply bind_ok_inv in H as (w1 & sch & H1 & H).
  apply lift_ok_inv in H1 as [Hsch ->].
  apply bind_ok_inv in H as (w1 & ser & H1 & H).
  apply lift_ok_inv in H1 as [Hser ->].
  cbv zeta in H.
  apply bind_ok_inv in H as (w1 & [] & H1 & H).
  apply bind_ok_inv in H as (w2 & flat & H2 & H).
  apply lift_ok_inv in H2 as [Hflat ->].
  apply bind_ok_inv in H as (w3 & tensors & H3 & H).
  injection H as <- <-.
  exists sch, ser, flat, tensors. repeat split; try done.
  by rewrite <- H3, H1.
Qed.

Lemma fs_makedirs_ok_inv (q : string) (w w' : World) :
  fs_makedirs q w = (w', inr tt) ->
  exists fs', Fs.makedirs (w_fs w) q = ok fs'
    /\ w' = {| w_fs := fs'; w_log := w_log w ++ [FsMakedirs q] |}.
Proof.
  unfold fs_makedirs. destruct (Fs.makedirs (w_fs w) q) as [e|fs']; [discriminate|].
  intros [= <-]. by exists fs'.
Qed.

Lemma new_tensor_ok_inv (args : DTArgs) (w w' : World) (h : Handle) :
  new_tensor args w = (w', inr h) ->
  DynamicTensor args (w_fs w) = ((DynamicTensor args (w_fs w)).1, inr h)
  /\ w' = {| w_fs := (DynamicTensor args (w_fs w)).1;
             w_log := w_log w ++ [TensorNew args] |}.
Proof.
  unfold new_tensor. destruct (DynamicTensor args (w_fs w)) as [fs' r].
  by intros [= <- ->].
Qed.

(** A run of the generator that returns: what it adds to the trace, the
    keys it registers, and what it leaves of the stored record. *)
Lemma generate_ok (path fs_map mode_ : string) (shape_ : Shape) (ts : list FlatTensor) :
  forall (acc : list (string * Handle)) (w w' : World) (r : list (string * Handle)),
  _generate_storage_tensors path fs_map mode_ shape_ ts acc w = (w', inr r) ->
  (exists evs, w_log w' = (w_log w ++ evs)%list
     /\ forallb (fun ev => negb (is_meta_write ev)) evs = true
     /\ count_events is_tensor_new evs = length ts)
  /\ dict_keys r = registered_paths ts (dict_keys acc)
  /\ (forall root d, keeps_definition root ->
        stored_definition (w_fs w) root = ok d ->
        stored_definition (w_fs w') root = ok d).
Proof.
  induction ts as [|t rest IH]; intros acc w w' r H.
  - injection H as <- <-. split; [|done]. exists []. by rewrite app_nil_r.
  - cbn [_generate_storage_tensors] in H.
    apply bind_ok_inv in H as (w1 & [] & Hmk & H).
    apply bind_ok_inv in H as (w2 & h & Hnew & H).
    apply fs_makedirs_ok_inv in Hmk as (fs1 & Hmk & ->).
    apply new_tensor_ok_inv in Hnew as [Hnew ->]. cbn [w_fs w_log] in *.
    apply IH in H as ((evs & Hlog & Hq & Hn) & Hkeys & Hkeep).
    cbn [w_fs w_log] in *. split; [|split].
    + eexists (_ :: _ :: evs). rewrite Hlog, <- !app_assoc. split; [done|].
      split; [done|]. unfold count_events in *. cbn. by rewrite Hn.
    + by rewrite Hkeys, dict_keys_set.
    + intros root d Hc Hd. apply Hkeep; [done|]. apply Hc.
      by apply (makedirs_keeps_definition _ _ _ _ _ Hmk).
Qed.

(** The same for attaching to existing stores. *)
Lemma open_tensors_ok (path fs_map mode_ : string) (shape_ : Shape) (ts : list FlatTensor) :
  forall (acc : list (string * Handle)) (w w' : World) (r : list (string * Handle)),
  _open_storage_tensors path fs_map mode_ shape_ ts acc w = (w', inr r) ->
  dict_keys r = registered_paths ts (dict_keys acc).
Proof.
  induction ts as [|t rest IH]; intros acc w w' r H.
  - by injection H as <- <-.
  - cbn [_open_storage_tensors] in H.
    apply bind_ok_inv in H as (w2 & h & Hnew & H).
    apply IH in H. by rewrite H, dict_keys_set.
Qed.

Lemma split_at_meta_write_app (pre post : list Event) (ev : Event) :
  forallb quiet pre = true -> is_meta_write ev = true ->
  split_at_meta_write (pre ++ ev :: post) = Some (pre, post).
Proof.
  intros Hq Hev. induction pre as [|x pre IH]; cbn.
  - by rewrite Hev.
  - cbn in Hq. apply andb_true_iff in Hq as [Hx Hq]. rewrite (IH Hq).
    unfold quiet in Hx. apply andb_true_iff in Hx as [Hx _].
    by destruct (is_meta_write x).
Qed.

Lemma count_events_app (p : Event -> bool) (l1 l2 : list Event) :
  count_events p (l1 ++ l2) = (count_events p l1 + count_events p l2)%nat.
Proof. unfold count_events. by rewrite List.filter_app, length_app. Qed.

Lemma count_events_none (p q : Event -> bool) (l : list Event) :
  (forall ev, q ev = true -> p ev = false) ->
  forallb q l = true -> count_events p l = 0%nat.
Proof.
  intros Hpq. unfold count_events. induction l as [|x l IH]; [done|]. cbn.
  intros [Hx Hl]%andb_true_iff. rewrite (Hpq _ Hx). by apply IH.
Qed.

Lemma quiet_not_meta_write (ev : Event) : quiet ev = true -> is_meta_write ev = false.
Proof. unfold quiet. by destruct (is_meta_write ev). Qed.

Lemma quiet_not_tensor_new (ev : Event) : quiet ev = true -> is_tensor_new ev = false.
Proof. unfold quiet. destruct (is_tensor_new ev); [|done]. by rewrite andb_false_r. Qed.

Lemma forallb_weaken (p q : Event -> bool) (l : list Event) :
  (forall ev, p ev = true -> q ev = true) -> forallb p l = true -> forallb q l = true.
Proof.
  intros Hpq. induction l as [|x l IH]; [done|]. cbn.
  intros [Hx Hl]%andb_true_iff. by rewrite (Hpq _ Hx), IH.
Qed.

(** The constructor up to the point where its branches part is quiet. *)
Lemma resolves_quietly (a : Args) (w w1 : World) (needcreate : bool)
    (path fs_map mode_ : string) :
  resolves_to a w needcreate path fs_map mode_ w1 -> extends_with quiet w w1.
Proof.
  intros (_ & _ & _ & w0 & Hprep & Hmap).
  eapply extends_with_trans.
  - pose proof (prepare_dir_quiet path mode_ w) as H. by rewrite Hprep in H.
  - destruct (choose_fs_map_run path (a_fs_map a) w0) as (f & w1' & Hrun & _ & Hq & _).
    rewrite Hmap in Hrun. by injection Hrun as -> _.
Qed.

Lemma generate_no_meta_write (path fs_map mode_ : string) (shape_ : Shape)
    (ts : list FlatTensor) :
  forall acc, emits (fun ev => negb (is_meta_write ev))
                (_generate_storage_tensors path fs_map mode_ shape_ ts acc).
Proof.
  induction ts as [|t rest IH]; intros acc; cbn [_generate_storage_tensors].
  - apply emits_ret.
  - apply emits_bind; [by apply emits_fs_makedirs|]. intros _.
    apply emits_bind; [|intros h; apply IH].
    intros w. unfold new_tensor.
    destruct (DynamicTensor _ (w_fs w)) as [fs' r]. by apply extends_with_step.
Qed.

(** The trace of the [try] block, whatever its outcome: either nothing
    happened at all (the schema was refused or could not be serialized),
    or the record was written and no later event writes it again. *)
Lemma create_body_trace (a : Args) (path fs_map mode_ : string) (shape_ : Shape)
    (w w3 : World) (r : Result Dataset) :
  create_body a path fs_map mode_ shape_ w = (w3, r) ->
  (w3 = w /\ exists e, r = inl e)
  \/ exists evs, w_log w3 = (w_log w ++ MapSet fs_map "meta.json" :: evs)%list
       /\ forallb (fun ev => negb (is_meta_write ev)) evs = true.
Proof.
  unfold create_body. rewrite bind_lift.
  destruct (featurify (a_schema a)) as [e|sch]; [intros [= <- <-]; left; eauto|].
  rewrite bind_lift.
  destruct (serialize sch) as [e|ser]; [intros [= <- <-]; left; eauto|].
  set (w2 := (map_set fs_map "meta.json" (Doc (meta_record shape_ ser)) w).1).
  rewrite (bind_ok _ _ _ w2 tt); [|done].
  rewrite bind_lift. intros H. right.
  destruct (_flatten sch) as [e|flat].
  - injection H as <- _. by exists [].
  - destruct (generate_no_meta_write path fs_map mode_ shape_ flat [] w2)
      as (evs & Hlog & Hq).
    exists evs. split; [|done].
    unfold mbind, M_bind in H.
    destruct (_generate_storage_tensors path fs_map mode_ shape_ flat [] w2)
      as [w4 [e|tensors]]; injection H as <- _; cbn [fst] in Hlog;
      rewrite Hlog; subst w2; cbn [map_set fst w_log]; by rewrite <- app_assoc.
Qed.

(** C7, as the code has it.  In every Create the constructor writes the
    metadata record at most once, and never after a field store has been
    constructed.  In a Create that returns, the record is written
    exactly once and that write comes before the construction of every
    field store: the trace of the call splits at the one write of
    ["meta.json"], no field store is constructed before it, and the
    stores of all flattened fields are constructed after it.  In a
    Create that raises, either the record was written once, before every
    field store the call constructed, or it was not written and no field
    store was constructed. *)
Theorem create_writes_metadata_once_before_stores (a : Args) (w w1 w' : World)
    (path fs_map mode_ : string) (r : Result Dataset) :
  resolves_to a w true path fs_map mode_ w1 ->
  __init__ a w = (w', r) ->
  exists evs, w_log w' = (w_log w ++ evs)%list
    /\ match r with
       | inr ds =>
           written_once_before_stores evs = true
           /\ count_events is_meta_write evs = 1%nat
           /\ count_events is_tensor_new evs = length (_flat_tensors ds)
       | inl e =>
           (written_once_before_stores evs = true
            /\ count_events is_meta_write evs = 1%nat)
           \/ (count_events is_meta_write evs = 0%nat
               /\ count_events is_tensor_new evs = 0%nat)
       end.
Proof.
  intros Hres Hinit.
  pose proof (resolves_quietly _ _ _ _ _ _ _ Hres) as (evs0 & Hlog0 & Hq0).
  rewrite (init_unfold _ _ _ _ _ _ _ Hres) in Hinit.
  assert (Hmeta : forall evs,
    forallb (fun ev => negb (is_meta_write ev)) evs = true ->
    written_once_before_stores (evs0 ++ MapSet fs_map "meta.json" :: evs) = true
    /\ count_events is_meta_write (evs0 ++ MapSet fs_map "meta.json" :: evs) = 1%nat).
  { intros evs Hq. split.
    - unfold written_once_before_stores.
      rewrite split_at_meta_write_app by done. rewrite Hq.
      rewrite (forallb_weaken quiet (fun ev => negb (is_tensor_new ev))); [done| |done].
      intros ev Hev. by rewrite (quiet_not_tensor_new _ Hev).
    - rewrite count_events_app.
      rewrite (count_events_none _ quiet evs0 quiet_not_meta_write Hq0).
      change (MapSet fs_map "meta.json" :: evs)
        with ([MapSet fs_map "meta.json"] ++ evs)%list.
      rewrite count_events_app.
      rewrite (count_events_none is_meta_write (fun ev => negb (is_meta_write ev)) evs);
        [done| |done].
      intros ev Hev. by destruct (is_meta_write ev). }
  destruct r as [e|ds].
  - destruct (create_body a path fs_map mode_ (shape_or_default (a_shape a)) w1)
      as [w3 r3] eqn:Ebody.
    destruct r3 as [e3|ds3];
      [|rewrite (try_except_ok _ _ _ _ _ Ebody) in Hinit; discriminate].
    rewrite (try_except_raise _ _ _ _ _ Ebody), rollback_run in Hinit.
    injection Hinit as <- _.
    apply create_body_trace in Ebody as [[-> _] | (evs & Hlog & Hq)]; cbn [w_log].
    + exists (evs0 ++ [FsRm path])%list. rewrite Hlog0, <- app_assoc. split; [done|].
      right. rewrite !count_events_app.
      rewrite (count_events_none _ quiet evs0 quiet_not_meta_write Hq0).
      by rewrite (count_events_none _ quiet evs0 quiet_not_tensor_new Hq0).
    + exists (evs0 ++ MapSet fs_map "meta.json" :: (evs ++ [FsRm path]))%list.
      rewrite Hlog, Hlog0, <- !app_assoc. split; [done|].
      left. apply Hmeta. rewrite forallb_app, Hq. done.
  - apply try_rollback_ok_inv, create_body_ok_inv in Hinit
      as (sch & ser & flat & tensors & _ & _ & _ & Hgen & ->).
    apply generate_ok in Hgen as ((evs & Hlog & Hq & Hn) & _ & _).
    cbn [map_set fst w_log _flat_tensors] in *.
    exists (evs0 ++ MapSet fs_map "meta.json" :: evs)%list.
    rewrite Hlog, Hlog0, <- !app_assoc. split; [done|].
    destruct (Hmeta evs Hq) as [H1 H2]. split; [done|]. split; [done|].
    rewrite count_events_app.
    rewrite (count_events_none _ quiet evs0 quiet_not_tensor_new Hq0).
    change (MapSet fs_map "meta.json" :: evs)
      with ([MapSet fs_map "meta.json"] ++ evs)%list.
    by rewrite count_events_app.
Qed.

End Create.

(** The Create of [Demo.create_ok] returns, and its trace is: directory
    checks, the write of ["meta.json"], then the two field stores.  The
    reading "written after every field store" fails on it. *)
Lemma metadata_written_after_stores_counterexample :
  Demo.returned Demo.create_ok = true
  /\ written_once_after_stores (w_log Demo.create_ok.1) = false.
Proof. split; vm_compute; reflexivity. Qed.

(** The returning Create of [Demo.create_ok], and the Create with
    [Demo.schema_bad], whose second field store raises after the record
    and the first store. *)
Lemma create_writes_metadata_once_before_stores_witness :
  (exists evs, w_log Demo.create_ok.1 = (w_log Demo.empty ++ evs)%list
     /\ written_once_before_stores evs = true
     /\ count_events is_meta_write evs = 1%nat
     /\ count_events is_tensor_new evs
        = length (_flat_tensors (Demo.dataset_of Demo.create_ok)))
  /\ (exists evs,
        w_log (Demo.init (Demo.args (Some "w") false (Some [Some 100])
                            (Some Demo.schema_bad)) Demo.empty).1
        = (w_log Demo.empty ++ evs)%list
        /\ ((written_once_before_stores evs = true
             /\ count_events is_meta_write evs = 1%nat)
            \/ (count_events is_meta_write evs = 0%nat
                /\ count_events is_tensor_new evs = 0%nat))).
Proof.
  split.
  - apply (create_writes_metadata_once_before_stores (F := SpecFeatures) (T := MemTensors)
             (R := PlainUrls)
             (Demo.args (Some "w") false (Some [Some 100]) (Some Demo.schema_ok))
             Demo.empty
             (_check_and_prepare_dir "data/x" "w" Demo.empty).1
             Demo.create_ok.1 "data/x" "data/x" "w" (inr (Demo.dataset_of Demo.create_ok))).
    + repeat split.
      exists (_check_and_prepare_dir "data/x" "w" Demo.empty).1.
      split; vm_compute; reflexivity.
    + reflexivity.
  - apply (create_writes_metadata_once_before_stores (F := SpecFeatures) (T := MemTensors)
             (R := PlainUrls)
             (Demo.args (Some "w") false (Some [Some 100]) (Some Demo.schema_bad))
             Demo.empty
             (_check_and_prepare_dir "data/x" "w" Demo.empty).1
             (Demo.init (Demo.args (Some "w") false (Some [Some 100])
                           (Some Demo.schema_bad)) Demo.empty).1
             "data/x" "data/x" "w" (inl (CollaboratorError "DynamicTensor" "dtype"))).
    + repeat split.
      exists (_check_and_prepare_dir "data/x" "w" Demo.empty).1.
      split; vm_compute; reflexivity.
    + reflexivity.
Defined.

(** ** Create, commit, reopen *)

Section RoundTrip.

Context {F : Features} {T : TensorStore} {R : UrlResolver}.







End RoundTrip.

(** *** The in-memory store honours the contract *)





(** On the concrete dataset the second call does return, with the shape,
    schema and paths of the first. *)
Example reopen_read_returns :
  Demo.returned Demo.reopen_read = true
  /\ shape (Demo.dataset_of Demo.reopen_read) = [Some 100]
  /\ schema (Demo.dataset_of Demo.reopen_read) = Demo.schema_ok
  /\ dict_keys (_tensors (Demo.dataset_of Demo.reopen_read)) = ["/image"; "/label"].
Proof. repeat split; vm_compute; reflexivity. Qed.

(** ** Safe mode *)

Section SafeMode.

Context {F : Features} {T : TensorStore} {R : UrlResolver}.

Lemma emits_map_get (p : Event -> bool) (root k : string) :
  p (MapGet root k) = true -> emits p (map_get root k).
Proof. intros H w. by apply extends_with_step. Qed.

Lemma emits_new_tensor (p : Event -> bool) (a : DTArgs) :
  p (TensorNew a) = true -> emits p (new_tensor a).
Proof.
  intros H w. unfold new_tensor.
  destruct (DynamicTensor a (w_fs w)) as [fs' r]. by apply extends_with_step.
Qed.

Lemma open_tensors_mode (path fs_map mode_ : string) (shape_ : Shape)
    (ts : list FlatTensor) :
  forall acc, emits (opened_with mode_)
                (_open_storage_tensors path fs_map mode_ shape_ ts acc).
Proof.
  induction ts as [|t rest IH]; intros acc; cbn [_open_storage_tensors].
  - apply emits_ret.
  - apply emits_bind; [|intros h; apply IH].
    apply emits_new_tensor. cbn. apply String.eqb_refl.
Qed.

Lemma open_body_mode (a : Args) (path fs_map mode_ : string) :
  emits (opened_with mode_) (open_body a path fs_map mode_).
Proof.
  unfold open_body.
  apply emits_bind; [by apply emits_map_get|]. intros c.
  repeat (apply emits_bind; [apply emits_lift|]; intros ?).
  apply emits_bind; [apply open_tensors_mode|]. intros tensors. apply emits_ret.
Qed.

Lemma open_body_ok_mode (a : Args) (path fs_map mode_ : string) (w w' : World)
    (ds : Dataset) :
  open_body a path fs_map mode_ w = (w', inr ds) -> mode ds = mode_.
Proof.
  unfold open_body. intros H.
  repeat (apply bind_ok_inv in H as (? & ? & _ & H)).
  by injection H as _ <-.
Qed.

(** Whatever [safe_mode] is, an Open keeps the requested mode: it is the
    [mode] of the dataset that is returned, and every field store the
    call constructs is constructed in it. *)
Lemma open_keeps_requested_mode (a : Args) (w w1 w' : World)
    (path fs_map mode_ : string) (ds : Dataset) :
  resolves_to a w false path fs_map mode_ w1 ->
  __init__ a w = (w', inr ds) ->
  mode ds = mode_ /\ extends_with (opened_with mode_) w1 w'.
Proof.
  intros Hres Hinit. rewrite (init_unfold _ _ _ _ _ _ _ Hres) in Hinit. split.
  - by apply open_body_ok_mode in Hinit.
  - pose proof (open_body_mode a path fs_map mode_ w1) as H. by rewrite Hinit in H.
Qed.

End SafeMode.

(** ** Indexing *)

Section Indexing.

Context {F : Features} {T : TensorStore} {U : DatasetUtils}.

Lemma get_dictionary_step_zero (ds : Dataset) (subpath key : string)
    (d : list (string * Tree)) :
  PyStr.startswith subpath key = true ->
  get_dictionary_step ds subpath (d, Some (RInt 0)) key
  = get_dictionary_step ds subpath (d, None) key.
Proof. unfold get_dictionary_step. by intros ->. Qed.

Lemma get_dictionary_loop_zero (ds : Dataset) (subpath : string) (keys : list string) :
  forall d,
  match get_dictionary_loop ds subpath keys (d, Some (RInt 0)),
        get_dictionary_loop ds subpath keys (d, None) with
  | inl e1, inl e2 => e1 = e2
  | inr s1, inr s2 => s1.1 = s2.1
  | _, _ => False
  end.
Proof.
  induction keys as [|key rest IH]; intros d; [done|].
  cbn [get_dictionary_loop].
  destruct (PyStr.startswith subpath key) eqn:E.
  - rewrite (get_dictionary_step_zero _ _ _ _ E).
    destruct (get_dictionary_step ds subpath (d, None) key) as [e|st]; [done|].
    cbn. by destruct (get_dictionary_loop ds subpath rest st).
  - unfold get_dictionary_step. rewrite E. cbn. apply IH.
Qed.

(** Position 0 is read as "no term": the group comes back exactly as
    for the bare subpath, every view over the full sample range. *)
Lemma get_dictionary_zero_is_no_term (ds : Dataset) (subpath : string) :
  _get_dictionary ds subpath (Some (RInt 0)) = _get_dictionary ds subpath None.
Proof.
  unfold _get_dictionary.
  set (sub := if PyStr.endswith "/" subpath then subpath else subpath +:+ "/").
  pose proof (get_dictionary_loop_zero ds sub (dict_keys (_tensors ds)) []) as H.
  destruct (get_dictionary_loop ds sub _ ([], Some (RInt 0))) as [e1|s1],
           (get_dictionary_loop ds sub _ ([], None)) as [e2|s2];
    cbn; try done; by rewrite H.
Qed.

Lemma dict_views_cons (k : string) (x : Tree) (d : list (string * Tree)) :
  dict_views ((k, x) :: d) = (tree_views x ++ dict_views d)%list.
Proof. reflexivity. Qed.

Lemma dict_views_set (k : string) (x : Tree) (d : list (string * Tree)) (v : TensorView) :
  v ∈ dict_views (dict_set k x d) -> v ∈ tree_views x \/ v ∈ dict_views d.
Proof.
  induction d as [|[k' x'] d IH]; cbn [dict_set].
  - rewrite dict_views_cons. intros [H|H]%elem_of_app; eauto.
  - destruct (String.eqb k k'); rewrite !dict_views_cons.
    + intros [H|H]%elem_of_app; [by left|]. right. apply elem_of_app. by right.
    + intros [H|H]%elem_of_app.
      * right. apply elem_of_app. by left.
      * destruct (IH H) as [H'|H']; [by left|]. right. apply elem_of_app. by right.
Qed.

Lemma assoc_views (k : string) (x : Tree) (d : list (string * Tree)) (v : TensorView) :
  assoc k d = Some x -> v ∈ tree_views x -> v ∈ dict_views d.
Proof.
  induction d as [|[k' x'] d IH]; cbn [assoc]; [done|].
  rewrite dict_views_cons. destruct (String.eqb k k').
  - intros [= ->] H. apply elem_of_app. by left.
  - intros Hk H. apply elem_of_app. right. by apply IH.
Qed.

(** The walk adds the new view and no other. *)
Lemma dict_insert_views (last : string) (v : TensorView) (segs : list string) :
  forall d d' v',
  dict_insert segs last (ok (TView v)) d = ok d' ->
  v' ∈ dict_views d' -> v' = v \/ v' ∈ dict_views d.
Proof.
  induction segs as [|s segs IH]; intros d d' v'; cbn [dict_insert].
  - intros [= <-] H. apply dict_views_set in H as [H|H]; [|by right].
    left. by apply list_elem_of_singleton in H.
  - destruct (assoc s d) as [[leaf|cur]|] eqn:E; [discriminate| |].
    + destruct (dict_insert segs last (ok (TView v)) cur) as [e|sub] eqn:Esub;
        [discriminate|].
      intros [= <-] H. apply dict_views_set in H as [H|H]; [|by right].
      destruct (IH _ _ _ Esub H) as [H'|H']; [by left|].
      right. by apply (assoc_views s (TDict cur)).
    + destruct (dict_insert segs last (ok (TView v)) []) as [e|sub] eqn:Esub;
        [discriminate|].
      intros [= <-] H. apply dict_views_set in H as [H|H]; [|by right].
      destruct (IH _ _ _ Esub H) as [H'|H']; [by left|].
      by apply elem_of_nil in H'.
Qed.

Lemma get_dictionary_step_term (ds : Dataset) (subpath key : string) (t : RangeTerm)
    (d d' : list (string * Tree)) (o : option RangeTerm) :
  truthy_term (Some t) = true ->
  get_dictionary_step ds subpath (d, Some t) key = ok (d', o) ->
  Forall (fun v => tv_slice v = SlOne t) (dict_views d) ->
  o = Some t /\ Forall (fun v => tv_slice v = SlOne t) (dict_views d').
Proof.
  intros Ht Hstep Hd. unfold get_dictionary_step in Hstep. rewrite Ht in Hstep.
  destruct (PyStr.startswith subpath key).
  - change (t0 ← ok t; ok (TView {| tv_subpath := key; tv_slice := SlOne t0 |}))
      with (ok (TView {| tv_subpath := key; tv_slice := SlOne t |})) in Hstep.
    destruct (dict_insert _ _ _ d) as [e|d1] eqn:Eins; [discriminate|].
    injection Hstep as <- <-. split; [done|].
    apply Forall_forall. intros v' Hv'.
    destruct (dict_insert_views _ _ _ _ _ _ Eins Hv') as [->|Hin]; [done|].
    by apply (proj1 (Forall_forall _ _) Hd).
  - by injection Hstep as <- <-.
Qed.

Lemma get_dictionary_loop_term (ds : Dataset) (subpath : string) (t : RangeTerm)
    (keys : list string) :
  truthy_term (Some t) = true ->
  forall d st,
  get_dictionary_loop ds subpath keys (d, Some t) = ok st ->
  Forall (fun v => tv_slice v = SlOne t) (dict_views d) ->
  Forall (fun v => tv_slice v = SlOne t) (dict_views st.1).
Proof.
  intros Ht. induction keys as [|key rest IH]; intros d st; cbn [get_dictionary_loop].
  - by intros [= <-].
  - destruct (get_dictionary_step ds subpath (d, Some t) key) as [e|[d1 o]] eqn:E;
      [discriminate|].
    intros Hloop Hd.
    destruct (get_dictionary_step_term _ _ _ _ _ _ _ Ht E Hd) as [-> Hd1].
    by apply (IH d1).
Qed.

(** For a term that is not position 0, the group is constrained as the
    specification says: every view of the result, at any depth, carries
    exactly that term on its sample dimension. *)
Lemma get_dictionary_term (ds : Dataset) (subpath : string) (t : RangeTerm)
    (d : list (string * Tree)) :
  t <> RInt 0 ->
  _get_dictionary ds subpath (Some t) = ok d ->
  Forall (fun v => tv_slice v = SlOne t) (dict_views d).
Proof.
  intros Ht. unfold _get_dictionary.
  assert (Htruthy : truthy_term (Some t) = true).
  { destruct t as [i|]; [|done]. cbn. destruct (Z.eqb_spec i 0); [|done].
    by subst. }
  destruct (get_dictionary_loop ds _ _ ([], Some t)) as [e|st] eqn:E; [discriminate|].
  cbn. destruct (length st.1 =? 0)%nat; [discriminate|]. intros [= <-].
  apply (get_dictionary_loop_term _ _ _ _ Htruthy _ _ E). constructor.
Qed.

Lemma assoc_dict_set_eq {A} (k : string) (v : A) (d : list (string * A)) :
  assoc k (dict_set k v d) = Some v.
Proof.
  induction d as [|[k' v'] d IH]; cbn [dict_set assoc].
  - by rewrite String.eqb_refl.
  - destruct (String.eqb k k') eqn:E; cbn [assoc].
    + by rewrite String.eqb_refl.
    + by rewrite E.
Qed.

Lemma assoc_dict_set_ne {A} (k k0 : string) (v : A) (d : list (string * A)) :
  k0 <> k -> assoc k0 (dict_set k v d) = assoc k0 d.
Proof.
  intros Hne. induction d as [|[k' v'] d IH]; cbn [dict_set assoc].
  - by destruct (String.eqb_spec k0 k).
  - destruct (String.eqb_spec k k') as [->|Hk]; cbn [assoc].
    + by destruct (String.eqb_spec k0 k').
    + by rewrite IH.
Qed.

Lemma dict_keys_set_registered {A} (k : string) (v v0 : A) (d : list (string * A)) :
  assoc k d = Some v0 -> dict_keys (dict_set k v d) = dict_keys d.
Proof.
  unfold dict_keys. induction d as [|[k' v'] d IH]; cbn [dict_set assoc map fst]; [done|].
  destruct (String.eqb_spec k k') as [->|Hk]; [done|].
  intros H. cbn [map fst]. by rewrite IH.
Qed.

(** C6. Writing through [__setitem__], once the selector is split into
    subpath and terms: without a subpath the call raises [ValueError]
    and the dataset and the world are as before; with the subpath of a
    registered field and no term, the value is assigned to that field's
    handle at the full slice [[:]]; with terms, at exactly the list of
    those terms.  When the handle raises, its error is the call's and
    the registry is as before.  When it accepts, the field registered at
    the subpath holds the state the assignment left, every other field
    holds what it held, and nothing else of the dataset has changed. *)
Theorem setitem_resolution (sel : Selector) (value : Value) (st : St)
    (subpath : option string) (terms : list RangeTerm) :
  slice_split (as_list sel) = ok (subpath, terms) ->
  match truthy_subpath subpath with
  | None =>
      __setitem__ sel value st
      = (st, inl (ValueError "Can't assign to dataset sliced without subpath"))
  | Some sp =>
      forall h, assoc sp (_tensors (self st)) = Some h ->
        forall idx,
          idx = match terms with
                | [] => SlOne (RSlice None None None)
                | _ => SlMany terms
                end ->
          match tensor_setitem h idx value (w_fs (world st)) with
          | (fs', inl e) =>
              __setitem__ sel value st
              = ({| world := {| w_fs := fs';
                                w_log := w_log (world st) ++ [TensorSetitem sp idx] |};
                    self := self st |}, inl e)
          | (fs', inr h') =>
              exists ds',
                __setitem__ sel value st
                = ({| world := {| w_fs := fs';
                                  w_log := w_log (world st) ++ [TensorSetitem sp idx] |};
                      self := ds' |}, inr tt)
                /\ assoc sp (_tensors ds') = Some h'
                /\ (forall k, k <> sp ->
                      assoc k (_tensors ds') = assoc k (_tensors (self st)))
                /\ same_definition (self st) ds'
          end
  end.
Proof.
  intros Hsplit. unfold __setitem__. rewrite bind_lift, Hsplit. unfold ok.
  destruct (truthy_subpath subpath) as [sp|]; [|done].
  intros h Hh idx ->.
  assert (Hrun : forall idx,
    on_tensor sp (TensorSetitem sp idx) (fun h0 => tensor_setitem h0 idx value) st
    = match tensor_setitem h idx value (w_fs (world st)) with
      | (fs', inl e) =>
          ({| world := {| w_fs := fs';
                          w_log := w_log (world st) ++ [TensorSetitem sp idx] |};
              self := self st |}, inl e)
      | (fs', inr h') =>
          ({| world := {| w_fs := fs';
                          w_log := w_log (world st) ++ [TensorSetitem sp idx] |};
              self := set_tensor sp h' (self st) |}, inr tt)
      end).
  { intros idx. unfold on_tensor. rewrite Hh.
    by destruct (tensor_setitem h idx value (w_fs (world st))) as [fs' [e|h']]. }
  assert (Hgoal : forall idx,
    match tensor_setitem h idx value (w_fs (world st)) with
    | (fs', inl e) =>
        on_tensor sp (TensorSetitem sp idx) (fun h0 => tensor_setitem h0 idx value) st
        = ({| world := {| w_fs := fs';
                          w_log := w_log (world st) ++ [TensorSetitem sp idx] |};
              self := self st |}, inl e)
    | (fs', inr h') =>
        exists ds',
          on_tensor sp (TensorSetitem sp idx) (fun h0 => tensor_setitem h0 idx value) st
          = ({| world := {| w_fs := fs';
                            w_log := w_log (world st) ++ [TensorSetitem sp idx] |};
                self := ds' |}, inr tt)
          /\ assoc sp (_tensors ds') = Some h'
          /\ (forall k, k <> sp ->
                assoc k (_tensors ds') = assoc k (_tensors (self st)))
          /\ same_definition (self st) ds'
    end).
  { intros idx. rewrite (Hrun idx).
    destruct (tensor_setitem h idx value (w_fs (world st))) as [fs' [e|h']]; [done|].
    exists (set_tensor sp h' (self st)). split; [done|]. cbn [set_tensor _tensors].
    split; [apply assoc_dict_set_eq|].
    split; [intros k Hk; by apply assoc_dict_set_ne|].
    repeat split. cbn [_tensors]. by apply (dict_keys_set_registered sp h' h). }
  destruct terms as [|t terms]; apply Hgoal.
Qed.

(** C10. Writing to a subpath that is not a registered field path, a
    group prefix included, raises [KeyError] for that subpath, not
    [ValueError]; the dataset and the world are as before, so no
    field's data is modified. *)
Theorem setitem_unregistered_subpath (sel : Selector) (value : Value) (st : St)
    (subpath : option string) (terms : list RangeTerm) (sp : string) :
  slice_split (as_list sel) = ok (subpath, terms) ->
  truthy_subpath subpath = Some sp ->
  assoc sp (_tensors (self st)) = None ->
  __setitem__ sel value st = (st, inl (KeyError sp)).
Proof.
  intros Hsplit Hsp Hnone. unfold __setitem__.
  rewrite bind_lift, Hsplit. unfold ok. rewrite Hsp.
  destruct terms; unfold on_tensor; by rewrite Hnone.
Qed.

End Indexing.

(** ** Leaving a [with] block *)

Section Scope.

Context {F : Features} {T : TensorStore}.

Lemma on_tensor_commit_log (k : string) (st : St) :
  exists evs,
    w_log (world (on_tensor k (TensorCommit k) tensor_commit st).1)
    = (w_log (world st) ++ evs)%list
    /\ count_events is_dataset_commit evs = 0%nat.
Proof.
  unfold on_tensor. destruct (assoc k (_tensors (self st))) as [h|].
  - destruct (tensor_commit h (w_fs (world st))) as [fs' [e|h']];
      by exists [TensorCommit k].
  - exists []. by rewrite app_nil_r.
Qed.

Lemma commit_each_log (keys : list string) :
  forall st : St,
  exists evs,
    w_log (world (commit_each keys st).1) = (w_log (world st) ++ evs)%list
    /\ count_events is_dataset_commit evs = 0%nat.
Proof.
  induction keys as [|k keys IH]; intros st.
  - exists []. by rewrite app_nil_r.
  - cbn [commit_each]. unfold mbind, M_bind.
    destruct (on_tensor_commit_log k st) as (e1 & H1 & C1).
    destruct (on_tensor k (TensorCommit k) tensor_commit st) as [st1 [e|[]]].
    + by exists e1.
    + destruct (IH st1) as (e2 & H2 & C2). exists (e1 ++ e2)%list.
      cbn [fst] in *. rewrite H2, H1, <- app_assoc. split; [done|].
      by rewrite count_events_app, C1, C2.
Qed.

Lemma commit_log_count (st : St) :
  count_events is_dataset_commit (w_log (world (commit st).1))
  = S (count_events is_dataset_commit (w_log (world st))).
Proof.
  unfold commit.
  destruct (commit_each_log (dict_keys (_tensors (self st)))
              {| world := log DatasetCommit (world st); self := self st |})
    as (evs & Hlog & Hc).
  rewrite Hlog. cbn [world log w_log].
  rewrite !count_events_app, Hc. cbn. lia.
Qed.

Lemma exit_run (exc : option Exn) (st : St) :
  __exit__ exc st
  = match commit st with
    | (st', inl e) => (st', inl e)
    | (st', inr _) => (st', inr PyNone)
    end.
Proof. unfold __exit__, mbind, M_bind. by destruct (commit st) as [st' [e|[]]]. Qed.

(** C8. [__exit__] is one call of [commit()], with or without an
    exception in flight, and what it returns is never true.  So a [with]
    block over the dataset ends, on every path, in the state that one
    [commit()] makes of the state the body left (the trace has exactly
    one more [DatasetCommit]); and when the body raised, the block
    raises: the body's error, unless [commit()] raised one itself. *)
Theorem exit_commits_once_and_never_suppresses {A : Type}
    (body : Dataset -> M St A) (st : St) (exc : option Exn) :
  (__exit__ exc st).1 = (commit st).1
  /\ count_events is_dataset_commit (w_log (world (__exit__ exc st).1))
     = S (count_events is_dataset_commit (w_log (world st)))
  /\ (forall v, (__exit__ exc st).2 = inr v -> truthy_exit v = false)
  /\ (with_ body st).1 = (commit (body (self st) st).1).1
  /\ count_events is_dataset_commit (w_log (world (with_ body st).1))
     = S (count_events is_dataset_commit (w_log (world (body (self st) st).1)))
  /\ (forall e, (body (self st) st).2 = inl e ->
        exists e', (with_ body st).2 = inl e'
          /\ ((commit (body (self st) st).1).2 = inr tt -> e' = e)).
Proof.
  assert (Hexit : forall exc' s, (__exit__ exc' s).1 = (@commit F T s).1).
  { intros exc' s. rewrite exit_run. by destruct (commit s) as [s' [e|[]]]. }
  assert (Hwith : (with_ body st).1 = (commit (body (self st) st).1).1).
  { unfold with_, __enter__, ok.
    destruct (body (self st) st) as [st1 [e|a]]; cbn [fst];
      rewrite exit_run; by destruct (commit st1) as [st2 [e'|[]]]. }
  split; [apply Hexit|]. split; [rewrite Hexit; apply commit_log_count|].
  split; [|split; [exact Hwith|split]].
  - intros v. rewrite exit_run. destruct (commit st) as [st' [e|[]]]; [done|].
    by intros [= <-].
  - rewrite Hwith. apply commit_log_count.
  - intros e He. unfold with_, __enter__, ok.
    destruct (body (self st) st) as [st1 r]. cbn in He. subst r. cbn [fst].
    rewrite exit_run. destruct (commit st1) as [st2 [e'|[]]]; cbn.
    + by exists e'.
    + by exists e.
Qed.

End Scope.

(** ** The model on concrete datasets *)

(** C3, on the code.  A Create that is given a storage map of the
    caller's, rooted outside the dataset path, and fails on its second
    field store: the error is re-raised unchanged and the tree at the
    dataset path is removed, but the metadata record was written through
    the given map and stays there.  At that root the half-created dataset
    is discoverable: the directory check of a later call resolves to
    Open, and opening it returns a dataset with the schema of the failed
    call. *)
Lemma failed_create_stays_discoverable_in_given_map :
  Examples.create_bad_foreign.2 = inl (CollaboratorError "DynamicTensor" "dtype")
  /\ Fs.exists_ (w_fs Examples.create_bad_foreign.1) "data/x" = false
  /\ Fs.listdir (w_fs Examples.create_bad_foreign.1) "data/x" = []
  /\ Fs.map_get (w_fs Examples.create_bad_foreign.1) "other" "meta.json"
     = ok (Doc (meta_record [Some 100] (serialize_node Demo.schema_bad)))
  /\ (@_check_and_prepare_dir "other" "r" Examples.create_bad_foreign.1).2 = ok false
  /\ Demo.returned Examples.open_foreign = true
  /\ schema (Demo.dataset_of Examples.open_foreign) = Demo.schema_bad
  /\ shape (Demo.dataset_of Examples.open_foreign) = [Some 100]
  /\ dict_keys (_tensors (Demo.dataset_of Examples.open_foreign)) = ["/image"; "/blob"].
Proof. repeat split; vm_compute; reflexivity. Qed.

(** C2, on the code.  [Demo.reopen_safe] opens an existing dataset with
    [mode="a", safe_mode=True].  The call returns; the dataset's mode is
    ["a"], both field stores were constructed in mode ["a"], and an
    assignment through the dataset goes through.  The local [mode] that
    safe mode sets to ["r"] is read by nothing. *)
Lemma safe_mode_reopen_keeps_append_mode :
  Demo.returned Demo.reopen_safe = true
  /\ mode (Demo.dataset_of Demo.reopen_safe) = "a"
  /\ dt_mode (h_args (Demo.handle_of "/image" (Demo.dataset_of Demo.reopen_safe))) = "a"
  /\ dt_mode (h_args (Demo.handle_of "/label" (Demo.dataset_of Demo.reopen_safe))) = "a"
  /\ (Demo.setitem (Seq [SStr "label"; SRange (RInt 3)]) 7
        (Demo.state_of Demo.reopen_safe)).2 = inr tt.
Proof. repeat split; vm_compute; reflexivity. Qed.

(** C5, on the code.  With fields ["/group/a"] and ["/group/b"] over ten
    samples, [ds["group", 0]] gives both views the full range
    [slice(0, 10)], not position 0, while [ds["group", 3]] gives both
    views position 3. *)
Lemma getitem_group_at_zero_spans_all_samples :
  Demo.getitem (Demo.dataset_of Demo.create_group) (Seq [SStr "group"; SRange (RInt 0)])
  = ok (IDict [("a", TView {| tv_subpath := "/group/a";
                              tv_slice := SlOne (RSlice (Some 0) (Some 10) None) |});
               ("b", TView {| tv_subpath := "/group/b";
                              tv_slice := SlOne (RSlice (Some 0) (Some 10) None) |})])
  /\ Demo.getitem (Demo.dataset_of Demo.create_group) (Seq [SStr "group"; SRange (RInt 3)])
     = ok (IDict [("a", TView {| tv_subpath := "/group/a"; tv_slice := SlOne (RInt 3) |});
                  ("b", TView {| tv_subpath := "/group/b"; tv_slice := SlOne (RInt 3) |})]).
Proof. split; vm_compute; reflexivity. Qed.

(** [ds["label", 3] = 7] on the dataset of [Demo.create_ok]: afterwards
    the field ["/label"] holds the value 7 at position 3. *)
Lemma setitem_resolution_witness :
  exists ds',
    Demo.setitem (Seq [SStr "label"; SRange (RInt 3)]) 7 (Demo.state_of Demo.create_ok)
    = (@Build_St SpecFeatures MemTensors
         {| w_fs := w_fs Demo.create_ok.1;
            w_log := w_log Demo.create_ok.1
                     ++ [TensorSetitem "/label" (SlMany [RInt 3])] |}
         ds', inr tt)
    /\ assoc "/label" (_tensors ds')
       = Some {| h_args := h_args (Demo.handle_of "/label" (Demo.dataset_of Demo.create_ok));
                 h_assigned := [(SlMany [RInt 3], 7)];
                 h_commits := 0 |}
    /\ (forall k, k <> "/label" ->
          assoc k (_tensors ds') = assoc k (_tensors (Demo.dataset_of Demo.create_ok)))
    /\ same_definition (Demo.dataset_of Demo.create_ok) ds'.
Proof.
  pose proof (setitem_resolution (F := SpecFeatures) (T := MemTensors) (U := SpecUtils)
                (Seq [SStr "label"; SRange (RInt 3)]) 7 (Demo.state_of Demo.create_ok)
                (Some "/label") [RInt 3] eq_refl) as H.
  exact (H (Demo.handle_of "/label" (Demo.dataset_of Demo.create_ok)) eq_refl
           (SlMany [RInt 3]) eq_refl).
Defined.

(** [ds[5] = 7], with no subpath, and [ds["label"] = 7], with no term *)
Example setitem_without_subpath_or_terms :
  Demo.setitem (Single (SRange (RInt 5))) 7 (Demo.state_of Demo.create_ok)
  = (Demo.state_of Demo.create_ok,
     inl (ValueError "Can't assign to dataset sliced without subpath"))
  /\ h_assigned (Demo.handle_of "/label"
       (self (Demo.setitem (Single (SStr "label")) 7 (Demo.state_of Demo.create_ok)).1))
     = [(SlOne (RSlice None None None), 7)].
Proof. split; reflexivity. Qed.

(** [ds["group"] = 7] where only ["/group/a"] and ["/group/b"] are
    registered *)
Lemma setitem_unregistered_subpath_witness :
  Demo.setitem (Single (SStr "group")) 7 (Demo.state_of Demo.create_group)
  = (Demo.state_of Demo.create_group, inl (KeyError "/group")).
Proof.
  apply (setitem_unregistered_subpath (F := SpecFeatures) (T := MemTensors)
           (U := SpecUtils)
           (Single (SStr "group")) 7 (Demo.state_of Demo.create_group)
           (Some "/group") []).
  - reflexivity.
  - reflexivity.
  - reflexivity.
Defined.

(** [ds["group", 3]] on the grouped dataset: both views carry position 3. *)
Lemma get_dictionary_term_witness :
  Forall (fun v => tv_slice v = SlOne (RInt 3))
    (dict_views
       [("a", TView {| tv_subpath := "/group/a"; tv_slice := SlOne (RInt 3) |});
        ("b", TView {| tv_subpath := "/group/b"; tv_slice := SlOne (RInt 3) |})]).
Proof.
  apply (get_dictionary_term (F := SpecFeatures) (T := MemTensors)
           (Demo.dataset_of Demo.create_group) "/group" (RInt 3)).
  - discriminate.
  - vm_compute. reflexivity.
Defined.

(** The safe-mode reopening of [Demo.reopen_safe] is an Open in mode
    ["a"]. *)
Lemma open_keeps_requested_mode_witness :
  mode (Demo.dataset_of Demo.reopen_safe) = "a"
  /\ extends_with (opened_with "a")
       (log (FsExists "data/x/meta.json") Demo.create_ok.1) Demo.reopen_safe.1.
Proof.
  apply (open_keeps_requested_mode (F := SpecFeatures) (T := MemTensors)
           (R := PlainUrls) (Demo.args (Some "a") true None None)
           Demo.create_ok.1 (log (FsExists "data/x/meta.json") Demo.create_ok.1)
           Demo.reopen_safe.1 "data/x" "data/x" "a"
           (Demo.dataset_of Demo.reopen_safe)).
  - repeat split.
    exists (log (FsExists "data/x/meta.json") Demo.create_ok.1).
    split; reflexivity.
  - reflexivity.
Defined.

Lemma init_ok_rank_one_witness :
  length (shape_or_default (Some [Some 100])) = 1%nat.
Proof.
  apply (init_ok_rank_one (F := SpecFeatures) (T := MemTensors) (R := PlainUrls)
           (Demo.args (Some "w") false (Some [Some 100]) (Some Demo.schema_ok))
           Demo.empty Demo.create_ok.1 (Demo.dataset_of Demo.create_ok)).
  reflexivity.
Defined.

(** * Further properties of the code *)

(** ** The constructor *)

Section ConstructorMore.

Context {F : Features} {T : TensorStore} {R : UrlResolver}.

(** [safe_mode] has no influence on the constructor: with either value
    the call leaves the same world and returns the same dataset or raises
    the same error. *)
Lemma init_ignores_safe_mode (a : Args) (b : bool) (w : World) :
  __init__ (with_safe_mode b a) w = __init__ a w.
Proof.
  unfold __init__, resolve_path, with_safe_mode. cbn [a_shape a_mode a_fs a_url a_token
    a_fs_map a_safe_mode a_schema].
  destruct (negb _); [done|]. destruct (a_mode a) as [m|]; [|done].
  unfold mbind, M_bind.
  destruct (lift _ w) as [w0 [e|path]]; [done|].
  destruct (_check_and_prepare_dir path m w0) as [w1 [e|nc]]; [done|].
  destruct (choose_fs_map path (a_fs_map a) w1) as [w2 [e|fsm]]; [done|].
  destruct nc; [|done]. reflexivity.
Qed.

(** A constructor call that returns went through the directory check. *)
Lemma init_ok_resolves (a : Args) (w w' : World) (ds : Dataset) :
  __init__ a w = (w', inr ds) ->
  exists needcreate path fs_map mode_ w1,
    resolves_to a w needcreate path fs_map mode_ w1.
Proof.
  intros H.
  assert (Hlen : length (shape_or_default (a_shape a)) = 1%nat).
  { unfold __init__ in H.
    destruct (length (shape_or_default (a_shape a)) =? 1)%nat eqn:E;
      [by apply Nat.eqb_eq|discriminate]. }
  unfold __init__ in H. rewrite Hlen in H. cbn [Nat.eqb negb] in H.
  destruct (a_mode a) as [m|] eqn:Hm; [|discriminate].
  apply bind_ok_inv in H as (w0 & path & Hp & H).
  apply lift_ok_inv in Hp as [Hp ->].
  apply bind_ok_inv in H as (w1 & nc & Hprep & H).
  apply bind_ok_inv in H as (w2 & fsm & Hmap & H).
  exists nc, path, fsm, m, w2. repeat split; try done. by exists w1.
Qed.

Lemma open_body_ok_inv (a : Args) (path fs_map mode_ : string) (w w' : World)
    (ds : Dataset) :
  open_body a path fs_map mode_ w = (w', inr ds) ->
  exists shape_ sch flat tensors,
    _flatten sch = ok flat
    /\ _open_storage_tensors path fs_map mode_ shape_ flat []
         (log (MapGet fs_map "meta.json") w) = (w', inr tensors)
    /\ ds = {| url := a_url a; token := a_token a; mode := mode_; _path := path;
               _fs_map := fs_map; shape := shape_; schema := sch;
               _flat_tensors := flat; _tensors := tensors |}.
Proof.
  unfold open_body. intros H.
  apply bind_ok_inv in H as (w1 & c & Hget & H).
  assert (w1 = log (MapGet fs_map "meta.json") w) as ->.
  { unfold map_get in Hget. by injection Hget as <- _. }
  apply bind_ok_inv in H as (w2 & meta & H2 & H). apply lift_ok_inv in H2 as [_ ->].
  apply bind_ok_inv in H as (w2 & shj & H2 & H). apply lift_ok_inv in H2 as [_ ->].
  apply bind_ok_inv in H as (w2 & sh & H2 & H). apply lift_ok_inv in H2 as [_ ->].
  apply bind_ok_inv in H as (w2 & scj & H2 & H). apply lift_ok_inv in H2 as [_ ->].
  apply bind_ok_inv in H as (w2 & sch & H2 & H). apply lift_ok_inv in H2 as [_ ->].
  apply bind_ok_inv in H as (w2 & flat & H2 & H). apply lift_ok_inv in H2 as [Hflat ->].
  apply bind_ok_inv in H as (w3 & tensors & H3 & H).
  injection H as <- <-. by exists sh, sch, flat, tensors.
Qed.

Lemma existsb_eqb_elem (k : string) (l : list string) :
  existsb (String.eqb k) l = true <-> k ∈ l.
Proof.
  induction l as [|x l IH]; cbn [existsb].
  - split; [discriminate|]. by intros H%elem_of_nil.
  - rewrite orb_true_iff, IH, String.eqb_eq, elem_of_cons. done.
Qed.

Lemma keys_set_elem (k p : string) (l : list string) :
  p ∈ keys_set k l <-> p = k \/ p ∈ l.
Proof.
  unfold keys_set. destruct (existsb (String.eqb k) l) eqn:E.
  - apply existsb_eqb_elem in E. split; [by right|]. by intros [->|H].
  - rewrite elem_of_app, list_elem_of_singleton. tauto.
Qed.

Lemma keys_set_NoDup (k : string) (l : list string) : NoDup l -> NoDup (keys_set k l).
Proof.
  intros Hl. unfold keys_set. destruct (existsb (String.eqb k) l) eqn:E; [done|].
  apply NoDup_app. split; [done|]. split; [|apply NoDup_singleton].
  intros x Hx ->%list_elem_of_singleton.
  apply existsb_eqb_elem in Hx. congruence.
Qed.

Lemma registered_paths_elem (ts : list FlatTensor) :
  forall acc p, p ∈ registered_paths ts acc <-> p ∈ acc \/ p ∈ map ft_path ts.
Proof.
  induction ts as [|t ts IH]; intros acc p; cbn [registered_paths map].
  - split; [by left|]. intros [H|H]; [done|]. by apply elem_of_nil in H.
  - rewrite IH, keys_set_elem, elem_of_cons. tauto.
Qed.

Lemma registered_paths_NoDup (ts : list FlatTensor) :
  forall acc, NoDup acc -> NoDup (registered_paths ts acc).
Proof.
  induction ts as [|t ts IH]; intros acc Hacc; [done|].
  cbn [registered_paths]. by apply IH, keys_set_NoDup.
Qed.

(** The registry of a dataset the constructor returned holds exactly
    the paths of the flattened schema, each once: on Create and on Open. *)
Lemma registry_matches_flatten (a : Args) (w w' : World) (ds : Dataset) :
  __init__ a w = (w', inr ds) ->
  NoDup (dict_keys (_tensors ds))
  /\ forall p, p ∈ dict_keys (_tensors ds) <-> p ∈ map ft_path (_flat_tensors ds).
Proof.
  intros H.
  assert (Hkeys : dict_keys (_tensors ds) = registered_paths (_flat_tensors ds) []).
  { destruct (init_ok_resolves _ _ _ _ H) as (nc & path & fsm & m & w1 & Hres).
    rewrite (init_unfold _ _ _ _ _ _ _ Hres) in H. destruct nc.
    - apply try_rollback_ok_inv, create_body_ok_inv in H
        as (sch & ser & flat & tensors & _ & _ & _ & Hgen & ->).
      by apply generate_ok in Hgen as (_ & Hk & _).
    - apply open_body_ok_inv in H as (sh & sch & flat & tensors & _ & Hopen & ->).
      by apply open_tensors_ok in Hopen. }
  rewrite Hkeys. split.
  - apply registered_paths_NoDup, NoDup_nil_2.
  - intros p. rewrite registered_paths_elem. split; [|by right].
    intros [Hp|Hp]; [by apply elem_of_nil in Hp | done].
Qed.

Lemma tensor_new_args_app (l1 l2 : list Event) :
  tensor_new_args (l1 ++ l2) = (tensor_new_args l1 ++ tensor_new_args l2)%list.
Proof.
  induction l1 as [|ev l1 IH]; [done|]. cbn. destruct ev; cbn; by rewrite ?IH.
Qed.

Lemma quiet_no_tensor_new (evs : list Event) :
  forallb quiet evs = true -> tensor_new_args evs = [].
Proof.
  induction evs as [|ev evs IH]; [done|]. cbn.
  intros [Hq Hr]%andb_true_iff. destruct ev; try by apply IH.
  by apply quiet_not_tensor_new in Hq.
Qed.

Lemma generate_new_args (path fs_map mode_ : string) (shape_ : Shape)
    (ts : list FlatTensor) :
  forall acc w w' r,
  _generate_storage_tensors path fs_map mode_ shape_ ts acc w = (w', inr r) ->
  exists evs, w_log w' = (w_log w ++ evs)%list
    /\ tensor_new_args evs = map (create_args path fs_map mode_ shape_) ts.
Proof.
  induction ts as [|t rest IH]; intros acc w w' r H.
  - injection H as <- <-. exists []. by rewrite app_nil_r.
  - cbn [_generate_storage_tensors] in H.
    apply bind_ok_inv in H as (w1 & [] & Hmk & H).
    apply bind_ok_inv in H as (w2 & h & Hnew & H).
    apply fs_makedirs_ok_inv in Hmk as (fs1 & Hmk & ->).
    apply new_tensor_ok_inv in Hnew as [Hnew ->].
    apply IH in H as (evs & Hlog & Hargs). cbn [w_log] in Hlog.
    eexists (_ :: _ :: evs). rewrite Hlog, <- !app_assoc. split; [done|].
    cbn [tensor_new_args map]. by rewrite Hargs.
Qed.

Lemma open_new_args (path fs_map mode_ : string) (shape_ : Shape)
    (ts : list FlatTensor) :
  forall acc w w' r,
  _open_storage_tensors path fs_map mode_ shape_ ts acc w = (w', inr r) ->
  exists evs, w_log w' = (w_log w ++ evs)%list
    /\ tensor_new_args evs = map (open_args path fs_map mode_ shape_) ts.
Proof.
  induction ts as [|t rest IH]; intros acc w w' r H.
  - injection H as <- <-. exists []. by rewrite app_nil_r.
  - cbn [_open_storage_tensors] in H.
    apply bind_ok_inv in H as (w2 & h & Hnew & H).
    apply new_tensor_ok_inv in Hnew as [Hnew ->].
    apply IH in H as (evs & Hlog & Hargs). cbn [w_log] in Hlog.
    eexists (_ :: evs). rewrite Hlog, <- !app_assoc. split; [done|].
    cbn [tensor_new_args map]. by rewrite Hargs.
Qed.

(** A constructor call that returns constructed one field store per
    flattened descriptor, in flatten order and no other: each in the
    requested mode, under the dataset's storage map, with the sample
    shape put before the field's own shape; on Create also with the
    sample shape before the field's maximal shape, the field's dtype and
    its chunks. *)
Lemma stores_follow_flatten_order (a : Args) (w w1 w' : World) (needcreate : bool)
    (path fs_map mode_ : string) (ds : Dataset) :
  resolves_to a w needcreate path fs_map mode_ w1 ->
  __init__ a w = (w', inr ds) ->
  exists evs, w_log w' = (w_log w ++ evs)%list
    /\ tensor_new_args evs
       = map ((if needcreate then create_args else open_args)
                path fs_map mode_ (shape ds)) (_flat_tensors ds).
Proof.
  intros Hres H.
  pose proof (resolves_quietly _ _ _ _ _ _ _ Hres) as (evs0 & Hlog0 & Hq0).
  apply quiet_no_tensor_new in Hq0.
  rewrite (init_unfold _ _ _ _ _ _ _ Hres) in H. destruct needcreate.
  - apply try_rollback_ok_inv, create_body_ok_inv in H
      as (sch & ser & flat & tensors & _ & _ & _ & Hgen & ->).
    apply generate_new_args in Hgen as (evs & Hlog & Hargs).
    cbn [map_set fst w_log shape _flat_tensors] in *.
    exists (evs0 ++ MapSet fs_map "meta.json" :: evs)%list.
    rewrite Hlog, Hlog0, <- !app_assoc. split; [done|].
    rewrite tensor_new_args_app, Hq0. by cbn.
  - apply open_body_ok_inv in H as (sh & sch & flat & tensors & _ & Hopen & ->).
    apply open_new_args in Hopen as (evs & Hlog & Hargs).
    cbn [log w_log shape _flat_tensors] in *.
    exists (evs0 ++ MapGet fs_map "meta.json" :: evs)%list.
    rewrite Hlog, Hlog0, <- !app_assoc. split; [done|].
    rewrite tensor_new_args_app, Hq0. by cbn.
Qed.

(** When the directory check raises one of its own three exceptions,
    it has only looked: the calls it made are [exists] and [listdir],
    neither [rm] nor [makedirs], and the filesystem is as it was.  No
    metadata record exists at the path, and the exception tells the
    case: not found for a mode with ["r"]; otherwise the path exists and
    holds files, and the mode has ["w"] for the overwrite error and has
    not for the append error. *)
Lemma prepare_dir_error_touches_nothing (path mode_ : string) (w w' : World) (e : Exn) :
  _check_and_prepare_dir path mode_ w = (w', inl e) ->
  e = HubDatasetNotFoundException
  \/ e = NotHubDatasetToOverwriteException
  \/ e = NotHubDatasetToAppendException ->
  w_fs w' = w_fs w
  /\ (exists evs, w_log w' = (w_log w ++ evs)%list /\ forallb is_lookup evs = true)
  /\ Fs.exists_ (w_fs w) (PyStr.posixpath_join path "meta.json") = false
  /\ (e = HubDatasetNotFoundException <-> PyStr.contains "r" mode_ = true)
  /\ (e <> HubDatasetNotFoundException ->
      Fs.exists_ (w_fs w) path = true
      /\ (0 < length (Fs.listdir (w_fs w) path))%nat
      /\ (e = NotHubDatasetToOverwriteException <-> PyStr.contains "w" mode_ = true)).
Proof.
  unfold _check_and_prepare_dir, mbind, M_bind, mret, M_ret, fs_exists, fs_rm,
    fs_makedirs, get_file_count, raise, ok, fail.
  cbn [w_fs w_log log].
  destruct (Fs.exists_ (w_fs w) (PyStr.posixpath_join path "meta.json"));
    cbn [negb w_fs w_log log].
  - destruct (PyStr.contains "w" mode_); cbn [negb w_fs w_log log]; [|discriminate].
    destruct (Fs.makedirs (Fs.rm (w_fs w) path) path) as [e0|fs0] eqn:Emk;
      cbn [w_fs w_log log]; [|discriminate].
    unfold Fs.makedirs in Emk. destruct (Fs.exists_ _ path); [|discriminate].
    injection Emk as <-. intros [= _ <-] [H|[H|H]]; discriminate.
  - destruct (PyStr.contains "r" mode_) eqn:Er; cbn [negb w_fs w_log log].
    { intros [= <- <-] _. split; [done|].
      split; [by exists [FsExists (PyStr.posixpath_join path "meta.json")]|].
      split; [done|]. split; [done|]. done. }
    destruct (Fs.exists_ (w_fs w) path) eqn:Edir; cbn [negb w_fs w_log log].
    + destruct (0 <? length (Fs.listdir (w_fs w) path))%nat eqn:En;
        cbn [negb w_fs w_log log]; [|discriminate].
      apply Nat.ltb_lt in En.
      assert (Hlog : exists evs,
        (((w_log w ++ [FsExists (PyStr.posixpath_join path "meta.json")])
            ++ [FsExists path]) ++ [FsListdir path])%list = (w_log w ++ evs)%list
        /\ forallb is_lookup evs = true).
      { exists [FsExists (PyStr.posixpath_join path "meta.json"); FsExists path;
                FsListdir path]. by rewrite <- !app_assoc. }
      destruct (PyStr.contains "w" mode_) eqn:Ew; intros [= <- <-] _;
        (split; [done|]; split; [exact Hlog|]; split; [done|]; split;
         [split; discriminate|]; intros _; split; [done|]; split; [done|]).
      * done.
      * split; discriminate.
    + unfold Fs.makedirs. rewrite Edir. discriminate.
Qed.

(** With a mode that holds no ["w"], the directory check removes and
    rewrites nothing: every entry of the filesystem is still there with
    its content.  If the mode also holds ["r"], the filesystem is exactly
    as it was. *)
Lemma prepare_dir_without_write_keeps_entries (path mode_ : string) (w : World) :
  PyStr.contains "w" mode_ = false ->
  (forall k n, w_fs w !! k = Some n ->
               w_fs (_check_and_prepare_dir path mode_ w).1 !! k = Some n)
  /\ (PyStr.contains "r" mode_ = true ->
      w_fs (_check_and_prepare_dir path mode_ w).1 = w_fs w).
Proof.
  intros Hw.
  unfold _check_and_prepare_dir, mbind, M_bind, mret, M_ret, fs_exists, fs_rm,
    fs_makedirs, get_file_count, raise, ok, fail.
  cbn [w_fs w_log log]. rewrite Hw.
  destruct (Fs.exists_ (w_fs w) (PyStr.posixpath_join path "meta.json"));
    cbn [negb w_fs w_log log]; [done|].
  destruct (PyStr.contains "r" mode_); cbn [negb w_fs w_log log]; [done|].
  split; [|discriminate].
  destruct (Fs.exists_ (w_fs w) path) eqn:Edir; cbn [negb w_fs w_log log].
  - by destruct (0 <? length (Fs.listdir (w_fs w) path))%nat.
  - destruct (Fs.makedirs (w_fs w) path) as [e|fs'] eqn:Emk; [done|].
    intros k n Hk. by apply (makedirs_keeps _ _ _ _ _ Emk).
Qed.

Lemma prepare_dir_open_keeps_fs (path mode_ : string) (w w' : World) :
  _check_and_prepare_dir path mode_ w = (w', inr false) -> w_fs w' = w_fs w.
Proof.
  unfold _check_and_prepare_dir, mbind, M_bind, mret, M_ret, fs_exists, fs_rm,
    fs_makedirs, get_file_count, raise, ok, fail.
  cbn [w_fs w_log log].
  destruct (Fs.exists_ (w_fs w) (PyStr.posixpath_join path "meta.json"));
    cbn [negb w_fs w_log log].
  - destruct (PyStr.contains "w" mode_); cbn [negb w_fs w_log log].
    + rewrite makedirs_after_rm. discriminate.
    + by intros [= <-].
  - destruct (PyStr.contains "r" mode_); cbn [negb w_fs w_log log]; [discriminate|].
    destruct (Fs.exists_ (w_fs w) path) eqn:Edir; cbn [negb w_fs w_log log].
    + destruct (0 <? length (Fs.listdir (w_fs w) path))%nat; cbn [negb w_fs w_log log];
        [|discriminate].
      by destruct (PyStr.contains "w" mode_).
    + unfold Fs.makedirs. rewrite Edir. discriminate.
Qed.

(** An Open that raises before any field store is attached (no record
    under the storage map, a record that does not parse, a schema that
    does not deserialize or flatten) leaves the filesystem as it was;
    otherwise the error is the one attaching the field stores raised. *)
Lemma open_failure_keeps_storage (a : Args) (w w1 w' : World)
    (path fs_map mode_ : string) (e : Exn) :
  resolves_to a w false path fs_map mode_ w1 ->
  __init__ a w = (w', inl e) ->
  w_fs w' = w_fs w
  \/ exists shape_ flat w2,
       w_fs w2 = w_fs w
       /\ _open_storage_tensors path fs_map mode_ shape_ flat [] w2 = (w', inl e).
Proof.
  intros Hres H. rewrite (init_unfold _ _ _ _ _ _ _ Hres) in H.
  assert (Hfs : w_fs w1 = w_fs w).
  { destruct Hres as (_ & _ & _ & w0 & Hprep & Hmap).
    destruct (choose_fs_map_run path (a_fs_map a) w0) as (f & w1' & Hrun & Hf & _).
    rewrite Hmap in Hrun. injection Hrun as -> _. rewrite Hf.
    by apply (prepare_dir_open_keeps_fs _ _ _ _ Hprep). }
  unfold open_body, mbind, M_bind, map_get, lift in H. cbn [w_fs] in H.
  destruct (Fs.map_get (w_fs w1) fs_map "meta.json") as [|c];
    [injection H as <- _; by left|].
  destruct (json_loads c) as [|meta]; [injection H as <- _; by left|].
  destruct (json_getitem meta "shape") as [|shj]; [injection H as <- _; by left|].
  destruct (tuple_of_json shj) as [|sh]; [injection H as <- _; by left|].
  destruct (json_getitem meta "schema") as [|scj]; [injection H as <- _; by left|].
  destruct (deserialize scj) as [|sch]; [injection H as <- _; by left|].
  destruct (_flatten sch) as [|flat]; [injection H as <- _; by left|].
  destruct (_open_storage_tensors path fs_map mode_ sh flat [] _) as [w3 [e'|ts]] eqn:Eo;
    [|discriminate].
  injection H as <- <-. right. by exists sh, flat, (log (MapGet fs_map "meta.json") w1).
Qed.

End ConstructorMore.

(** ** Reading through [__getitem__] *)

Section IndexingMore.

Context {F : Features} {T : TensorStore} {U : DatasetUtils}.

(** A selector without subpath: no term at all raises [IndexError], one
    term gives the dataset view that [slice_extract_info] computes from
    the term and the sample count, and more than one term raises
    [ValueError] whatever the terms are. *)
Lemma getitem_without_subpath (ds : Dataset) (sel : Selector)
    (subpath : option string) (terms : list RangeTerm) :
  slice_split (as_list sel) = ok (subpath, terms) ->
  truthy_subpath subpath = None ->
  __getitem__ ds sel =
  match terms with
  | [] => fail IndexError
  | [t] =>
      match shape0 ds with
      | inl e => fail e
      | inr d =>
          match slice_extract_info t d with
          | inl e => fail e
          | inr (num, ofs) =>
              ok (IDatasetView {| dv_num_samples := num; dv_offset := ofs |})
          end
      end
  | _ :: _ :: _ =>
      fail (ValueError "Can't slice a dataset with multiple slices without subpath")
  end.
Proof.
  intros Hsplit Hsub. unfold __getitem__. rewrite Hsplit. cbn. rewrite Hsub.
  destruct terms as [|t [|t' terms]]; cbn; try done.
  all: destruct (shape0 ds) as [e|d]; cbn; [done|].
  all: by destruct (slice_extract_info t d) as [e|[num ofs]].
Qed.

(** The subpath of a registered field gives a view of that field: over
    [slice(0, shape[0])] when there is no term, and otherwise with exactly
    the given terms, all of them, once [slice_extract_info] has accepted
    the first one against the sample count; when it raises, its error is
    the result and no view is made. *)
Lemma getitem_registered_field (ds : Dataset) (sel : Selector)
    (subpath : option string) (terms : list RangeTerm) (sp : string) (d : Dim) :
  slice_split (as_list sel) = ok (subpath, terms) ->
  truthy_subpath subpath = Some sp ->
  dict_has sp (_tensors ds) = true ->
  shape0 ds = ok d ->
  __getitem__ ds sel =
  match terms with
  | [] => ok (ITensorView {| tv_subpath := sp;
                             tv_slice := SlOne (RSlice (Some 0) d None) |})
  | t :: _ =>
      match slice_extract_info t d with
      | inl e => fail e
      | inr _ => ok (ITensorView {| tv_subpath := sp; tv_slice := SlMany terms |})
      end
  end.
Proof.
  intros Hsplit Hsub Hreg Hd. unfold __getitem__. rewrite Hsplit.
  unfold mbind, Result_bind, ok, fail in *. cbv beta iota. rewrite Hsub.
  destruct terms as [|t terms]; rewrite ?Hreg, Hd; [done|].
  destruct (slice_extract_info t d) as [e|r]; [done|]. by rewrite ?Hreg.
Qed.

(** More than one term after a subpath that is no registered field is
    always an error, never a result: the first term's own error if
    [slice_extract_info] rejects it, and [ValueError] otherwise. *)
Lemma getitem_group_rejects_terms (ds : Dataset) (sel : Selector)
    (subpath : option string) (t t' : RangeTerm) (terms : list RangeTerm)
    (sp : string) (d : Dim) :
  slice_split (as_list sel) = ok (subpath, t :: t' :: terms) ->
  truthy_subpath subpath = Some sp ->
  dict_has sp (_tensors ds) = false ->
  shape0 ds = ok d ->
  __getitem__ ds sel =
  match slice_extract_info t d with
  | inl e => fail e
  | inr _ => fail (ValueError "You can't slice a dictionary of Tensors")
  end.
Proof.
  intros Hsplit Hsub Hreg Hd. unfold __getitem__. rewrite Hsplit.
  unfold mbind, Result_bind, ok, fail in *. cbv beta iota. rewrite Hsub, Hd.
  destruct (slice_extract_info t d) as [e|r]; [done|]. by rewrite ?Hreg.
Qed.

(** *** [_get_dictionary] *)

Lemma get_dictionary_loop_no_match (ds : Dataset) (subpath : string)
    (keys : list string) (st : list (string * Tree) * option RangeTerm) :
  Forall (fun k => PyStr.startswith subpath k = false) keys ->
  get_dictionary_loop ds subpath keys st = ok st.
Proof.
  induction 1 as [|k keys Hk _ IH]; [done|].
  cbn [get_dictionary_loop]. unfold get_dictionary_step at 1.
  destruct st as [d o]. rewrite Hk. cbn. exact IH.
Qed.

(** When no registered path starts with the subpath followed by a
    separator, [_get_dictionary] raises [KeyError], with or without a
    term; the message names the subpath with the separator added. *)
Lemma get_dictionary_no_match (ds : Dataset) (subpath : string)
    (slice_ : option RangeTerm) :
  Forall (fun k => PyStr.startswith
                     (if PyStr.endswith "/" subpath then subpath else subpath +:+ "/") k
                   = false)
         (dict_keys (_tensors ds)) ->
  _get_dictionary ds subpath slice_
  = fail (KeyError ("Key "
                    +:+ (if PyStr.endswith "/" subpath then subpath else subpath +:+ "/")
                    +:+ " was not found in dataset")).
Proof.
  intros H. unfold _get_dictionary.
  by rewrite (get_dictionary_loop_no_match _ _ _ _ H).
Qed.

Lemma get_dictionary_step_registered (ds : Dataset) (subpath key : string)
    (keys : list string) (d d' : list (string * Tree)) (o o' : option RangeTerm) :
  key ∈ keys ->
  get_dictionary_step ds subpath (d, o) key = ok (d', o') ->
  Forall (fun v => tv_subpath v ∈ keys /\ PyStr.startswith subpath (tv_subpath v) = true)
         (dict_views d) ->
  Forall (fun v => tv_subpath v ∈ keys /\ PyStr.startswith subpath (tv_subpath v) = true)
         (dict_views d').
Proof.
  intros Hkey Hstep Hd. unfold get_dictionary_step in Hstep.
  destruct (PyStr.startswith subpath key) eqn:Ep; [|by injection Hstep as <- _].
  set (sl := if truthy_term o then _ else _) in Hstep.
  destruct sl as [e|t] eqn:Esl.
  - destruct (dict_insert _ _ _ d) as [e'|d1]; discriminate.
  - change (t0 ← inr t; ok (TView {| tv_subpath := key; tv_slice := SlOne t0 |}))
      with (ok (TView {| tv_subpath := key; tv_slice := SlOne t |})) in Hstep.
    destruct (dict_insert _ _ _ d) as [e'|d1] eqn:Eins; [discriminate|].
    injection Hstep as <- _.
    apply Forall_forall. intros v' Hv'.
    destruct (dict_insert_views _ _ _ _ _ _ Eins Hv') as [->|Hin]; [done|].
    by apply (proj1 (Forall_forall _ _) Hd).
Qed.

Lemma get_dictionary_loop_registered (ds : Dataset) (subpath : string)
    (all keys : list string) :
  (forall k, k ∈ keys -> k ∈ all) ->
  forall st st',
  get_dictionary_loop ds subpath keys st = ok st' ->
  Forall (fun v => tv_subpath v ∈ all /\ PyStr.startswith subpath (tv_subpath v) = true)
         (dict_views st.1) ->
  Forall (fun v => tv_subpath v ∈ all /\ PyStr.startswith subpath (tv_subpath v) = true)
         (dict_views st'.1).
Proof.
  induction keys as [|key rest IH]; intros Hsub st st'; cbn [get_dictionary_loop].
  - by intros [= <-].
  - destruct st as [d o].
    destruct (get_dictionary_step ds subpath (d, o) key) as [e|[d1 o1]] eqn:E;
      [discriminate|].
    intros Hloop Hd. apply (IH (fun k Hk => Hsub k (list_elem_of_further _ _ _ Hk))
                               _ _ Hloop).
    apply (get_dictionary_step_registered _ _ _ all _ _ _ _ (Hsub key (list_elem_of_here _ _)) E Hd).
Qed.

(** A dictionary that [_get_dictionary] returns is not empty, and every
    view in it, at any depth, is the view of a registered field whose
    path starts with the subpath followed by a separator. *)
Lemma get_dictionary_views_registered (ds : Dataset) (subpath : string)
    (slice_ : option RangeTerm) (d : list (string * Tree)) :
  _get_dictionary ds subpath slice_ = ok d ->
  d <> []
  /\ Forall (fun v =>
       tv_subpath v ∈ dict_keys (_tensors ds)
       /\ PyStr.startswith
            (if PyStr.endswith "/" subpath then subpath else subpath +:+ "/")
            (tv_subpath v) = true)
     (dict_views d).
Proof.
  unfold _get_dictionary.
  destruct (get_dictionary_loop ds _ _ ([], slice_)) as [e|st] eqn:E; [discriminate|].
  cbn. destruct (length st.1 =? 0)%nat eqn:El; [discriminate|]. intros [= <-]. split.
  - intros Hnil. rewrite Hnil in El. discriminate.
  - apply (get_dictionary_loop_registered _ _ _ _ (fun k Hk => Hk) _ _ E). constructor.
Qed.

End IndexingMore.

(** ** [commit] and [__setitem__] on the object *)

Section MethodsMore.

Context {F : Features} {T : TensorStore} {U : DatasetUtils}.

Lemma assoc_elem {A} (k : string) (d : list (string * A)) :
  k ∈ dict_keys d -> exists v, assoc k d = Some v.
Proof.
  unfold dict_keys. induction d as [|[k' v'] d IH]; cbn [map fst assoc].
  - by intros H%elem_of_nil.
  - intros [->|H]%elem_of_cons.
    + rewrite String.eqb_refl. eauto.
    + destruct (String.eqb k k'); eauto.
Qed.

Lemma assoc_some_elem {A} (k : string) (v : A) (d : list (string * A)) :
  assoc k d = Some v -> k ∈ dict_keys d.
Proof.
  unfold dict_keys. induction d as [|[k' v'] d IH]; cbn [map fst assoc]; [done|].
  destruct (String.eqb k k') eqn:E.
  - apply String.eqb_eq in E. subst. intros _. by left.
  - intros H. right. by apply IH.
Qed.

Lemma set_tensor_keys (k : string) (h : Handle) (ds : Dataset) :
  k ∈ dict_keys (_tensors ds) ->
  dict_keys (_tensors (set_tensor k h ds)) = dict_keys (_tensors ds).
Proof.
  intros Hk. cbn [set_tensor _tensors]. rewrite dict_keys_set. unfold keys_set.
  by rewrite (proj2 (existsb_eqb_elem k _) Hk).
Qed.

Lemma same_definition_refl (ds : Dataset) : same_definition ds ds.
Proof. by repeat split. Qed.

Lemma same_definition_trans (ds1 ds2 ds3 : Dataset) :
  same_definition ds1 ds2 -> same_definition ds2 ds3 -> same_definition ds1 ds3.
Proof. unfold same_definition. intros H1 H2. intuition congruence. Qed.

(** A call on one handle keeps the definition of the dataset. *)
Lemma on_tensor_same_definition (k : string) (ev : Event)
    (op : Handle -> FS -> FS * Result Handle) (st : St) :
  same_definition (self st) (self (on_tensor k ev op st).1).
Proof.
  unfold on_tensor. destruct (assoc k (_tensors (self st))) as [h|] eqn:E;
    [|apply same_definition_refl].
  destruct (op h (w_fs (world st))) as [fs' [e|h']]; cbn [fst self];
    [apply same_definition_refl|].
  repeat split. apply set_tensor_keys. by apply (assoc_some_elem _ h).
Qed.

Lemma commit_each_same_definition (keys : list string) :
  forall st : St, same_definition (self st) (self (commit_each keys st).1).
Proof.
  induction keys as [|k keys IH]; intros st; [apply same_definition_refl|].
  cbn [commit_each]. unfold mbind, M_bind.
  pose proof (on_tensor_same_definition k (TensorCommit k) tensor_commit st) as H1.
  destruct (on_tensor k (TensorCommit k) tensor_commit st) as [st1 [e|[]]]; [done|].
  eapply same_definition_trans; [exact H1 | apply IH].
Qed.

(** [commit()] and [__setitem__], whether they return or raise, keep
    the definition of the dataset: url, mode, sample shape, schema,
    flattened descriptors and the registered field paths in their order.
    Only handles change. *)
Lemma methods_keep_definition (st : St) (sel : Selector) (value : Value) :
  same_definition (self st) (self (commit st).1)
  /\ same_definition (self st) (self (__setitem__ sel value st).1).
Proof.
  split.
  - unfold commit. apply (commit_each_same_definition _
      {| world := log DatasetCommit (world st); self := self st |}).
  - unfold __setitem__, mbind, M_bind, lift.
    destruct (slice_split (as_list sel)) as [e|[subpath terms]];
      [apply same_definition_refl|].
    destruct (truthy_subpath subpath) as [sp|]; [|apply same_definition_refl].
    destruct terms; apply on_tensor_same_definition.
Qed.

(** The trace and the outcome of committing the fields [keys], all of
    them registered: either every field is committed, in order, or the
    commits stop at the first field whose commit raises.  Then the
    fields before it were committed and left the state [st1]; the error
    is what the handle registered at that field in [st1] answers on the
    filesystem of [st1]; the filesystem left is the one that commit
    left, the registry is that of [st1], and no later field is
    committed. *)
Lemma commit_each_trace (keys : list string) :
  forall st : St,
  (forall k, k ∈ keys -> k ∈ dict_keys (_tensors (self st))) ->
  match commit_each keys st with
  | (st', inr _) =>
      w_log (world st') = (w_log (world st) ++ map TensorCommit keys)%list
  | (st', inl e) =>
      exists pre k post st1 h,
        keys = (pre ++ k :: post)%list
        /\ commit_each pre st = (st1, inr tt)
        /\ assoc k (_tensors (self st1)) = Some h
        /\ tensor_commit h (w_fs (world st1)) = (w_fs (world st'), inl e)
        /\ self st' = self st1
        /\ w_log (world st')
           = (w_log (world st) ++ map TensorCommit (pre ++ [k]))%list
  end.
Proof.
  induction keys as [|k keys IH]; intros st Hreg.
  - cbn. by rewrite app_nil_r.
  - cbn [commit_each]. unfold mbind, M_bind.
    destruct (assoc_elem k _ (Hreg k (list_elem_of_here _ _))) as [h Hh].
    pose proof (on_tensor_same_definition k (TensorCommit k) tensor_commit st) as Hsame.
    destruct (on_tensor k (TensorCommit k) tensor_commit st) as [st1 r1] eqn:Eon.
    unfold on_tensor in Eon. rewrite Hh in Eon.
    destruct (tensor_commit h (w_fs (world st))) as [fs' [e|h']] eqn:Ec;
      injection Eon as <- <-; cbn [fst] in *.
    + exists [], k, keys, st, h. by repeat split.
    + set (st1 := {| world := _; self := set_tensor k h' (self st) |}) in *.
      assert (Hreg1 : forall k0, k0 ∈ keys -> k0 ∈ dict_keys (_tensors (self st1))).
      { intros k0 Hk0. destruct Hsame as (_ & _ & _ & _ & _ & _ & _ & _ & ->).
        apply Hreg. by right. }
      specialize (IH st1 Hreg1).
      destruct (commit_each keys st1) as [st' [e|[]]].
      * destruct IH as (pre & k1 & post & st2 & h1 & -> & Hpre & Hh1 & Hc & Hself & Hlog).
        exists (k :: pre), k1, post, st2, h1. split; [done|].
        split.
        { cbn [commit_each]. unfold mbind, M_bind, on_tensor. rewrite Hh, Ec.
          exact Hpre. }
        split; [done|]. split; [done|]. split; [done|].
        etransitivity; [exact Hlog|].
        subst st1. cbn [world w_log]. by rewrite <- app_assoc.
      * etransitivity; [exact IH|].
        subst st1. cbn [world w_log map]. by rewrite <- app_assoc.
Qed.

(** [commit()] commits the registered fields in registry order.  When
    it returns, every field was committed exactly once, in that order.
    When it raises, the fields before the failing one were committed, in
    order, leaving the state [st1]; the error is the answer of the
    handle registered at the failing field in [st1] to [commit()] on the
    filesystem of [st1]; the call leaves the filesystem of that failed
    commit and the registry of [st1]; the fields after it were not
    committed. *)
Lemma commit_in_registry_order (st : St) :
  match commit st with
  | (st', inr _) =>
      w_log (world st')
      = (w_log (world st)
         ++ DatasetCommit :: map TensorCommit (dict_keys (_tensors (self st))))%list
  | (st', inl e) =>
      exists pre k post st1 h,
        dict_keys (_tensors (self st)) = (pre ++ k :: post)%list
        /\ commit_each pre {| world := log DatasetCommit (world st); self := self st |}
           = (st1, inr tt)
        /\ assoc k (_tensors (self st1)) = Some h
        /\ tensor_commit h (w_fs (world st1)) = (w_fs (world st'), inl e)
        /\ self st' = self st1
        /\ w_log (world st')
           = (w_log (world st) ++ DatasetCommit :: map TensorCommit (pre ++ [k]))%list
  end.
Proof.
  unfold commit.
  pose proof (commit_each_trace (dict_keys (_tensors (self st)))
                {| world := log DatasetCommit (world st); self := self st |}
                (fun k Hk => Hk)) as H.
  destruct (commit_each _ _) as [st' [e|[]]]; cbn [world log w_log] in H.
  - destruct H as (pre & k & post & st1 & h & Hk & Hpre & Hh & Hc & Hself & Hlog).
    exists pre, k, post, st1, h. repeat (split; [done|]).
    etransitivity; [exact Hlog|]. by rewrite <- app_assoc.
  - etransitivity; [exact H|]. by rewrite <- app_assoc.
Qed.

End MethodsMore.

(** ** Per-sample records *)

Lemma assoc_map {A B} (f : A -> B) (k : string) (d : list (string * A)) :
  assoc k (map (fun '(k', x) => (k', f x)) d) = f <$> assoc k d.
Proof.
  induction d as [|[k' x] d IH]; [done|]. cbn [map assoc].
  by destruct (String.eqb k k').
Qed.

Lemma dict_set_map {A B} (f : A -> B) (k : string) (v : A) (d : list (string * A)) :
  map (fun '(k', x) => (k', f x)) (dict_set k v d)
  = dict_set k (f v) (map (fun '(k', x) => (k', f x)) d).
Proof.
  induction d as [|[k' x] d IH]; [done|]. cbn [map dict_set].
  destruct (String.eqb k k'); [done|]. cbn [map]. by rewrite IH.
Qed.

(** The walk commutes with a function on the leaves. *)
Lemma nested_insert_map {A B} (g : A -> B) (last : string) (mk : Result A)
    (segs : list string) :
  forall d,
  nested_insert segs last (result_map g mk) (record_map g d)
  = result_map (record_map g) (nested_insert segs last mk d).
Proof.
  unfold record_map.
  induction segs as [|s segs IH]; intros d; cbn [nested_insert].
  - destruct mk as [e|a]; [done|]. cbn. by rewrite dict_set_map.
  - rewrite (assoc_map (nested_map g)).
    destruct (assoc s d) as [[a|cur]|]; cbn [fmap option_fmap option_map nested_map].
    + destruct segs; [|done]. by destruct mk.
    + rewrite IH. destruct (nested_insert segs last mk cur) as [e|sub]; [done|].
      cbn. by rewrite dict_set_map.
    + specialize (IH []). cbn [map] in IH. rewrite IH.
      destruct (nested_insert segs last mk []) as [e|sub]; [done|].
      cbn. by rewrite dict_set_map.
Qed.

(** A walk that returns has computed its value. *)
Lemma nested_insert_ok_value {A} (last : string) (mk : Result A) (segs : list string) :
  forall d d', nested_insert segs last mk d = ok d' -> exists a, mk = ok a.
Proof.
  induction segs as [|s segs IH]; intros d d'; cbn [nested_insert].
  - destruct mk as [e|a]; [discriminate|]. eauto.
  - destruct (assoc s d) as [[a|cur]|].
    + destruct segs; [|discriminate]. by destruct mk.
    + destruct (nested_insert segs last mk cur) as [e|sub] eqn:E; [discriminate|].
      intros _. by apply (IH _ _ E).
    + destruct (nested_insert segs last mk []) as [e|sub] eqn:E; [discriminate|].
      intros _. by apply (IH _ _ E).
Qed.

Lemma build_record_map {A B} (g : A -> B) (leaf : string -> Result A)
    (leaf' : string -> Result B) (keys : list string) :
  (forall key, leaf' key = result_map g (leaf key)) ->
  forall d,
  build_record leaf' keys (record_map g d)
  = result_map (record_map g) (build_record leaf keys d).
Proof.
  intros Hleaf. induction keys as [|key rest IH]; intros d; [done|].
  cbn [build_record]. unfold record_step. rewrite Hleaf, nested_insert_map.
  destruct (nested_insert _ _ (leaf key) d) as [e|d1]; [done|]. cbn. apply IH.
Qed.

Section AdaptersMore.

Context {F : Features} {T : TensorStore} {U : DatasetUtils} {RD : TensorRead}.

(** When [torch.tensor] is a function [g] that never raises,
    [TorchDataset.__getitem__] gives at every index what
    [to_tensorflow]'s generator builds for that index, with [g] applied
    to each leaf: the same keys, the same nesting, the same error when
    the record cannot be built. *)
Lemma torch_getitem_is_tf_record (g : Sample -> TorchTensor) (ds : Dataset) (fs : FS)
    (index : Z) :
  (forall s, torch_tensor s = ok (g s)) ->
  torch_getitem ds fs index = result_map (record_map g) (tf_record ds fs index).
Proof.
  intros Hg. unfold torch_getitem, tf_record.
  apply (build_record_map g (sample_at ds fs index) _ _ ) with (d := []).
  intros key. destruct (sample_at ds fs index key) as [e|s]; [done|]. cbn. apply Hg.
Qed.

(** The default sample shape [(None,)] has no length: [len(ds)] raises
    [TypeError], and so do iteration over the dataset and
    [to_tensorflow]'s generator, before anything is yielded. *)
Lemma unbounded_shape_has_no_length (ds : Dataset) (fs : FS) :
  shape0 ds = ok None ->
  py_len ds = fail TypeError
  /\ __iter__ ds = ([], Some TypeError)
  /\ tf_gen ds fs = ([], Some TypeError).
Proof.
  intros H. unfold __iter__, tf_gen, py_len, __len__. rewrite H. by cbn.
Qed.

Lemma yield_each_all {A} (f : Z -> Result A) (g : Z -> A) (indices : list Z) :
  (forall i, i ∈ indices -> f i = ok (g i)) ->
  yield_each f indices = (map g indices, None).
Proof.
  induction indices as [|i rest IH]; intros H; [done|]. cbn [yield_each map].
  rewrite (H i (list_elem_of_here _ _)), IH; [done|].
  intros j Hj. apply H. by right.
Qed.

Lemma py_range_elem (n i : Z) (indices : list Z) :
  py_range (Some n) = ok indices -> i ∈ indices <-> 0 <= i < n.
Proof.
  intros [= <-]. rewrite list_elem_of_fmap. split.
  - intros (k & -> & Hk). apply elem_of_seq in Hk. lia.
  - intros Hi. exists (Z.to_nat i). split; [lia|]. apply elem_of_seq. lia.
Qed.

(** Over a dataset of [n] samples, [n] no more than [sys.maxsize], when
    [slice_split] passes a lone position through as the only term and
    [slice_extract_info] resolves every position below [n], iteration
    yields exactly [n] dataset views, the one for position [i] at place
    [i], and ends without error. *)
Lemma iter_yields_every_sample (ds : Dataset) (n : Z) (rest : Shape)
    (view : Z -> Dim * Z) :
  shape ds = Some n :: rest ->
  0 <= n <= sys_maxsize ->
  (forall i, slice_split [SRange (RInt i)] = ok (None, [RInt i])) ->
  (forall i, 0 <= i < n -> slice_extract_info (RInt i) (Some n) = ok (view i)) ->
  __iter__ ds
  = (map (fun i => IDatasetView {| dv_num_samples := (view i).1;
                                   dv_offset := (view i).2 |})
         (map Z.of_nat (seq 0 (Z.to_nat n))), None).
Proof.
  intros Hshape Hn Hsplit Hinfo.
  unfold __iter__, py_len, __len__, shape0. rewrite Hshape. cbn [mbind Result_bind ok].
  destruct (n <? 0) eqn:E; [lia|].
  destruct (sys_maxsize <? n) eqn:E'; [lia|]. cbn [py_range ok].
  apply yield_each_all. intros i Hi.
  apply (py_range_elem n i _ eq_refl) in Hi.
  unfold __getitem__. cbn [as_list]. rewrite (Hsplit i). cbn.
  unfold shape0. rewrite Hshape. cbn.
  rewrite (Hinfo i Hi). cbn. by destruct (view i).
Qed.

Lemma dict_insert_to_record (last : string) (v : TensorView) (segs : list string) :
  forall d d',
  dict_insert segs last (ok (TView v)) d = ok d' ->
  nested_insert segs last (ok v) (dict_to_record d) = ok (dict_to_record d').
Proof.
  unfold dict_to_record.
  induction segs as [|s segs IH]; intros d d'; cbn [dict_insert nested_insert].
  - intros [= <-]. cbn. by rewrite dict_set_map.
  - rewrite (assoc_map tree_to_nested).
    destruct (assoc s d) as [[leaf|cur]|]; cbn [fmap option_fmap option_map tree_to_nested].
    + discriminate.
    + destruct (dict_insert segs last (ok (TView v)) cur) as [e|sub] eqn:E;
        [discriminate|].
      intros [= <-]. rewrite (IH _ _ E). cbn. by rewrite dict_set_map.
    + destruct (dict_insert segs last (ok (TView v)) []) as [e|sub] eqn:E;
        [discriminate|].
      intros [= <-]. specialize (IH _ _ E). cbn [map] in IH. rewrite IH. cbn.
      by rewrite dict_set_map.
Qed.

(** A walk that returns changes the skeleton in one way, whatever the
    value it stores. *)
Lemma nested_insert_skeleton {A} (last : string) (mk : Result A) (segs : list string)
    (d d' : list (string * Nested A)) :
  nested_insert segs last mk d = ok d' ->
  nested_insert segs last (ok tt) (skeleton d) = ok (skeleton d').
Proof.
  intros H. destruct (nested_insert_ok_value _ _ _ _ _ H) as [a ->].
  unfold skeleton.
  change (ok tt) with (result_map (fun _ : A => tt) (ok a)).
  by rewrite nested_insert_map, H.
Qed.

Lemma split_not_nil (sep : ascii) (s : string) : PyStr.split sep s <> [].
Proof.
  destruct s as [|c s]; cbn [PyStr.split]; [done|].
  destruct (Ascii.eqb c sep); [done|]. by destruct (PyStr.split sep s).
Qed.

Lemma startswith_slash_inv (key : string) :
  PyStr.startswith "/" key = true -> exists rest, key = String "/" rest.
Proof.
  unfold PyStr.startswith. intros H. apply String.prefix_correct in H.
  destruct key as [|c rest]; cbn in H; [discriminate|].
  injection H as -> _. eauto.
Qed.

Lemma get_dictionary_step_root (ds : Dataset) (rest : string)
    (d d' : list (string * Tree)) (o o' : option RangeTerm) :
  get_dictionary_step ds "/" (d, o) (String "/" rest) = ok (d', o') ->
  exists v,
    dict_insert (removelast (PyStr.split "/" rest)) (List.last (PyStr.split "/" rest) "")
      (ok (TView v)) d = ok d'.
Proof.
  unfold get_dictionary_step.
  replace (PyStr.startswith "/" (String "/" rest)) with true
    by (symmetry; apply (prefix_append "/" rest)).
  change (PyStr.drop (String.length "/") (String "/" rest)) with rest.
  cbv beta iota zeta.
  set (sl := if truthy_term o then _ else _).
  destruct sl as [e|t].
  - destruct (dict_insert _ _ _ d); discriminate.
  - change (t0 ← inr t; ok (TView {| tv_subpath := String "/" rest; tv_slice := SlOne t0 |}))
      with (ok (TView {| tv_subpath := String "/" rest; tv_slice := SlOne t |})).
    destruct (dict_insert _ _ _ d) as [e'|d1] eqn:E; [discriminate|].
    intros [= <- _]. eauto.
Qed.

Lemma record_step_root {A} (leaf : string -> Result A) (rest : string)
    (r : list (string * Nested A)) :
  record_step leaf r (String "/" rest)
  = nested_insert (removelast (PyStr.split "/" rest)) (List.last (PyStr.split "/" rest) "")
      (leaf (String "/" rest)) r.
Proof.
  unfold record_step.
  change (PyStr.split "/" (String "/" rest)) with ("" :: PyStr.split "/" rest).
  cbn [tail]. f_equal.
  pose proof (split_not_nil "/" rest). by destruct (PyStr.split "/" rest).
Qed.

Lemma root_dictionary_skeleton {A} (ds : Dataset) (leaf : string -> Result A)
    (keys : list string) :
  Forall (fun k => PyStr.startswith "/" k = true) keys ->
  forall d o st r r',
  get_dictionary_loop ds "/" keys (d, o) = ok st ->
  build_record leaf keys r = ok r' ->
  skeleton (dict_to_record d) = skeleton r ->
  skeleton (dict_to_record st.1) = skeleton r'.
Proof.
  induction 1 as [|key keys Hkey _ IH]; intros d o st r r';
    cbn [get_dictionary_loop build_record].
  - by intros [= <-] [= <-].
  - destruct (startswith_slash_inv _ Hkey) as [rest ->].
    destruct (get_dictionary_step ds "/" (d, o) (String "/" rest)) as [e|[d1 o1]] eqn:Es;
      [discriminate|].
    destruct (record_step leaf r (String "/" rest)) as [e|r1] eqn:Er; [discriminate|].
    cbn. intros Hloop Hbuild Hskel. apply (IH d1 o1 st r1 r' Hloop Hbuild).
    apply get_dictionary_step_root in Es as [v Hins].
    apply dict_insert_to_record, nested_insert_skeleton in Hins.
    rewrite record_step_root in Er. apply nested_insert_skeleton in Er.
    rewrite Hskel in Hins. rewrite Hins in Er. by injection Er.
Qed.

(** When every registered path starts with a separator, the record
    [to_tensorflow]'s generator builds for a sample and the dictionary of
    views [ds["/"]] resolves to have the same keys and the same nesting,
    at every index and with or without a range term. *)
Lemma tf_record_nesting_is_root_dictionary (ds : Dataset) (fs : FS) (index : Z)
    (slice_ : option RangeTerm) (d : list (string * Tree))
    (r : list (string * Nested Sample)) :
  Forall (fun k => PyStr.startswith "/" k = true) (dict_keys (_tensors ds)) ->
  _get_dictionary ds "/" slice_ = ok d ->
  tf_record ds fs index = ok r ->
  skeleton r = skeleton (dict_to_record d).
Proof.
  intros Hkeys Hd Hr. unfold _get_dictionary in Hd.
  change (if PyStr.endswith "/" "/" then "/" else "/" +:+ "/") with "/" in Hd.
  destruct (get_dictionary_loop ds "/" _ ([], slice_)) as [e|st] eqn:E; [discriminate|].
  cbn in Hd. destruct (length st.1 =? 0)%nat; [discriminate|]. injection Hd as <-.
  symmetry. by apply (root_dictionary_skeleton ds _ _ Hkeys [] slice_ st [] r E Hr).
Qed.

End AdaptersMore.

(** ** [Model.load] and [Model.store] *)

Lemma drop_append (a b : string) : PyStr.drop (String.length a) (a +:+ b) = b.
Proof. induction a as [|c a IH]; [by destruct b|exact IH]. Qed.

Lemma endswith_append (a suf : string) : PyStr.endswith suf (a +:+ suf) = true.
Proof.
  unfold PyStr.endswith. rewrite append_length.
  replace (String.length a + String.length suf - String.length suf)%nat
    with (String.length a) by lia.
  rewrite drop_append, String.eqb_refl, andb_true_r.
  apply Nat.leb_le. lia.
Qed.

Lemma posixpath_join_endswith (a b suf : string) :
  PyStr.endswith suf (PyStr.posixpath_join a (b +:+ suf)) = true.
Proof.
  unfold PyStr.posixpath_join.
  destruct (PyStr.startswith "/" (b +:+ suf)); [apply endswith_append|].
  destruct (String.eqb a "" || PyStr.endswith "/" a).
  - rewrite <- append_assoc. apply endswith_append.
  - rewrite <- !append_assoc. apply endswith_append.
Qed.

Lemma open_wb_ok (fs fs1 : FS) (p : string) :
  Training.open_wb fs p = inr fs1 -> fs1 = <[p := File (Raw [])]> fs.
Proof.
  unfold Training.open_wb. intros H.
  destruct (fs !! p) as [[|c]|]; [discriminate| |];
    (destruct (fs !! Training.dirname p) as [[|c']|];
     [by injection H|discriminate|];
     destruct (String.eqb (Training.dirname p) "" || String.eqb (Training.dirname p) "/");
     [by injection H|discriminate]).
Qed.

Section ModelMore.

Import Training.

Context {R : UrlResolver} {L : ModelLibs}.

(** A [store] that returns has written one file, named after the class
    of the model inside the resolved directory: the saved state
    dictionary under [.pth], or the saved Keras model under [.h5].
    Every other path is as before. *)
Lemma store_writes_one_file (env : PyEnv) (m : Model) (model_dir : string)
    (token : option string) (fs fs' : FS) :
  store env m model_dir token fs = (fs', inr tt) ->
  exists url o,
    resolve env model_dir token = inr url /\ _model m = Some o /\
    ((exists sd c, state_dict o = inr sd /\ torch_save sd = inr c /\
                   fs' = <[target url o ".pth" := File c]> fs)
     \/ (exists c, keras_save o = inr c /\
                   fs' = <[target url o ".h5" := File c]> fs)).
Proof.
  unfold store. intros H.
  destruct (resolve env model_dir token) as [e|url]; [discriminate|].
  destruct (_model m) as [o|]; [|discriminate].
  exists url, o. split; [done|]. split; [done|].
  destruct ((torch_spec env && is_torch_module o)
            || (pytorch_lightning_spec env && is_lightning_module o)).
  - left. cbv zeta in H.
    destruct (open_wb fs (target url o ".pth")) as [e|fs1] eqn:Eopen; [discriminate|].
    destruct (negb (torch_spec env)); [discriminate|].
    destruct (state_dict o) as [e|sd]; [discriminate|].
    destruct (torch_save sd) as [[written e]|c] eqn:Hsave; [discriminate|].
    exists sd, c. split; [done|]. split; [done|].
    injection H as <-. apply open_wb_ok in Eopen as ->.
    unfold write. by rewrite insert_insert_eq.
  - right. destruct (tensorflow_spec env && is_keras_model o); [|discriminate].
    cbv zeta in H. destruct (keras_save o) as [e|c]; [discriminate|].
    destruct (open_wb fs (target url o ".h5")) as [e|fs1] eqn:Eopen; [discriminate|].
    exists c. split; [done|].
    injection H as <-. apply open_wb_ok in Eopen as ->.
    unfold write. by rewrite insert_insert_eq.
Qed.

(** A [store] that raises leaves every file as it was, with one
    exception: when the model is a PyTorch or Lightning module the file
    is opened for writing before anything is saved.  If the failure
    comes after the file was opened, the target holds no longer what was
    stored there: it is empty when [torch] is missing or [state_dict()]
    raised, and holds what the save had written when [torch.save]
    raised.  Every other path is as before. *)
Lemma failed_store_effect (env : PyEnv) (m : Model) (model_dir : string)
    (token : option string) (fs fs' : FS) (e : ModelExn) :
  store env m model_dir token fs = (fs', inl e) ->
  fs' = fs
  \/ exists url o written,
       resolve env model_dir token = inr url /\ _model m = Some o /\
       (torch_spec env && is_torch_module o)
       || (pytorch_lightning_spec env && is_lightning_module o) = true /\
       fs' = <[target url o ".pth" := File written]> fs /\
       (written = Raw []
        \/ exists sd e', state_dict o = inr sd
                         /\ torch_save sd = inl (written, e') /\ e = Std e').
Proof.
  unfold store. intros H.
  destruct (resolve env model_dir token) as [e0|url]; [left; congruence|].
  destruct (_model m) as [o|]; [|left; congruence].
  destruct ((torch_spec env && is_torch_module o)
            || (pytorch_lightning_spec env && is_lightning_module o)) eqn:Hc.
  - cbv zeta in H.
    destruct (open_wb fs (target url o ".pth")) as [e0|fs1] eqn:Eopen;
      [left; congruence|].
    apply open_wb_ok in Eopen as ->. right. exists url, o.
    destruct (negb (torch_spec env)).
    { exists (Raw []). injection H as <- _. repeat (split; [done|]). by left. }
    destruct (state_dict o) as [e1|sd] eqn:Hsd.
    { exists (Raw []). injection H as <- _. repeat (split; [done|]). by left. }
    destruct (torch_save sd) as [[written e1]|c] eqn:Hsave; [|discriminate].
    exists written. injection H as <- <-. split; [done|]. split; [done|].
    split; [done|]. split; [unfold write; by rewrite insert_insert_eq|].
    right. by exists sd, e1.
  - left. destruct (tensorflow_spec env && is_keras_model o); [|congruence].
    cbv zeta in H. destruct (keras_save o) as [e1|c]; [congruence|].
    destruct (open_wb fs (target url o ".h5")) as [e1|fs1]; [congruence|discriminate].
Qed.

(** When [store] returns for a PyTorch module, what [load] reads back
    from the file it wrote is what [torch.load] makes of the saved state
    dictionary: when saving and loading are inverse on it, the loaded
    [_model] is the state dictionary of the stored module, not the
    module. *)
Lemma load_after_torch_store (env : PyEnv) (m m0 : Model) (model_dir url url' : string)
    (token token' : option string) (fs fs' : FS) (o sd loaded : Obj) (c : Content) :
  store env m model_dir token fs = (fs', inr tt) ->
  resolve env model_dir token = inr url ->
  _model m = Some o ->
  torch_spec env = true ->
  is_torch_module o = true ->
  state_dict o = inr sd ->
  torch_save sd = inr c ->
  torch_load c = inr loaded ->
  torch_in_sys_modules env = true ->
  resolve env (target url o ".pth") token' = inr url' ->
  load env m0 (target url o ".pth") token' fs'
  = inr {| _metainfo := _metainfo m0; _model := Some loaded |}.
Proof.
  intros Hstore Hres Hm Hspec Hcls Hsd Hsave Hload Hsys Hres'.
  unfold store in Hstore. rewrite Hres, Hm, Hspec, Hcls in Hstore.
  cbn [andb orb negb] in Hstore. cbv zeta in Hstore.
  destruct (open_wb fs (target url o ".pth")) as [e|fs1]; [discriminate|].
  rewrite Hsd, Hsave in Hstore. injection Hstore as <-.
  unfold load. rewrite Hres'.
  unfold target at 1. rewrite posixpath_join_endswith. cbn [orb].
  rewrite Hsys, Hspec. cbn [negb].
  unfold open_rb, write. rewrite lookup_insert_eq.
  by rewrite Hload.
Qed.

(** The same for a Keras model: when [store] returns, the file it wrote
    ends in [.h5], and [load] gives what [load_model] makes of the saved
    model. *)
Lemma load_after_keras_store (env : PyEnv) (m m0 : Model) (model_dir url url' : string)
    (token token' : option string) (fs fs' : FS) (o loaded : Obj) (c : Content) :
  store env m model_dir token fs = (fs', inr tt) ->
  resolve env model_dir token = inr url ->
  _model m = Some o ->
  (torch_spec env && is_torch_module o)
  || (pytorch_lightning_spec env && is_lightning_module o) = false ->
  tensorflow_spec env = true ->
  is_keras_model o = true ->
  keras_save o = inr c ->
  keras_load c = inr loaded ->
  tensorflow_in_sys_modules env = true ->
  PyStr.endswith ".pth" (target url o ".h5") = false ->
  PyStr.endswith ".pt" (target url o ".h5") = false ->
  resolve env (target url o ".h5") token' = inr url' ->
  load env m0 (target url o ".h5") token' fs'
  = inr {| _metainfo := _metainfo m0; _model := Some loaded |}.
Proof.
  intros Hstore Hres Hm Hnt Hspec Hcls Hsave Hload Hsys Hp1 Hp2 Hres'.
  unfold store in Hstore. rewrite Hres, Hm, Hnt, Hspec, Hcls in Hstore.
  cbn [andb] in Hstore. cbv zeta in Hstore. rewrite Hsave in Hstore.
  destruct (open_wb fs (target url o ".h5")) as [e|fs1]; [discriminate|].
  injection Hstore as <-.
  unfold load. rewrite Hres', Hp1, Hp2. cbn [orb].
  unfold target at 1. rewrite posixpath_join_endswith.
  rewrite Hsys, Hspec. cbn [negb].
  unfold open_rb, write. rewrite lookup_insert_eq.
  by rewrite Hload.
Qed.

(** [load] opens [model_path] itself and nothing else: two filesystems
    that agree at that path give the same result, whatever else they
    hold. *)
Lemma load_reads_only_model_path (env : PyEnv) (m : Model) (model_path : string)
    (token : option string) (fs1 fs2 : FS) :
  fs1 !! model_path = fs2 !! model_path ->
  load env m model_path token fs1 = load env m model_path token fs2.
Proof. intros H. unfold load, open_rb. by rewrite H. Qed.

(** A [load] that returns has kept the metadata, was given a path that
    ends in [.pth], [.pt] or [.h5], found a file there, and holds what
    the library of that extension made of its content. *)
Lemma load_ok_inv (env : PyEnv) (m m' : Model) (model_path : string)
    (token : option string) (fs : FS) :
  load env m model_path token fs = inr m' ->
  _metainfo m' = _metainfo m /\
  exists c o,
    fs !! model_path = Some (File c) /\ _model m' = Some o /\
    ((PyStr.endswith ".pth" model_path || PyStr.endswith ".pt" model_path = true
      /\ torch_load c = inr o)
     \/ (PyStr.endswith ".h5" model_path = true /\ keras_load c = inr o)).
Proof.
  unfold load, open_rb. intros H.
  destruct (resolve env model_path token); [discriminate|].
  destruct (PyStr.endswith ".pth" model_path || PyStr.endswith ".pt" model_path).
  - destruct (negb (torch_in_sys_modules env)); [discriminate|].
    destruct (fs !! model_path) as [[|c]|]; [discriminate| |discriminate].
    destruct (negb (torch_spec env)); [discriminate|].
    destruct (torch_load c) as [e|o] eqn:Hl; [discriminate|].
    cbn in H. injection H as <-. split; [done|].
    exists c, o. split; [done|]. split; [done|]. by left.
  - destruct (PyStr.endswith ".h5" model_path); [|discriminate].
    destruct (negb (tensorflow_in_sys_modules env)); [discriminate|].
    destruct (fs !! model_path) as [[|c]|]; [discriminate| |discriminate].
    destruct (negb (tensorflow_spec env)); [discriminate|].
    destruct (keras_load c) as [e|o] eqn:Hl; [discriminate|].
    cbn in H. injection H as <-. split; [done|].
    exists c, o. split; [done|]. split; [done|]. by right.
Qed.

(** With neither library imported [load] raises whatever the path is,
    and the error is settled before any file is opened: it is the same
    on every filesystem. *)
Lemma load_without_libraries (env : PyEnv) (m : Model) (model_path : string)
    (token : option string) :
  torch_in_sys_modules env = false ->
  tensorflow_in_sys_modules env = false ->
  exists e, forall fs, load env m model_path token fs = inl e.
Proof.
  intros Ht Hf. unfold load. rewrite Ht, Hf. cbn [negb].
  destruct (resolve env model_path token) as [e|url]; [by exists e|].
  destruct (PyStr.endswith ".pth" model_path || PyStr.endswith ".pt" model_path);
    [by eexists|].
  destruct (PyStr.endswith ".h5" model_path); by eexists.
Qed.

(** An [s3://] path with no token and no [AWS_CONFIG_FILE] in the
    environment: both methods raise [KeyError] at once, and [store]
    writes nothing. *)
Lemma s3_needs_credentials (env : PyEnv) (m : Model) (path : string)
    (token : option string) (fs : FS) :
  PyStr.startswith "s3://" path = true ->
  truthy_token token = false ->
  aws_config_file env = None ->
  load env m path token fs = inl (Std (KeyError "AWS_CONFIG_FILE")) /\
  store env m path token fs = (fs, inl (Std (KeyError "AWS_CONFIG_FILE"))).
Proof.
  intros Hs Ht He. unfold load, store, resolve. by rewrite Hs, Ht, He.
Qed.

End ModelMore.

(** ** The further properties on concrete datasets and models *)

(** The registry of [Demo.create_ok] holds ["/image"] and ["/label"],
    each once. *)
Lemma registry_matches_flatten_witness :
  NoDup (dict_keys (_tensors (Demo.dataset_of Demo.create_ok)))
  /\ forall p, p ∈ dict_keys (_tensors (Demo.dataset_of Demo.create_ok))
               <-> p ∈ map ft_path (_flat_tensors (Demo.dataset_of Demo.create_ok)).
Proof.
  apply (registry_matches_flatten (F := SpecFeatures) (T := MemTensors) (R := PlainUrls)
           (Demo.args (Some "w") false (Some [Some 100]) (Some Demo.schema_ok))
           Demo.empty Demo.create_ok.1 (Demo.dataset_of Demo.create_ok)).
  reflexivity.
Defined.

Lemma stores_follow_flatten_order_witness :
  exists evs, w_log Demo.create_ok.1 = (w_log Demo.empty ++ evs)%list
    /\ tensor_new_args evs
       = map (create_args "data/x" "data/x" "w" (shape (Demo.dataset_of Demo.create_ok)))
             (_flat_tensors (Demo.dataset_of Demo.create_ok)).
Proof.
  apply (stores_follow_flatten_order (F := SpecFeatures) (T := MemTensors) (R := PlainUrls)
           (Demo.args (Some "w") false (Some [Some 100]) (Some Demo.schema_ok))
           Demo.empty
           (_check_and_prepare_dir "data/x" "w" Demo.empty).1
           Demo.create_ok.1 true "data/x" "data/x" "w" (Demo.dataset_of Demo.create_ok)).
  - repeat split.
    exists (_check_and_prepare_dir "data/x" "w" Demo.empty).1.
    split; reflexivity.
  - reflexivity.
Defined.

(** Mode ["a"] on a directory that holds a file and no record *)
Lemma prepare_dir_error_touches_nothing_witness :
  w_fs (_check_and_prepare_dir "other" "a" Examples.foreign_map).1
  = w_fs Examples.foreign_map
  /\ (exists evs,
        w_log (_check_and_prepare_dir "other" "a" Examples.foreign_map).1
        = (w_log Examples.foreign_map ++ evs)%list
        /\ forallb is_lookup evs = true)
  /\ Fs.exists_ (w_fs Examples.foreign_map) (PyStr.posixpath_join "other" "meta.json")
     = false
  /\ (NotHubDatasetToAppendException = HubDatasetNotFoundException
      <-> PyStr.contains "r" "a" = true)
  /\ (NotHubDatasetToAppendException <> HubDatasetNotFoundException ->
      Fs.exists_ (w_fs Examples.foreign_map) "other" = true
      /\ (0 < length (Fs.listdir (w_fs Examples.foreign_map) "other"))%nat
      /\ (NotHubDatasetToAppendException = NotHubDatasetToOverwriteException
          <-> PyStr.contains "w" "a" = true)).
Proof.
  apply (prepare_dir_error_touches_nothing "other" "a" Examples.foreign_map
           (_check_and_prepare_dir "other" "a" Examples.foreign_map).1).
  - reflexivity.
  - by right; right.
Defined.

(** Mode ["a"] on the location of [Demo.create_ok] *)
Lemma prepare_dir_without_write_keeps_entries_witness :
  (forall k n, w_fs Demo.create_ok.1 !! k = Some n ->
               w_fs (_check_and_prepare_dir "data/x" "a" Demo.create_ok.1).1 !! k = Some n)
  /\ (PyStr.contains "r" "a" = true ->
      w_fs (_check_and_prepare_dir "data/x" "a" Demo.create_ok.1).1
      = w_fs Demo.create_ok.1).
Proof.
  apply (prepare_dir_without_write_keeps_entries "data/x" "a" Demo.create_ok.1).
  reflexivity.
Defined.

(** Opening [Examples.broken_meta]: the record cannot be decoded. *)
Lemma open_failure_keeps_storage_witness :
  w_fs (Demo.init (Demo.args (Some "r") false None None) Examples.broken_meta).1
  = w_fs Examples.broken_meta
  \/ exists shape_ flat w2,
       w_fs w2 = w_fs Examples.broken_meta
       /\ @_open_storage_tensors MemTensors "data/x" "data/x" "r" shape_ flat [] w2
          = ((Demo.init (Demo.args (Some "r") false None None) Examples.broken_meta).1,
             inl JSONDecodeError).
Proof.
  apply (open_failure_keeps_storage (F := SpecFeatures) (T := MemTensors) (R := PlainUrls)
           (Demo.args (Some "r") false None None) Examples.broken_meta
           (_check_and_prepare_dir "data/x" "r" Examples.broken_meta).1
           (Demo.init (Demo.args (Some "r") false None None) Examples.broken_meta).1
           "data/x" "data/x" "r" JSONDecodeError).
  - repeat split.
    exists (_check_and_prepare_dir "data/x" "r" Examples.broken_meta).1.
    split; reflexivity.
  - reflexivity.
Defined.

(** [ds[5]] *)
Lemma getitem_without_subpath_witness :
  Demo.getitem (Demo.dataset_of Demo.create_ok) (Single (SRange (RInt 5)))
  = ok (IDatasetView {| dv_num_samples := Some 1; dv_offset := 5 |}).
Proof.
  apply (getitem_without_subpath (F := SpecFeatures) (T := MemTensors) (U := SpecUtils)
           (Demo.dataset_of Demo.create_ok) (Single (SRange (RInt 5))) None [RInt 5]).
  - reflexivity.
  - reflexivity.
Defined.

(** [ds["label", 3]] *)
Lemma getitem_registered_field_witness :
  Demo.getitem (Demo.dataset_of Demo.create_ok) (Seq [SStr "label"; SRange (RInt 3)])
  = ok (ITensorView {| tv_subpath := "/label"; tv_slice := SlMany [RInt 3] |}).
Proof.
  apply (getitem_registered_field (F := SpecFeatures) (T := MemTensors) (U := SpecUtils)
           (Demo.dataset_of Demo.create_ok) (Seq [SStr "label"; SRange (RInt 3)])
           (Some "/label") [RInt 3] "/label" (Some 100)).
  - reflexivity.
  - reflexivity.
  - reflexivity.
  - reflexivity.
Defined.

(** [ds["group", 1, 2]] *)
Lemma getitem_group_rejects_terms_witness :
  Demo.getitem (Demo.dataset_of Demo.create_group)
    (Seq [SStr "group"; SRange (RInt 1); SRange (RInt 2)])
  = fail (ValueError "You can't slice a dictionary of Tensors").
Proof.
  apply (getitem_group_rejects_terms (F := SpecFeatures) (T := MemTensors) (U := SpecUtils)
           (Demo.dataset_of Demo.create_group)
           (Seq [SStr "group"; SRange (RInt 1); SRange (RInt 2)])
           (Some "/group") (RInt 1) (RInt 2) [] "/group" (Some 10)).
  - reflexivity.
  - reflexivity.
  - reflexivity.
  - reflexivity.
Defined.

(** No field of [Demo.create_group] is below ["/other/"]. *)
Lemma get_dictionary_no_match_witness :
  @_get_dictionary SpecFeatures MemTensors (Demo.dataset_of Demo.create_group) "/other" None
  = fail (KeyError "Key /other/ was not found in dataset").
Proof.
  apply (get_dictionary_no_match (F := SpecFeatures) (T := MemTensors)
           (Demo.dataset_of Demo.create_group) "/other" None).
  repeat constructor.
Defined.

Lemma get_dictionary_views_registered_witness :
  [("a", TView {| tv_subpath := "/group/a";
                  tv_slice := SlOne (RSlice (Some 0) (Some 10) None) |});
   ("b", TView {| tv_subpath := "/group/b";
                  tv_slice := SlOne (RSlice (Some 0) (Some 10) None) |})] <> []
  /\ Forall (fun v =>
       tv_subpath v ∈ dict_keys (_tensors (Demo.dataset_of Demo.create_group))
       /\ PyStr.startswith "/group/" (tv_subpath v) = true)
     (dict_views
        [("a", TView {| tv_subpath := "/group/a";
                        tv_slice := SlOne (RSlice (Some 0) (Some 10) None) |});
         ("b", TView {| tv_subpath := "/group/b";
                        tv_slice := SlOne (RSlice (Some 0) (Some 10) None) |})]).
Proof.
  apply (get_dictionary_views_registered (F := SpecFeatures) (T := MemTensors)
           (Demo.dataset_of Demo.create_group) "/group" None).
  reflexivity.
Defined.

(** Sample 1 of [Examples.create_three], as a TensorFlow record and as a
    PyTorch item *)
Lemma torch_getitem_is_tf_record_witness :
  @torch_getitem SpecFeatures MemTensors MemReads
    (Demo.dataset_of Examples.create_three) (w_fs Examples.create_three.1) 1
  = result_map (record_map (fun s : Z => [s]))
      (@tf_record SpecFeatures MemTensors MemReads
         (Demo.dataset_of Examples.create_three) (w_fs Examples.create_three.1) 1).
Proof.
  apply (torch_getitem_is_tf_record (F := SpecFeatures) (T := MemTensors) (RD := MemReads)
           (fun s : Z => [s])
           (Demo.dataset_of Examples.create_three) (w_fs Examples.create_three.1) 1).
  reflexivity.
Defined.

Lemma unbounded_shape_has_no_length_witness :
  @py_len SpecFeatures MemTensors (Demo.dataset_of Examples.create_unbounded)
  = fail TypeError
  /\ @__iter__ SpecFeatures MemTensors SpecUtils (Demo.dataset_of Examples.create_unbounded)
     = ([], Some TypeError)
  /\ @tf_gen SpecFeatures MemTensors MemReads (Demo.dataset_of Examples.create_unbounded)
       (w_fs Examples.create_unbounded.1)
     = ([], Some TypeError).
Proof.
  apply (unbounded_shape_has_no_length (F := SpecFeatures) (T := MemTensors)
           (U := SpecUtils) (RD := MemReads)
           (Demo.dataset_of Examples.create_unbounded) (w_fs Examples.create_unbounded.1)).
  reflexivity.
Defined.

(** Iterating over [Examples.create_three] *)
Lemma iter_yields_every_sample_witness :
  @__iter__ SpecFeatures MemTensors SpecUtils (Demo.dataset_of Examples.create_three)
  = ([IDatasetView {| dv_num_samples := Some 1; dv_offset := 0 |};
      IDatasetView {| dv_num_samples := Some 1; dv_offset := 1 |};
      IDatasetView {| dv_num_samples := Some 1; dv_offset := 2 |}], None).
Proof.
  apply (iter_yields_every_sample (F := SpecFeatures) (T := MemTensors) (U := SpecUtils)
           (Demo.dataset_of Examples.create_three) 3 [] (fun i => (Some 1, i))).
  - reflexivity.
  - unfold sys_maxsize. lia.
  - reflexivity.
  - reflexivity.
Defined.

(** The record of sample 0 of [Demo.create_group] and the dictionary of
    ["/"]: one group holding [a] and [b]. *)
Lemma tf_record_nesting_is_root_dictionary_witness :
  skeleton [("group", NDict [("a", NLeaf 0); ("b", NLeaf 0)])]
  = skeleton
      (dict_to_record
         [("group",
           TDict [("a", TView {| tv_subpath := "/group/a";
                                 tv_slice := SlOne (RSlice (Some 0) (Some 10) None) |});
                  ("b", TView {| tv_subpath := "/group/b";
                                 tv_slice := SlOne (RSlice (Some 0) (Some 10) None) |})])]).
Proof.
  apply (tf_record_nesting_is_root_dictionary (F := SpecFeatures) (T := MemTensors)
           (RD := MemReads)
           (Demo.dataset_of Demo.create_group) (w_fs Demo.create_group.1) 0 None).
  - repeat constructor.
  - reflexivity.
  - reflexivity.
Defined.

(** Storing a PyTorch module in an empty directory *)
Lemma store_writes_one_file_witness :
  exists url o,
    @Training.resolve PlainUrls ModelDemo.env_all "models" None = inr url
    /\ Some (ModelDemo.TorchNet 7) = Some o
    /\ ((exists sd c,
           @Training.state_dict ModelDemo.Libs o = inr sd
           /\ @Training.torch_save ModelDemo.Libs sd = inr c
           /\ <["models/TorchNet.pth" := File (Doc (ModelDemo.encode (ModelDemo.StateDict 7)))]>
                ModelDemo.empty_dir
              = <[@Training.target ModelDemo.Libs url o ".pth" := File c]> ModelDemo.empty_dir)
        \/ (exists c,
              @Training.keras_save ModelDemo.Libs o = inr c
              /\ <["models/TorchNet.pth" := File (Doc (ModelDemo.encode (ModelDemo.StateDict 7)))]>
                   ModelDemo.empty_dir
                 = <[@Training.target ModelDemo.Libs url o ".h5" := File c]> ModelDemo.empty_dir)).
Proof.
  apply (store_writes_one_file (R := PlainUrls) (L := ModelDemo.Libs)
           ModelDemo.env_all (ModelDemo.model_of (Some (ModelDemo.TorchNet 7)))
           "models" None ModelDemo.empty_dir).
  reflexivity.
Defined.

(** A save that raises after two bytes: the model stored before is
    gone, the two bytes are in its place. *)
Lemma failed_store_effect_witness :
  <["models/TorchNet.pth" := File (Raw [Byte.x50; Byte.x4b])]> ModelDemo.old_file
  = ModelDemo.old_file
  \/ exists url o written,
       @Training.resolve PlainUrls ModelDemo.env_all "models" None = inr url
       /\ Some (ModelDemo.TorchNet 7) = Some o
       /\ (true && @Training.is_torch_module ModelDemo.BrokenLibs o)
          || (true && @Training.is_lightning_module ModelDemo.BrokenLibs o) = true
       /\ <["models/TorchNet.pth" := File (Raw [Byte.x50; Byte.x4b])]> ModelDemo.old_file
          = <[@Training.target ModelDemo.BrokenLibs url o ".pth" := File written]>
              ModelDemo.old_file
       /\ (written = Raw []
           \/ exists sd e',
                @Training.state_dict ModelDemo.BrokenLibs o = inr sd
                /\ @Training.torch_save ModelDemo.BrokenLibs sd = inl (written, e')
                /\ Training.Std (CollaboratorError "torch" "save") = Training.Std e').
Proof.
  apply (failed_store_effect (R := PlainUrls) (L := ModelDemo.BrokenLibs)
           ModelDemo.env_all
           (@Training.Build_Model ModelDemo.BrokenLibs None (Some (ModelDemo.TorchNet 7)))
           "models" None ModelDemo.old_file
           (<["models/TorchNet.pth" := File (Raw [Byte.x50; Byte.x4b])]> ModelDemo.old_file)
           (Training.Std (CollaboratorError "torch" "save"))).
  reflexivity.
Defined.

(** A module stored in an existing directory and loaded: what comes
    back is its state dictionary. *)
Lemma load_after_torch_store_witness :
  ModelDemo.load_ ModelDemo.env_all (ModelDemo.model_of None)
    "models/TorchNet.pth" None
    (ModelDemo.store_ ModelDemo.env_all (ModelDemo.model_of (Some (ModelDemo.TorchNet 7)))
       "models" None ModelDemo.empty_dir).1
  = inr (ModelDemo.model_of (Some (ModelDemo.StateDict 7))).
Proof.
  apply (load_after_torch_store (R := PlainUrls) (L := ModelDemo.Libs)
           ModelDemo.env_all (ModelDemo.model_of (Some (ModelDemo.TorchNet 7)))
           (ModelDemo.model_of None) "models" "models" "models/TorchNet.pth" None None
           ModelDemo.empty_dir
           (ModelDemo.store_ ModelDemo.env_all
              (ModelDemo.model_of (Some (ModelDemo.TorchNet 7)))
              "models" None ModelDemo.empty_dir).1
           (ModelDemo.TorchNet 7) (ModelDemo.StateDict 7) (ModelDemo.StateDict 7)
           (Doc (ModelDemo.encode (ModelDemo.StateDict 7))));
    reflexivity.
Defined.

Lemma load_after_keras_store_witness :
  ModelDemo.load_ ModelDemo.env_all (ModelDemo.model_of None)
    "models/KerasNet.h5" None
    (ModelDemo.store_ ModelDemo.env_all (ModelDemo.model_of (Some (ModelDemo.KerasNet 7)))
       "models" None ModelDemo.empty_dir).1
  = inr (ModelDemo.model_of (Some (ModelDemo.KerasNet 7))).
Proof.
  apply (load_after_keras_store (R := PlainUrls) (L := ModelDemo.Libs)
           ModelDemo.env_all (ModelDemo.model_of (Some (ModelDemo.KerasNet 7)))
           (ModelDemo.model_of None) "models" "models" "models/KerasNet.h5" None None
           ModelDemo.empty_dir
           (ModelDemo.store_ ModelDemo.env_all
              (ModelDemo.model_of (Some (ModelDemo.KerasNet 7)))
              "models" None ModelDemo.empty_dir).1
           (ModelDemo.KerasNet 7) (ModelDemo.KerasNet 7)
           (Doc (ModelDemo.encode (ModelDemo.KerasNet 7))));
    reflexivity.
Defined.

(** Storing where the directory does not exist raises, and nothing is
    written. *)
Example store_needs_the_directory :
  ModelDemo.store_ ModelDemo.env_all (ModelDemo.model_of (Some (ModelDemo.TorchNet 7)))
    "models" None ∅
  = (∅, inl (Training.FileNotFoundError "models/TorchNet.pth")).
Proof. reflexivity. Qed.

(** A directory beside the model file makes no difference. *)
Lemma load_reads_only_model_path_witness :
  ModelDemo.load_ ModelDemo.env_all (ModelDemo.model_of None) "models/TorchNet.pth" None
    ModelDemo.old_file
  = ModelDemo.load_ ModelDemo.env_all (ModelDemo.model_of None) "models/TorchNet.pth" None
      (<["other" := Dir]> ModelDemo.old_file).
Proof.
  apply (load_reads_only_model_path (R := PlainUrls) (L := ModelDemo.Libs)
           ModelDemo.env_all (ModelDemo.model_of None) "models/TorchNet.pth" None
           ModelDemo.old_file (<["other" := Dir]> ModelDemo.old_file)).
  reflexivity.
Defined.

Lemma load_ok_inv_witness :
  @Training._metainfo ModelDemo.Libs (ModelDemo.model_of (Some (ModelDemo.StateDict 1)))
  = @Training._metainfo ModelDemo.Libs (ModelDemo.model_of None)
  /\ exists c o,
       ModelDemo.old_file !! "models/TorchNet.pth" = Some (File c)
       /\ Some (ModelDemo.StateDict 1) = Some o
       /\ ((PyStr.endswith ".pth" "models/TorchNet.pth"
            || PyStr.endswith ".pt" "models/TorchNet.pth" = true
            /\ @Training.torch_load ModelDemo.Libs c = inr o)
           \/ (PyStr.endswith ".h5" "models/TorchNet.pth" = true
               /\ @Training.keras_load ModelDemo.Libs c = inr o)).
Proof.
  apply (load_ok_inv (R := PlainUrls) (L := ModelDemo.Libs)
           ModelDemo.env_all (ModelDemo.model_of None)
           (ModelDemo.model_of (Some (ModelDemo.StateDict 1)))
           "models/TorchNet.pth" None ModelDemo.old_file).
  reflexivity.
Defined.

Lemma load_without_libraries_witness :
  exists e, forall fs,
    ModelDemo.load_ ModelDemo.env_none (ModelDemo.model_of None) "models/TorchNet.pth" None fs
    = inl e.
Proof.
  apply (load_without_libraries (R := PlainUrls) (L := ModelDemo.Libs)
           ModelDemo.env_none (ModelDemo.model_of None) "models/TorchNet.pth" None);
    reflexivity.
Defined.

(** An empty token counts as none. *)
Lemma s3_needs_credentials_witness :
  ModelDemo.load_ ModelDemo.env_all (ModelDemo.model_of None) "s3://bucket/m.pth" (Some "")
    ModelDemo.old_file
  = inl (Training.Std (KeyError "AWS_CONFIG_FILE"))
  /\ ModelDemo.store_ ModelDemo.env_all (ModelDemo.model_of None) "s3://bucket/m.pth"
       (Some "") ModelDemo.old_file
     = (ModelDemo.old_file, inl (Training.Std (KeyError "AWS_CONFIG_FILE"))).
Proof.
  apply (s3_needs_credentials (R := PlainUrls) (L := ModelDemo.Libs)
           ModelDemo.env_all (ModelDemo.model_of None) "s3://bucket/m.pth" (Some "")
           ModelDemo.old_file);
    reflexivity.
Defined.
